(** * Strukture: request handlers of the property-management application

    A shallow embedding of the API route handlers (maintenance requests,
    creation, update and deletion of units, deletion of properties,
    onboarding submission, tenant payments) together with the validation
    schemas they use, of the middleware, and of the masks and the Markdown
    escape of the libraries; the properties of the specification that
    concern them, and further properties of the code.

    Conventions of the embedding:
    - a handler is a function from the session, the route parameters, the
      parsed JSON body, the value of [new Date()] and the database to a
      response and a database;
    - the database is a record of tables, each a list of rows in insertion
      order; Prisma's client calls are functions on that record; a row
      holds the columns that the handlers read or that a property speaks
      of, so that a write of other columns is not seen in it;
    - a relation that a handler reads (the property that owns the unit of a
      request) is looked up, and the client throws when a required one is
      missing; a relation that a query includes only to return it is not
      looked up, the row standing for itself and what is included;
    - the constraints of the database schema, which is not part of the
      sources at hand, are taken to hold of the inputs (the user of the
      session is a row of the users table, an assignee named in a body
      exists): a write throws only for a record that is not found or for
      an invalid date; a delete removes the row it names and does not
      follow the rows of other tables that refer to it, so that what is
      proved of a deletion that succeeds is stated for a row to which
      nothing refers;
    - [prisma.$transaction] rolls the database back when its callback throws;
    - the [try { ... } catch] around every handler turns a thrown exception
      into the handler's 500 response; a body that [request.json()] cannot
      parse ends there as well and is not an input of the model;
    - a JSON number is the rational that its Number value stands for, and
      the arithmetic of the handlers on such rationals is exact; the
      product [amount * 100] of the payment gateway is given a second time
      as the code computes it, rounded to binary64;
    - strings are sequences of code units. *)

From Stdlib Require Import String Ascii List Bool ZArith QArith Lia Permutation.
From Stdlib Require Import Qround DecimalString Sorted Qabs Qpower Lqa.
Import ListNotations.

Close Scope Q_scope.
Local Open Scope string_scope.
Local Open Scope list_scope.

Set Implicit Arguments.
Set Warnings "-register-all".

(* ===================================================================== *)
(** * Enumerations (the string literal unions of the validators) *)
(* ===================================================================== *)

(** [session.user.role] *)
Inductive Role := TENANT | LANDLORD | ADMIN.

(** [maintenanceStatuses] of validators/maintenance.ts *)
Inductive MaintenanceStatus :=
  SUBMITTED | ACKNOWLEDGED | IN_PROGRESS | ON_HOLD | COMPLETED | CANCELLED.

(** [maintenancePriorities] *)
Inductive MaintenancePriority := LOW | MEDIUM | HIGH | EMERGENCY.

(** [maintenanceCategories] *)
Inductive MaintenanceCategory :=
  PLUMBING | ELECTRICAL | HVAC | APPLIANCE | STRUCTURAL | PEST_CONTROL
| LANDSCAPING | CLEANING | SECURITY | OTHER_CATEGORY.

(** Lease statuses named by the data model. *)
Inductive LeaseStatus :=
  LEASE_DRAFT | PENDING_SIGNATURE | LEASE_ACTIVE | LEASE_EXPIRED
| LEASE_TERMINATED | LEASE_RENEWED.

(** [unitStatuses] of validators/property.ts *)
Inductive UnitStatus := VACANT | OCCUPIED | UNDER_MAINTENANCE | RESERVED.

(** [paymentMethods], [paymentTypes], [paymentStatuses] of validators/payment.ts *)
Inductive PaymentMethod :=
  ACH | DEBIT_CARD | CREDIT_CARD | CASHIER_CHECK | CASH | OTHER_METHOD.
Inductive PaymentType :=
  RENT | DEPOSIT | LATE_FEE | UTILITY | MAINTENANCE_FEE | OTHER_TYPE.
Inductive PaymentStatus :=
  PENDING | PROCESSING | PAYMENT_COMPLETED | FAILED | REFUNDED | PAYMENT_CANCELLED.

(** Employment statuses and lease terms of validators/onboarding.ts *)
Inductive EmploymentStatus := EMPLOYED | SELF_EMPLOYED | UNEMPLOYED | STUDENT | RETIRED.
Inductive LeaseTerm := Term6 | Term12 | Term18 | Term24.

(** User account status; the onboarding handler writes ['ACTIVE']. *)
Inductive UserStatus := USER_PENDING | USER_ACTIVE | USER_INACTIVE.

Scheme Equality for Role.
Scheme Equality for MaintenanceStatus.
Scheme Equality for LeaseStatus.
Scheme Equality for UnitStatus.
Scheme Equality for PaymentStatus.

(** The string each status is at run time (used by template literals). *)
Definition status_str (s : MaintenanceStatus) : string :=
  match s with
  | SUBMITTED => "SUBMITTED" | ACKNOWLEDGED => "ACKNOWLEDGED"
  | IN_PROGRESS => "IN_PROGRESS" | ON_HOLD => "ON_HOLD"
  | COMPLETED => "COMPLETED" | CANCELLED => "CANCELLED"
  end.

Definition maintenanceStatuses : list (string * MaintenanceStatus) :=
  [ ("SUBMITTED", SUBMITTED); ("ACKNOWLEDGED", ACKNOWLEDGED);
    ("IN_PROGRESS", IN_PROGRESS); ("ON_HOLD", ON_HOLD);
    ("COMPLETED", COMPLETED); ("CANCELLED", CANCELLED) ].

Definition maintenancePriorities : list (string * MaintenancePriority) :=
  [ ("LOW", LOW); ("MEDIUM", MEDIUM); ("HIGH", HIGH); ("EMERGENCY", EMERGENCY) ].

Definition maintenanceCategories : list (string * MaintenanceCategory) :=
  [ ("PLUMBING", PLUMBING); ("ELECTRICAL", ELECTRICAL); ("HVAC", HVAC);
    ("APPLIANCE", APPLIANCE); ("STRUCTURAL", STRUCTURAL);
    ("PEST_CONTROL", PEST_CONTROL); ("LANDSCAPING", LANDSCAPING);
    ("CLEANING", CLEANING); ("SECURITY", SECURITY); ("OTHER", OTHER_CATEGORY) ].

Definition paymentMethods : list (string * PaymentMethod) :=
  [ ("ACH", ACH); ("DEBIT_CARD", DEBIT_CARD); ("CREDIT_CARD", CREDIT_CARD);
    ("CASHIER_CHECK", CASHIER_CHECK); ("CASH", CASH); ("OTHER", OTHER_METHOD) ].

Definition paymentTypes : list (string * PaymentType) :=
  [ ("RENT", RENT); ("DEPOSIT", DEPOSIT); ("LATE_FEE", LATE_FEE);
    ("UTILITY", UTILITY); ("MAINTENANCE", MAINTENANCE_FEE); ("OTHER", OTHER_TYPE) ].

Definition employmentStatuses : list (string * EmploymentStatus) :=
  [ ("EMPLOYED", EMPLOYED); ("SELF_EMPLOYED", SELF_EMPLOYED);
    ("UNEMPLOYED", UNEMPLOYED); ("STUDENT", STUDENT); ("RETIRED", RETIRED) ].

Definition leaseTerms : list (string * LeaseTerm) :=
  [ ("6", Term6); ("12", Term12); ("18", Term18); ("24", Term24) ].

(** [parseInt(data.leaseTerm)] on the four admitted literals. *)
Definition parseInt_leaseTerm (t : LeaseTerm) : Z :=
  match t with Term6 => 6 | Term12 => 12 | Term18 => 18 | Term24 => 24 end%Z.

(* ===================================================================== *)
(** * JSON values *)
(* ===================================================================== *)

Inductive json :=
| JNull
| JBool (b : bool)
| JNum (q : Q)
| JStr (s : string)
| JArr (items : list json)
| JObj (fields : list (string * json)).

(** Property access [obj[key]]; [None] is [undefined].  When a key occurs
    twice in the text, [JSON.parse] keeps the last occurrence. *)
Definition get_field (key : string) (fields : list (string * json)) : option json :=
  fold_left (fun acc kv => if String.eqb (fst kv) key then Some (snd kv) else acc)
            fields None.

(** JavaScript truthiness of a string. *)
Definition truthy (s : string) : bool := negb (String.eqb s "").

(** An optional string that is present and truthy. *)
Definition if_truthy (s : option string) : option string :=
  match s with
  | Some v => if truthy v then Some v else None
  | None => None
  end.

(* ===================================================================== *)
(** * The schema combinators (zod) *)
(* ===================================================================== *)

Module Zod.

Local Open Scope string_scope.

Record ZodIssue := { path : list string; message : string }.

(** [safeParse]: either the typed data or the issues, in the order in
    which the schema found them. *)
Inductive SafeParseReturnType (A : Type) :=
| ParseOk (data : A)
| ParseError (errors : list ZodIssue).
Arguments ParseOk {A} data.
Arguments ParseError {A} errors.

Definition ZodType (A : Type) := option json -> SafeParseReturnType A.

(** [getParsedType], as the default messages print it. *)
Definition received (j : json) : string :=
  match j with
  | JNull => "null" | JBool _ => "boolean" | JNum _ => "number"
  | JStr _ => "string" | JArr _ => "array" | JObj _ => "object"
  end.

(** The default message of an [invalid_type] issue. *)
Definition invalid_type (expected : string) (input : option json) : ZodIssue :=
  {| path := [];
     message := match input with
                | None => "Required"
                | Some j => "Expected " ++ expected ++ ", received " ++ received j
                end |}.

Definition issues_of {A} (r : SafeParseReturnType A) : list ZodIssue :=
  match r with ParseOk _ => [] | ParseError e => e end.

Definition map_result {A B} (f : A -> B) (r : SafeParseReturnType A)
  : SafeParseReturnType B :=
  match r with ParseOk a => ParseOk (f a) | ParseError e => ParseError e end.

(** A check of [z.string()] or [z.number()]: the test and the message of
    the issue added when the test fails.  All checks of a schema run. *)
Record Check (A : Type) := { test : A -> bool; check_message : string }.

Definition run_checks {A} (checks : list (Check A)) (a : A) : SafeParseReturnType A :=
  match flat_map (fun c => if test c a then []
                           else [ {| path := []; message := check_message c |} ])
                 checks with
  | [] => ParseOk a
  | e => ParseError e
  end.

Definition min (n : nat) (msg : string) : Check string :=
  {| test := fun s => Nat.leb n (String.length s); check_message := msg |}.
Definition max (n : nat) (msg : string) : Check string :=
  {| test := fun s => Nat.leb (String.length s) n; check_message := msg |}.
Definition length (n : nat) (msg : string) : Check string :=
  {| test := fun s => Nat.eqb (String.length s) n; check_message := msg |}.
Definition refine_string (p : string -> bool) (msg : string) : Check string :=
  {| test := p; check_message := msg |}.
Definition min_number (q : Q) (msg : string) : Check Q :=
  {| test := fun x => Qle_bool q x; check_message := msg |}.

(** The messages of the default error map for checks given no message. *)
Definition dec (n : nat) : string := NilEmpty.string_of_uint (Nat.to_uint n).
Definition min_ (n : nat) : Check string :=
  min n ("String must contain at least " ++ dec n ++ " character(s)").
Definition max_ (n : nat) : Check string :=
  max n ("String must contain at most " ++ dec n ++ " character(s)").
Definition length_ (n : nat) : Check string :=
  length n ("String must contain exactly " ++ dec n ++ " character(s)").
Definition min_number_ (n : nat) : Check Q :=
  min_number (inject_Z (Z.of_nat n))
             ("Number must be greater than or equal to " ++ dec n).

(** [z.string()] with its checks. *)
Definition string_ (checks : list (Check string)) : ZodType string :=
  fun input =>
    match input with
    | Some (JStr s) => run_checks checks s
    | _ => ParseError [invalid_type "string" input]
    end.

(** [z.number()] with its checks. *)
Definition number (checks : list (Check Q)) : ZodType Q :=
  fun input =>
    match input with
    | Some (JNum q) => run_checks checks q
    | _ => ParseError [invalid_type "number" input]
    end.

(** [z.boolean()] *)
Definition boolean : ZodType bool :=
  fun input =>
    match input with
    | Some (JBool b) => ParseOk b
    | _ => ParseError [invalid_type "boolean" input]
    end.

(** [util.joinValues]: ['A' | 'B' | ...] *)
Definition joinValues {A} (values : list (string * A)) : string :=
  String.concat " | " (map (fun v => "'" ++ fst v ++ "'") values).

Definition lookup_value {A} (values : list (string * A)) (s : string) : option A :=
  option_map snd (find (fun v => String.eqb (fst v) s) values).

(** [z.enum(values, { errorMap })]: with an [errorMap] every issue of the
    schema carries its message. *)
Definition enum {A} (values : list (string * A)) (errorMap : option string)
  : ZodType A :=
  fun input =>
    let issue (dflt : ZodIssue) :=
      match errorMap with
      | Some m => {| path := []; message := m |}
      | None => dflt
      end in
    match input with
    | Some (JStr s) =>
        match lookup_value values s with
        | Some a => ParseOk a
        | None =>
            ParseError
              [issue {| path := [];
                        message := "Invalid enum value. Expected " ++ joinValues values
                                   ++ ", received '" ++ s ++ "'" |}]
        end
    | _ => ParseError [issue (invalid_type (joinValues values) input)]
    end.

(** [.optional()]: [undefined] is accepted as it is. *)
Definition optional {A} (inner : ZodType A) : ZodType (option A) :=
  fun input =>
    match input with
    | None => ParseOk None
    | Some _ => map_result Some (inner input)
    end.

(** [.optional().default(v)]: [undefined] is replaced by [v], which is
    then parsed by the inner schema. *)
Definition optional_default {A} (inner : ZodType A) (v : json) : ZodType A :=
  fun input =>
    match input with
    | None => inner (Some v)
    | Some _ => inner input
    end.

Definition at_path (key : string) (i : ZodIssue) : ZodIssue :=
  {| path := key :: path i; message := message i |}.

(** [z.array(element)]: every element is parsed, the issues of all of
    them are reported, each under its index. *)
Fixpoint array_items {A} (element : ZodType A) (idx : nat) (items : list json)
  : list A * list ZodIssue :=
  match items with
  | [] => ([], [])
  | j :: rest =>
      let '(vs, es) := array_items element (S idx) rest in
      match element (Some j) with
      | ParseOk a => (a :: vs, es)
      | ParseError e =>
          (vs, (map (at_path (dec idx)) e ++ es)%list)
      end
  end.

Definition array {A} (element : ZodType A) : ZodType (list A) :=
  fun input =>
    match input with
    | Some (JArr items) =>
        match array_items element 0 items with
        | (vs, []) => ParseOk vs
        | (_, e) => ParseError e
        end
    | _ => ParseError [invalid_type "array" input]
    end.

(** One key of [z.object({ ... })]: the key's schema applied to
    [body[key]], its issues placed under the key. *)
Definition field {A} (key : string) (schema : ZodType A)
           (fields : list (string * json)) : SafeParseReturnType A :=
  match schema (get_field key fields) with
  | ParseOk a => ParseOk a
  | ParseError e => ParseError (map (at_path key) e)
  end.

(** The keys of an object schema are parsed in the order of the shape and
    the issues of all keys accumulate in that order. *)
Definition ap {A B} (f : SafeParseReturnType (A -> B)) (a : SafeParseReturnType A)
  : SafeParseReturnType B :=
  match f, a with
  | ParseOk g, ParseOk x => ParseOk (g x)
  | ParseOk _, ParseError e => ParseError e
  | ParseError e, ParseOk _ => ParseError e
  | ParseError e1, ParseError e2 => ParseError (e1 ++ e2)%list
  end.

(** [z.object(shape)]: anything but an object is one [invalid_type] issue. *)
Definition object {A} (shape : list (string * json) -> SafeParseReturnType A)
  : json -> SafeParseReturnType A :=
  fun body =>
    match body with
    | JObj fields => shape fields
    | _ => ParseError [invalid_type "object" (Some body)]
    end.

(** [result.error.errors[0].message] *)
Definition first_message (errors : list ZodIssue) : option string :=
  option_map message (hd_error errors).

End Zod.

Declare Scope zod_scope.
Delimit Scope zod_scope with zod.
Notation "f <*> a" := (Zod.ap f a) (at level 61, left associativity) : zod_scope.
Local Open Scope zod_scope.

(* ===================================================================== *)
(** * Dates *)
(* ===================================================================== *)

(** A JavaScript [Date]: a time value in milliseconds, or Invalid Date. *)
Inductive Date := DateMs (ms : Z) | InvalidDate.

(* ===================================================================== *)
(** * External collaborators *)
(* ===================================================================== *)

(** A customer and a payment intent of the payment gateway, with the
    fields the handlers read. *)
Record StripeCustomer := { customer_id : string; customer_deleted : bool }.
Record StripePaymentIntent := { intent_id : string; client_secret : option string }.

(** What the handlers call and this repository does not define: the
    predicates behind the schema's [.url()] and [.email()], the parsing of
    date strings, date-fns' [addMonths], the cipher, the database's id
    generator and the gateway's SDK.  A gateway call answers [None] when
    it throws. *)
Class Externals := {
  is_url : string -> bool;
  is_email : string -> bool;
  newDate : string -> Date;
  addMonths_ms : Z -> Z -> Z;
  AES_encrypt : string -> string;
  cuid : nat -> string;
  customers_retrieve : string -> option StripeCustomer;
  customers_create : string -> string -> string -> option StripeCustomer;
  paymentIntents_create : Z -> string -> string -> string -> PaymentType
                          -> option StripePaymentIntent
}.

(** date-fns [addMonths]: Invalid Date in, Invalid Date out. *)
Definition addMonths {E : Externals} (d : Date) (n : Z) : Date :=
  match d with
  | DateMs ms => DateMs (addMonths_ms ms n)
  | InvalidDate => InvalidDate
  end.

(** [encrypt] of lib/encryption. *)
Definition encrypt {E : Externals} (text : string) : string :=
  if truthy text then AES_encrypt text else "".

(* ===================================================================== *)
(** * validators/maintenance.ts *)
(* ===================================================================== *)

Record CreateMaintenanceRequestInput := {
  cm_title : string;
  cm_description : string;
  cm_category : MaintenanceCategory;
  cm_priority : MaintenancePriority;
  cm_entryPermission : bool;
  cm_preferredTimes : option string;
  cm_photoUrls : list string
}.

Definition createMaintenanceRequestSchema {E : Externals}
  : json -> Zod.SafeParseReturnType CreateMaintenanceRequestInput :=
  Zod.object (fun body =>
    Zod.ParseOk Build_CreateMaintenanceRequestInput
    <*> Zod.field "title"
          (Zod.string_ [Zod.min 1 "Title is required"; Zod.max_ 200]) body
    <*> Zod.field "description"
          (Zod.string_ [Zod.min 10 "Please provide a detailed description";
                        Zod.max_ 2000]) body
    <*> Zod.field "category"
          (Zod.enum maintenanceCategories (Some "Please select a category")) body
    <*> Zod.field "priority"
          (Zod.optional_default (Zod.enum maintenancePriorities None) (JStr "MEDIUM"))
          body
    <*> Zod.field "entryPermission"
          (Zod.optional_default Zod.boolean (JBool false)) body
    <*> Zod.field "preferredTimes" (Zod.optional (Zod.string_ [Zod.max_ 500])) body
    <*> Zod.field "photoUrls"
          (Zod.optional_default
             (Zod.array (Zod.string_ [Zod.refine_string is_url "Invalid url"]))
             (JArr [])) body).

Record UpdateMaintenanceRequestInput := {
  um_status : option MaintenanceStatus;
  um_priority : option MaintenancePriority;
  um_assignedToId : option string;
  um_scheduledDate : option string;
  um_scheduledTimeSlot : option string;
  um_estimatedCost : option Q;
  um_actualCost : option Q;
  um_vendorName : option string;
  um_vendorPhone : option string;
  um_resolutionNotes : option string
}.

Definition updateMaintenanceRequestSchema
  : json -> Zod.SafeParseReturnType UpdateMaintenanceRequestInput :=
  Zod.object (fun body =>
    Zod.ParseOk Build_UpdateMaintenanceRequestInput
    <*> Zod.field "status" (Zod.optional (Zod.enum maintenanceStatuses None)) body
    <*> Zod.field "priority" (Zod.optional (Zod.enum maintenancePriorities None)) body
    <*> Zod.field "assignedToId" (Zod.optional (Zod.string_ [])) body
    <*> Zod.field "scheduledDate" (Zod.optional (Zod.string_ [])) body
    <*> Zod.field "scheduledTimeSlot" (Zod.optional (Zod.string_ [Zod.max_ 100])) body
    <*> Zod.field "estimatedCost" (Zod.optional (Zod.number [Zod.min_number_ 0])) body
    <*> Zod.field "actualCost" (Zod.optional (Zod.number [Zod.min_number_ 0])) body
    <*> Zod.field "vendorName" (Zod.optional (Zod.string_ [Zod.max_ 100])) body
    <*> Zod.field "vendorPhone" (Zod.optional (Zod.string_ [Zod.max_ 20])) body
    <*> Zod.field "resolutionNotes" (Zod.optional (Zod.string_ [Zod.max_ 2000])) body).

Record AddMaintenanceUpdateInput := {
  au_message : string;
  au_newStatus : option MaintenanceStatus;
  au_isPublic : bool;
  au_photoUrls : list string
}.

Definition addMaintenanceUpdateSchema {E : Externals}
  : json -> Zod.SafeParseReturnType AddMaintenanceUpdateInput :=
  Zod.object (fun body =>
    Zod.ParseOk Build_AddMaintenanceUpdateInput
    <*> Zod.field "message"
          (Zod.string_ [Zod.min 1 "Message is required"; Zod.max_ 1000]) body
    <*> Zod.field "newStatus" (Zod.optional (Zod.enum maintenanceStatuses None)) body
    <*> Zod.field "isPublic" (Zod.optional_default Zod.boolean (JBool true)) body
    <*> Zod.field "photoUrls"
          (Zod.optional_default
             (Zod.array (Zod.string_ [Zod.refine_string is_url "Invalid url"]))
             (JArr [])) body).

(* ===================================================================== *)
(** * The database *)
(* ===================================================================== *)

(** Rows carry the columns the handlers read or write. *)

Record User := {
  user_id : string;
  user_email : string;
  user_firstName : string;
  user_lastName : string;
  user_phone : option string;
  user_dateOfBirth : option Z;
  user_ssnEncrypted : option string;
  user_emergencyContactName : option string;
  user_emergencyContactPhone : option string;
  user_emergencyContactRelation : option string;
  user_status : UserStatus;
  user_stripeCustomerId : option string
}.

Record Property := {
  property_id : string;
  property_name : string;
  property_ownerId : string;
  property_totalUnits : Z
}.

Record Unit := {
  unit_id : string;
  unit_propertyId : string;
  unit_unitNumber : string;
  unit_status : UnitStatus;
  unit_monthlyRent : Q;
  unit_depositAmount : Q
}.

Record Lease := {
  lease_id : string;
  lease_tenantId : string;
  lease_unitId : string;
  lease_status : LeaseStatus;
  lease_startDate : Z;
  lease_endDate : Z;
  lease_monthlyRent : Q;
  lease_depositAmount : Q;
  lease_rentDueDay : Z;
  lease_gracePeriodDays : Z;
  lease_tenantSignature : option string;
  lease_tenantSignedAt : option Z;
  lease_tenantSignedIp : option string;
  lease_moveInDate : option Z
}.

Record Payment := {
  payment_id : string;
  payment_userId : string;
  payment_leaseId : string;
  payment_type : PaymentType;
  payment_method : PaymentMethod;
  payment_status : PaymentStatus;
  payment_amount : Q;
  payment_totalAmount : Q;
  payment_dueDate : Z;
  payment_periodStart : option Z;
  payment_periodEnd : option Z;
  payment_notes : option string;
  payment_stripePaymentIntentId : option string
}.

Record MaintenanceRequest := {
  mr_id : string;
  mr_tenantId : string;
  mr_unitId : string;
  mr_title : string;
  mr_description : string;
  mr_category : MaintenanceCategory;
  mr_priority : MaintenancePriority;
  mr_status : MaintenanceStatus;
  mr_entryPermission : bool;
  mr_preferredTimes : option string;
  mr_photoUrls : list string;
  mr_assignedToId : option string;
  mr_scheduledDate : option Z;
  mr_scheduledTimeSlot : option string;
  mr_estimatedCost : option Q;
  mr_actualCost : option Q;
  mr_vendorName : option string;
  mr_vendorPhone : option string;
  mr_resolutionNotes : option string;
  mr_acknowledgedAt : option Z;
  mr_completedAt : option Z;
  mr_createdAt : Z
}.

Record MaintenanceUpdate := {
  mu_id : string;
  mu_requestId : string;
  mu_previousStatus : MaintenanceStatus;
  mu_newStatus : MaintenanceStatus;
  mu_message : string;
  mu_isPublic : bool;
  mu_photoUrls : list string;
  mu_createdBy : string;
  mu_createdAt : Z
}.

Record AuditLog := {
  audit_id : string;
  audit_userId : string;
  audit_action : string;
  audit_entityType : string;
  audit_entityId : string;
  audit_ipAddress : string;
  audit_newValues : list (string * string)
}.

(** The tables, and the counter behind the generated ids. *)
Record Database := {
  users : list User;
  properties : list Property;
  units : list Unit;
  leases : list Lease;
  payments : list Payment;
  maintenanceRequests : list MaintenanceRequest;
  maintenanceUpdates : list MaintenanceUpdate;
  auditLogs : list AuditLog;
  nextId : nat
}.

Definition set_users (f : list User -> list User) (db : Database) : Database :=
  {| users := f (users db); properties := properties db; units := units db;
     leases := leases db; payments := payments db;
     maintenanceRequests := maintenanceRequests db;
     maintenanceUpdates := maintenanceUpdates db; auditLogs := auditLogs db;
     nextId := nextId db |}.

Definition set_properties (f : list Property -> list Property) (db : Database) : Database :=
  {| users := users db; properties := f (properties db); units := units db;
     leases := leases db; payments := payments db;
     maintenanceRequests := maintenanceRequests db;
     maintenanceUpdates := maintenanceUpdates db; auditLogs := auditLogs db;
     nextId := nextId db |}.

Definition set_units (f : list Unit -> list Unit) (db : Database) : Database :=
  {| users := users db; properties := properties db; units := f (units db);
     leases := leases db; payments := payments db;
     maintenanceRequests := maintenanceRequests db;
     maintenanceUpdates := maintenanceUpdates db; auditLogs := auditLogs db;
     nextId := nextId db |}.

Definition set_leases (f : list Lease -> list Lease) (db : Database) : Database :=
  {| users := users db; properties := properties db; units := units db;
     leases := f (leases db); payments := payments db;
     maintenanceRequests := maintenanceRequests db;
     maintenanceUpdates := maintenanceUpdates db; auditLogs := auditLogs db;
     nextId := nextId db |}.

Definition set_payments (f : list Payment -> list Payment) (db : Database) : Database :=
  {| users := users db; properties := properties db; units := units db;
     leases := leases db; payments := f (payments db);
     maintenanceRequests := maintenanceRequests db;
     maintenanceUpdates := maintenanceUpdates db; auditLogs := auditLogs db;
     nextId := nextId db |}.

Definition set_maintenanceRequests
           (f : list MaintenanceRequest -> list MaintenanceRequest) (db : Database)
  : Database :=
  {| users := users db; properties := properties db; units := units db;
     leases := leases db; payments := payments db;
     maintenanceRequests := f (maintenanceRequests db);
     maintenanceUpdates := maintenanceUpdates db; auditLogs := auditLogs db;
     nextId := nextId db |}.

Definition set_maintenanceUpdates
           (f : list MaintenanceUpdate -> list MaintenanceUpdate) (db : Database)
  : Database :=
  {| users := users db; properties := properties db; units := units db;
     leases := leases db; payments := payments db;
     maintenanceRequests := maintenanceRequests db;
     maintenanceUpdates := f (maintenanceUpdates db); auditLogs := auditLogs db;
     nextId := nextId db |}.

Definition set_auditLogs (f : list AuditLog -> list AuditLog) (db : Database) : Database :=
  {| users := users db; properties := properties db; units := units db;
     leases := leases db; payments := payments db;
     maintenanceRequests := maintenanceRequests db;
     maintenanceUpdates := maintenanceUpdates db; auditLogs := f (auditLogs db);
     nextId := nextId db |}.

Definition bump_nextId (db : Database) : Database :=
  {| users := users db; properties := properties db; units := units db;
     leases := leases db; payments := payments db;
     maintenanceRequests := maintenanceRequests db;
     maintenanceUpdates := maintenanceUpdates db; auditLogs := auditLogs db;
     nextId := S (nextId db) |}.

(* ===================================================================== *)
(** * Responses *)
(* ===================================================================== *)

(** [session.user] *)
Record SessionUser := { session_id : string; session_role : Role }.

(** The columns of an update that the tenant's single-request view selects. *)
Record SelectedUpdate := {
  su_id : string;
  su_message : string;
  su_createdAt : Z;
  su_previousStatus : MaintenanceStatus;
  su_newStatus : MaintenanceStatus;
  su_isPublic : bool
}.

(** The [data] member of a response body.  A row stands for the row with
    its included relations; of these only the updates are spelled out. *)
Inductive Payload :=
| RequestDetail (request : MaintenanceRequest) (updates : list MaintenanceUpdate)
| TenantRequestDetail (request : MaintenanceRequest) (updates : list SelectedUpdate)
| RequestList (requests : list (MaintenanceRequest * list MaintenanceUpdate))
| RequestRow (request : MaintenanceRequest)
| UpdateRow (update : MaintenanceUpdate)
| LeaseSubmitted (leaseId : string) (message : string)
| PaymentCreated (payment : Payment) (clientSecret : option string).

(** [NextResponse.json({ success, data, error, message }, { status })] *)
Record Response := {
  status : Z;
  success : bool;
  data : option Payload;
  error : option string;
  message : option string
}.

Definition json_error (code : Z) (msg : string) : Response :=
  {| status := code; success := false; data := None;
     error := Some msg; message := None |}.

Definition json_ok (code : Z) (d : option Payload) (msg : option string) : Response :=
  {| status := code; success := true; data := d; error := None; message := msg |}.

(* ===================================================================== *)
(** * The handler monad *)
(* ===================================================================== *)

(** A step of a handler ends with a value, with a [return] of a response,
    or with a thrown exception; it may have written to the database. *)
Inductive Outcome (A : Type) :=
| Value (a : A)
| Return (r : Response)
| Throw.
Arguments Value {A} a.
Arguments Return {A} r.
Arguments Throw {A}.

Definition Handler (A : Type) := Database -> Outcome A * Database.

Definition ret {A} (a : A) : Handler A := fun db => (Value a, db).

Definition bind {A B} (c : Handler A) (k : A -> Handler B) : Handler B :=
  fun db =>
    match c db with
    | (Value a, db') => k a db'
    | (Return r, db') => (Return r, db')
    | (Throw, db') => (Throw, db')
    end.

Definition respond {A} (r : Response) : Handler A := fun db => (Return r, db).
Definition throw {A} : Handler A := fun db => (Throw, db).

(** [if (c) { return r; }] *)
Definition return_if (c : bool) (r : Response) : Handler unit :=
  if c then respond r else ret tt.

Declare Scope handler_scope.
Delimit Scope handler_scope with handler.
Notation "x <- c ;; k" := (bind c (fun x => k))
  (at level 100, c at next level, right associativity) : handler_scope.
Notation "' pat <- c ;; k" := (bind c (fun x => match x with pat => k end))
  (at level 100, pat pattern, c at next level, right associativity) : handler_scope.
Notation "c ;; k" := (bind c (fun _ => k))
  (at level 100, right associativity) : handler_scope.
Local Open Scope handler_scope.

(** [prisma.$transaction(async (tx) => ...)]: the writes of the callback
    are kept when it returns and undone when it throws. *)
Definition transaction {A} (callback : Handler A) : Handler A :=
  fun db =>
    match callback db with
    | (Throw, _) => (Throw, db)
    | r => r
    end.

(** [try { ... } catch (error) { return 500 }] around a handler's body. *)
Definition try_catch (failure : string) (body : Handler Response)
  : Database -> Response * Database :=
  fun db =>
    match body db with
    | (Value r, db') => (r, db')
    | (Return r, db') => (r, db')
    | (Throw, db') => (json_error 500 failure, db')
    end.

(** [if (!session?.user) return 401] *)
Definition require_session (session : option SessionUser) : Handler SessionUser :=
  match session with
  | Some user => ret user
  | None => respond (json_error 401 "Unauthorized")
  end.

(** A [Date] handed to the database: Invalid Date is refused by the client
    with an exception. *)
Definition date_value (d : Date) : Handler Z :=
  match d with
  | DateMs ms => ret ms
  | InvalidDate => throw
  end.

Definition optional_date_value (d : option Date) : Handler (option Z) :=
  match d with
  | None => ret None
  | Some d => ms <- date_value d ;; ret (Some ms)
  end.

(** The id the database gives a new row. *)
Definition fresh_id {E : Externals} : Handler string :=
  fun db => (Value (cuid (nextId db)), bump_nextId db).

(* ===================================================================== *)
(** * The database client (Prisma) *)
(* ===================================================================== *)

(** A read of the database. *)
Definition query {A} (f : Database -> A) : Handler A := fun db => (Value (f db), db).

(** [orderBy]: a stable sort; [precedes y x] says that [y] must come
    strictly before [x].  Rows that tie keep their table order. *)
Fixpoint insert_sorted {A} (precedes : A -> A -> bool) (x : A) (l : list A) : list A :=
  match l with
  | [] => [x]
  | y :: t => if precedes y x then y :: insert_sorted precedes x t else x :: y :: t
  end.

Definition orderBy {A} (precedes : A -> A -> bool) (l : list A) : list A :=
  fold_right (insert_sorted precedes) [] l.

(** [orderBy: { createdAt: 'desc' }] *)
Definition createdAt_desc {A} (createdAt : A -> Z) (y x : A) : bool :=
  (createdAt x <? createdAt y)%Z.

(** The rank of a priority in [orderBy: { priority: 'desc' }]: the order
    of the enumeration, read off [maintenancePriorities]. *)
Definition priority_rank (p : MaintenancePriority) : Z :=
  match p with LOW => 0 | MEDIUM => 1 | HIGH => 2 | EMERGENCY => 3 end%Z.

(** [orderBy: [{ priority: 'desc' }, { createdAt: 'desc' }]] *)
Definition priority_createdAt_desc (y x : MaintenanceRequest) : bool :=
  (priority_rank (mr_priority x) <? priority_rank (mr_priority y))%Z
  || ((priority_rank (mr_priority x) =? priority_rank (mr_priority y))%Z
      && (mr_createdAt x <? mr_createdAt y)%Z).

Definition user_findUnique (id : string) (db : Database) : option User :=
  find (fun u => user_id u =? id) (users db).
Definition property_findUnique (id : string) (db : Database) : option Property :=
  find (fun p => property_id p =? id) (properties db).
Definition unit_findUnique (id : string) (db : Database) : option Unit :=
  find (fun u => unit_id u =? id) (units db).
Definition lease_findUnique (id : string) (db : Database) : option Lease :=
  find (fun l => lease_id l =? id) (leases db).
Definition maintenanceRequest_findUnique (id : string) (db : Database)
  : option MaintenanceRequest :=
  find (fun r => mr_id r =? id) (maintenanceRequests db).

(** [include: { unit: { include: { property } } }]: both relations are
    required, and the client throws when one of them is missing. *)
Definition include_unit_property (unitId : string) : Handler (Unit * Property) :=
  fun db =>
    match unit_findUnique unitId db with
    | Some unit =>
        match property_findUnique (unit_propertyId unit) db with
        | Some property => (Value (unit, property), db)
        | None => (Throw, db)
        end
    | None => (Throw, db)
    end.

(** [maintenanceRequest.findUnique({ where: { id }, include: { unit: {
    include: { property } } } })] *)
Definition maintenanceRequest_findUnique_include (id : string)
  : Handler (option (MaintenanceRequest * Unit * Property)) :=
  found <- query (maintenanceRequest_findUnique id) ;;
  match found with
  | None => ret None
  | Some request =>
      '(unit, property) <- include_unit_property (mr_unitId request) ;;
      ret (Some (request, unit, property))
  end.

(** The [updates] relation of a request. *)
Definition updates_of (requestId : string) (db : Database) : list MaintenanceUpdate :=
  filter (fun u => mu_requestId u =? requestId) (maintenanceUpdates db).

(** [updates: { orderBy: { createdAt: 'desc' } }] *)
Definition include_updates (requestId : string) (db : Database) : list MaintenanceUpdate :=
  orderBy (createdAt_desc mu_createdAt) (updates_of requestId db).

(** [select: { id, message, createdAt, previousStatus, newStatus, isPublic }] *)
Definition select_update (u : MaintenanceUpdate) : SelectedUpdate :=
  {| su_id := mu_id u; su_message := mu_message u; su_createdAt := mu_createdAt u;
     su_previousStatus := mu_previousStatus u; su_newStatus := mu_newStatus u;
     su_isPublic := mu_isPublic u |}.

(** [updates: { where: { isPublic: true }, orderBy: { createdAt: 'desc' } }] *)
Definition include_public_updates (requestId : string) (db : Database)
  : list MaintenanceUpdate :=
  orderBy (createdAt_desc mu_createdAt) (filter mu_isPublic (updates_of requestId db)).

(** The [data] of [maintenanceRequest.update]: a key that is absent is [None]. *)
Record MaintenanceRequestUpdateInput := {
  ud_status : option MaintenanceStatus;
  ud_priority : option MaintenancePriority;
  ud_assignedToId : option (option string);
  ud_scheduledDate : option Date;
  ud_scheduledTimeSlot : option string;
  ud_estimatedCost : option Q;
  ud_actualCost : option Q;
  ud_vendorName : option string;
  ud_vendorPhone : option string;
  ud_resolutionNotes : option string;
  ud_acknowledgedAt : option Date;
  ud_completedAt : option Date
}.

Definition or_keep {A} (new : option A) (old : A) : A :=
  match new with Some a => a | None => old end.

Definition or_keep_opt {A} (new : option A) (old : option A) : option A :=
  match new with Some a => Some a | None => old end.

Definition patch_request (d : MaintenanceRequestUpdateInput)
           (scheduledDate acknowledgedAt completedAt : option Z)
           (r : MaintenanceRequest) : MaintenanceRequest :=
  {| mr_id := mr_id r;
     mr_tenantId := mr_tenantId r;
     mr_unitId := mr_unitId r;
     mr_title := mr_title r;
     mr_description := mr_description r;
     mr_category := mr_category r;
     mr_priority := or_keep (ud_priority d) (mr_priority r);
     mr_status := or_keep (ud_status d) (mr_status r);
     mr_entryPermission := mr_entryPermission r;
     mr_preferredTimes := mr_preferredTimes r;
     mr_photoUrls := mr_photoUrls r;
     mr_assignedToId := or_keep (ud_assignedToId d) (mr_assignedToId r);
     mr_scheduledDate := or_keep_opt scheduledDate (mr_scheduledDate r);
     mr_scheduledTimeSlot := or_keep_opt (ud_scheduledTimeSlot d) (mr_scheduledTimeSlot r);
     mr_estimatedCost := or_keep_opt (ud_estimatedCost d) (mr_estimatedCost r);
     mr_actualCost := or_keep_opt (ud_actualCost d) (mr_actualCost r);
     mr_vendorName := or_keep_opt (ud_vendorName d) (mr_vendorName r);
     mr_vendorPhone := or_keep_opt (ud_vendorPhone d) (mr_vendorPhone r);
     mr_resolutionNotes := or_keep_opt (ud_resolutionNotes d) (mr_resolutionNotes r);
     mr_acknowledgedAt := or_keep_opt acknowledgedAt (mr_acknowledgedAt r);
     mr_completedAt := or_keep_opt completedAt (mr_completedAt r);
     mr_createdAt := mr_createdAt r |}.

(** [maintenanceRequest.update({ where: { id }, data })]: throws when a
    date of [data] is invalid and when no row has the id. *)
Definition maintenanceRequest_update (id : string) (d : MaintenanceRequestUpdateInput)
  : Handler MaintenanceRequest :=
  scheduledDate <- optional_date_value (ud_scheduledDate d) ;;
  acknowledgedAt <- optional_date_value (ud_acknowledgedAt d) ;;
  completedAt <- optional_date_value (ud_completedAt d) ;;
  fun db =>
    match maintenanceRequest_findUnique id db with
    | None => (Throw, db)
    | Some r =>
        let patch := patch_request d scheduledDate acknowledgedAt completedAt in
        (Value (patch r),
         set_maintenanceRequests
           (map (fun x => if mr_id x =? id then patch x else x)) db)
    end.

(** [maintenanceUpdate.create({ data })]; [createdAt] defaults to the time
    of the call. *)
Definition maintenanceUpdate_create {E : Externals}
           (requestId : string) (previousStatus newStatus : MaintenanceStatus)
           (message : string) (isPublic : bool) (photoUrls : list string)
           (createdBy : string) (now : Z) : Handler MaintenanceUpdate :=
  id <- fresh_id ;;
  let row := {| mu_id := id; mu_requestId := requestId;
                mu_previousStatus := previousStatus; mu_newStatus := newStatus;
                mu_message := message; mu_isPublic := isPublic;
                mu_photoUrls := photoUrls; mu_createdBy := createdBy;
                mu_createdAt := now |} in
  fun db => (Value row, set_maintenanceUpdates (fun rows => rows ++ [row]) db).

(** [result.error.errors[0].message] in a 400 response. *)
Definition validation_error {A} (errors : list Zod.ZodIssue) : Handler A :=
  match errors with
  | issue :: _ => respond (json_error 400 (Zod.message issue))
  | [] => throw
  end.

(** [ownerId !== session.user.id && session.user.role !== 'ADMIN'] *)
Definition not_owner_nor_admin (ownerId : string) (user : SessionUser) : bool :=
  negb (ownerId =? session_id user) && negb (Role_beq (session_role user) ADMIN).

(* ===================================================================== *)
(** * app/api/landlord/maintenance/[id]/route.ts *)
(* ===================================================================== *)

Module LandlordMaintenanceId.

(** GET /api/landlord/maintenance/[id] *)
Definition GET (session : option SessionUser) (params_id : string)
  : Database -> Response * Database :=
  try_catch "Failed to fetch maintenance request" (
    user <- require_session session ;;
    found <- maintenanceRequest_findUnique_include params_id ;;
    match found with
    | None => respond (json_error 404 "Maintenance request not found")
    | Some (maintenanceRequest, _, property) =>
        return_if (not_owner_nor_admin (property_ownerId property) user)
                  (json_error 403 "Forbidden") ;;
        updates <- query (include_updates params_id) ;;
        ret (json_ok 200 (Some (RequestDetail maintenanceRequest updates)) None)
    end).

(** [const statusChanged = data.status && data.status !== existingRequest.status] *)
Definition statusChanged (data : UpdateMaintenanceRequestInput)
           (existingRequest : MaintenanceRequest) : bool :=
  match um_status data with
  | Some s => negb (MaintenanceStatus_beq s (mr_status existingRequest))
  | None => false
  end.

(** [new Date()] stored when [status] is [target] and the column is empty. *)
Definition stamp_once (newStatus : option MaintenanceStatus) (target : MaintenanceStatus)
           (current : option Z) (now : Z) : option Date :=
  match newStatus, current with
  | Some s, None => if MaintenanceStatus_beq s target then Some (DateMs now) else None
  | _, _ => None
  end.

(** The [updateData] object of PUT. *)
Definition updateData {E : Externals} (data : UpdateMaintenanceRequestInput)
           (existingRequest : MaintenanceRequest) (now : Z)
  : MaintenanceRequestUpdateInput :=
  {| ud_status := um_status data;
     ud_priority := um_priority data;
     ud_assignedToId := option_map (fun id => if truthy id then Some id else None)
                                   (um_assignedToId data);
     ud_scheduledDate := option_map newDate (if_truthy (um_scheduledDate data));
     ud_scheduledTimeSlot := if_truthy (um_scheduledTimeSlot data);
     ud_estimatedCost := um_estimatedCost data;
     ud_actualCost := um_actualCost data;
     ud_vendorName := if_truthy (um_vendorName data);
     ud_vendorPhone := if_truthy (um_vendorPhone data);
     ud_resolutionNotes := if_truthy (um_resolutionNotes data);
     ud_acknowledgedAt :=
       stamp_once (um_status data) ACKNOWLEDGED (mr_acknowledgedAt existingRequest) now;
     ud_completedAt :=
       stamp_once (um_status data) COMPLETED (mr_completedAt existingRequest) now |}.

(** The message of the log row PUT writes on a status change. *)
Definition status_changed_message (previous new : MaintenanceStatus) : string :=
  "Status changed from " ++ status_str previous ++ " to " ++ status_str new.

(** PUT /api/landlord/maintenance/[id] *)
Definition PUT {E : Externals} (session : option SessionUser) (params_id : string)
           (body : json) (now : Z) : Database -> Response * Database :=
  try_catch "Failed to update maintenance request" (
    user <- require_session session ;;
    found <- maintenanceRequest_findUnique_include params_id ;;
    match found with
    | None => respond (json_error 404 "Maintenance request not found")
    | Some (existingRequest, _, property) =>
        return_if (not_owner_nor_admin (property_ownerId property) user)
                  (json_error 403 "Forbidden") ;;
        match updateMaintenanceRequestSchema body with
        | Zod.ParseError errors => validation_error errors
        | Zod.ParseOk data =>
            maintenanceRequest <- transaction (
              updated <- maintenanceRequest_update params_id
                           (updateData data existingRequest now) ;;
              match um_status data with
              | Some newStatus =>
                  if statusChanged data existingRequest then
                    maintenanceUpdate_create params_id
                      (mr_status existingRequest) newStatus
                      (status_changed_message (mr_status existingRequest) newStatus)
                      true [] (session_id user) now ;;
                    ret updated
                  else ret updated
              | None => ret updated
              end) ;;
            ret (json_ok 200 (Some (RequestRow maintenanceRequest))
                         (Some "Maintenance request updated successfully"))
        end
    end).

(** The [data] of the request update POST makes when the status moves. *)
Definition statusUpdate (newStatus : MaintenanceStatus)
           (existingRequest : MaintenanceRequest) (now : Z)
  : MaintenanceRequestUpdateInput :=
  {| ud_status := Some newStatus;
     ud_priority := None; ud_assignedToId := None; ud_scheduledDate := None;
     ud_scheduledTimeSlot := None; ud_estimatedCost := None; ud_actualCost := None;
     ud_vendorName := None; ud_vendorPhone := None; ud_resolutionNotes := None;
     ud_acknowledgedAt :=
       stamp_once (Some newStatus) ACKNOWLEDGED (mr_acknowledgedAt existingRequest) now;
     ud_completedAt :=
       stamp_once (Some newStatus) COMPLETED (mr_completedAt existingRequest) now |}.

(** POST /api/landlord/maintenance/[id] *)
Definition POST {E : Externals} (session : option SessionUser) (params_id : string)
           (body : json) (now : Z) : Database -> Response * Database :=
  try_catch "Failed to add update" (
    user <- require_session session ;;
    found <- maintenanceRequest_findUnique_include params_id ;;
    match found with
    | None => respond (json_error 404 "Maintenance request not found")
    | Some (existingRequest, _, property) =>
        return_if (not_owner_nor_admin (property_ownerId property) user)
                  (json_error 403 "Forbidden") ;;
        match addMaintenanceUpdateSchema body with
        | Zod.ParseError errors => validation_error errors
        | Zod.ParseOk data =>
            update <- transaction (
              newUpdate <- maintenanceUpdate_create params_id
                             (mr_status existingRequest)
                             (or_keep (au_newStatus data) (mr_status existingRequest))
                             (au_message data) (au_isPublic data) (au_photoUrls data)
                             (session_id user) now ;;
              match au_newStatus data with
              | Some newStatus =>
                  if negb (MaintenanceStatus_beq newStatus (mr_status existingRequest))
                  then
                    maintenanceRequest_update params_id
                      (statusUpdate newStatus existingRequest now) ;;
                    ret newUpdate
                  else ret newUpdate
              | None => ret newUpdate
              end) ;;
            ret (json_ok 201 (Some (UpdateRow update)) (Some "Update added successfully"))
        end
    end).

End LandlordMaintenanceId.

(** [if (param) where.column = param]: a query parameter that is not a
    member of the column's enumeration makes the client throw. *)
Definition enum_where {A} (values : list (string * A)) (param : option string)
  : Handler (option A) :=
  match param with
  | Some s =>
      if truthy s then
        match Zod.lookup_value values s with
        | Some a => ret (Some a)
        | None => throw
        end
      else ret None
  | None => ret None
  end.

Definition matches {A} (eqb : A -> A -> bool) (wanted : option A) (actual : A) : bool :=
  match wanted with Some w => eqb w actual | None => true end.

Scheme Equality for MaintenancePriority.

(* ===================================================================== *)
(** * app/api/landlord/maintenance/route.ts *)
(* ===================================================================== *)

Module LandlordMaintenance.

(** [where: { unit: { property: { ownerId } } }], with the optional
    [unit.propertyId] *)
Definition owned_by (ownerId : string) (propertyId : option string)
           (db : Database) (r : MaintenanceRequest) : bool :=
  match unit_findUnique (mr_unitId r) db with
  | Some unit =>
      match property_findUnique (unit_propertyId unit) db with
      | Some property =>
          (property_ownerId property =? ownerId)
          && match propertyId with
             | Some p => if truthy p then unit_propertyId unit =? p else true
             | None => true
             end
      | None => false
      end
  | None => false
  end.

(** GET /api/landlord/maintenance *)
Definition GET (session : option SessionUser)
           (status priority propertyId : option string)
  : Database -> Response * Database :=
  try_catch "Failed to fetch maintenance requests" (
    user <- require_session session ;;
    return_if (negb (Role_beq (session_role user) LANDLORD)
               && negb (Role_beq (session_role user) ADMIN))
              (json_error 403 "Forbidden") ;;
    whereStatus <- enum_where maintenanceStatuses status ;;
    wherePriority <- enum_where maintenancePriorities priority ;;
    requests <- query (fun db =>
      map (fun r => (r, firstn 5 (include_updates (mr_id r) db)))
          (orderBy priority_createdAt_desc
             (filter (fun r => owned_by (session_id user) propertyId db r
                               && matches MaintenanceStatus_beq whereStatus (mr_status r)
                               && matches MaintenancePriority_beq wherePriority
                                          (mr_priority r))
                     (maintenanceRequests db)))) ;;
    ret (json_ok 200 (Some (RequestList requests)) None)).

End LandlordMaintenance.

(* ===================================================================== *)
(** * app/api/tenant/maintenance/[id]/route.ts *)
(* ===================================================================== *)

Module TenantMaintenanceId.

(** GET /api/tenant/maintenance/[id] *)
Definition GET (session : option SessionUser) (params_id : string)
  : Database -> Response * Database :=
  try_catch "Failed to fetch maintenance request" (
    user <- require_session session ;;
    found <- query (maintenanceRequest_findUnique params_id) ;;
    match found with
    | None => respond (json_error 404 "Maintenance request not found")
    | Some maintenanceRequest =>
        return_if (negb (mr_tenantId maintenanceRequest =? session_id user))
                  (json_error 403 "Forbidden") ;;
        updates <- query (fun db => map select_update
                                        (include_public_updates params_id db)) ;;
        ret (json_ok 200 (Some (TenantRequestDetail maintenanceRequest updates)) None)
    end).

End TenantMaintenanceId.

(* ===================================================================== *)
(** * app/api/tenant/maintenance/route.ts *)
(* ===================================================================== *)

Module TenantMaintenance.

(** GET /api/tenant/maintenance *)
Definition GET (session : option SessionUser) (status : option string)
  : Database -> Response * Database :=
  try_catch "Failed to fetch maintenance requests" (
    user <- require_session session ;;
    whereStatus <- enum_where maintenanceStatuses status ;;
    requests <- query (fun db =>
      map (fun r => (r, firstn 3 (include_public_updates (mr_id r) db)))
          (orderBy (createdAt_desc mr_createdAt)
             (filter (fun r => (mr_tenantId r =? session_id user)
                               && matches MaintenanceStatus_beq whereStatus (mr_status r))
                     (maintenanceRequests db)))) ;;
    ret (json_ok 200 (Some (RequestList requests)) None)).

(** [lease.findFirst({ where: { tenantId, status: 'ACTIVE' } })] *)
Definition lease_findFirst_active (tenantId : string) (db : Database) : option Lease :=
  find (fun l => (lease_tenantId l =? tenantId)
                 && LeaseStatus_beq (lease_status l) LEASE_ACTIVE)
       (leases db).

(** The row of [maintenanceRequest.create]; the columns [data] leaves out
    are null. *)
Definition new_request (id tenantId unitId : string)
           (data : CreateMaintenanceRequestInput) (now : Z) : MaintenanceRequest :=
  {| mr_id := id; mr_tenantId := tenantId; mr_unitId := unitId;
     mr_title := cm_title data; mr_description := cm_description data;
     mr_category := cm_category data; mr_priority := cm_priority data;
     mr_status := SUBMITTED;
     mr_entryPermission := cm_entryPermission data;
     mr_preferredTimes := cm_preferredTimes data;
     mr_photoUrls := cm_photoUrls data;
     mr_assignedToId := None; mr_scheduledDate := None;
     mr_scheduledTimeSlot := None; mr_estimatedCost := None;
     mr_actualCost := None; mr_vendorName := None;
     mr_vendorPhone := None; mr_resolutionNotes := None;
     mr_acknowledgedAt := None; mr_completedAt := None;
     mr_createdAt := now |}.

(** [maintenanceRequest.create({ data })] *)
Definition maintenanceRequest_create {E : Externals} (tenantId unitId : string)
           (data : CreateMaintenanceRequestInput) (now : Z)
  : Handler MaintenanceRequest :=
  id <- fresh_id ;;
  let row := new_request id tenantId unitId data now in
  fun db => (Value row, set_maintenanceRequests (fun rows => rows ++ [row]) db).

(** POST /api/tenant/maintenance *)
Definition POST {E : Externals} (session : option SessionUser) (body : json) (now : Z)
  : Database -> Response * Database :=
  try_catch "Failed to create maintenance request" (
    user <- require_session session ;;
    match createMaintenanceRequestSchema body with
    | Zod.ParseError errors => validation_error errors
    | Zod.ParseOk data =>
        activeLease <- query (lease_findFirst_active (session_id user)) ;;
        match activeLease with
        | None => respond (json_error 400 "No active lease found")
        | Some activeLease =>
            maintenanceRequest <- maintenanceRequest_create (session_id user)
                                    (lease_unitId activeLease) data now ;;
            ret (json_ok 201 (Some (RequestRow maintenanceRequest))
                         (Some "Maintenance request submitted successfully"))
        end
    end).

End TenantMaintenance.

(* ===================================================================== *)
(** * Unit and property deletion *)
(* ===================================================================== *)

(** [status: { in: ['ACTIVE', 'PENDING_SIGNATURE'] }] *)
Definition active_or_pending (l : Lease) : bool :=
  LeaseStatus_beq (lease_status l) LEASE_ACTIVE
  || LeaseStatus_beq (lease_status l) PENDING_SIGNATURE.

(** [leases: { where: { status: { in: [...] } } }] of a unit *)
Definition include_active_leases (unitId : string) (db : Database) : list Lease :=
  filter (fun l => (lease_unitId l =? unitId) && active_or_pending l) (leases db).

(** app/api/landlord/properties/[id]/units/[unitId]/route.ts *)
Module LandlordUnit.

(** [verifyOwnership]: an error with its status, or the property. *)
Definition verifyOwnership (propertyId userId : string) (role : Role)
  : Handler (string * Z + Property) :=
  property <- query (property_findUnique propertyId) ;;
  match property with
  | None => ret (inl ("Property not found", 404%Z))
  | Some property =>
      if negb (property_ownerId property =? userId) && negb (Role_beq role ADMIN)
      then ret (inl ("Forbidden", 403%Z))
      else ret (inr property)
  end.

(** [unit.delete({ where: { id } })]: the row of the unit is removed.  The
    leases and the maintenance requests of the unit are not followed: what
    the database does with them is a matter of the schema. *)
Definition unit_delete (id : string) : Handler unit :=
  fun db =>
    match unit_findUnique id db with
    | None => (Throw, db)
    | Some _ => (Value tt, set_units (filter (fun u => negb (unit_id u =? id))) db)
    end.

(** [property.update({ where: { id }, data: { totalUnits: { decrement: 1 } } })] *)
Definition property_decrement_totalUnits (id : string) : Handler unit :=
  fun db =>
    match property_findUnique id db with
    | None => (Throw, db)
    | Some _ =>
        (Value tt,
         set_properties
           (map (fun p => if property_id p =? id
                          then {| property_id := property_id p;
                                  property_name := property_name p;
                                  property_ownerId := property_ownerId p;
                                  property_totalUnits := (property_totalUnits p - 1)%Z |}
                          else p)) db)
    end.

(** DELETE /api/landlord/properties/[id]/units/[unitId] *)
Definition DELETE (session : option SessionUser) (params_id params_unitId : string)
  : Database -> Response * Database :=
  try_catch "Failed to delete unit" (
    user <- require_session session ;;
    ownership <- verifyOwnership params_id (session_id user) (session_role user) ;;
    match ownership with
    | inl (error, status) => respond (json_error status error)
    | inr _ =>
        existingUnit <- query (unit_findUnique params_unitId) ;;
        match existingUnit with
        | None => respond (json_error 404 "Unit not found")
        | Some existingUnit =>
            return_if (negb (unit_propertyId existingUnit =? params_id))
                      (json_error 400 "Unit does not belong to this property") ;;
            unitLeases <- query (include_active_leases params_unitId) ;;
            return_if (Nat.ltb 0 (List.length unitLeases))
                      (json_error 400
                         "Cannot delete unit with active leases. Please terminate the lease first.") ;;
            unit_delete params_unitId ;;
            property_decrement_totalUnits params_id ;;
            ret (json_ok 200 None (Some "Unit deleted successfully"))
        end
    end).

End LandlordUnit.

(** app/api/landlord/properties/[id]/route.ts *)
Module LandlordProperty.

(** [units] of a property *)
Definition include_units (propertyId : string) (db : Database) : list Unit :=
  filter (fun u => unit_propertyId u =? propertyId) (units db).

(** [existingProperty.units.some((unit) => unit.leases.length > 0)] *)
Definition hasActiveLeases (propertyId : string) (db : Database) : bool :=
  existsb (fun unit => Nat.ltb 0 (List.length (include_active_leases (unit_id unit) db)))
          (include_units propertyId db).

(** [property.delete({ where: { id } })]: the row of the property is
    removed, and with it the units of the property, as the comment of the
    handler has it ([cascade will delete units]).  The rows that refer to
    those units are not followed. *)
Definition property_delete (id : string) : Handler unit :=
  fun db =>
    match property_findUnique id db with
    | None => (Throw, db)
    | Some _ =>
        (Value tt,
         set_units (filter (fun u => negb (unit_propertyId u =? id)))
           (set_properties (filter (fun p => negb (property_id p =? id))) db))
    end.

(** DELETE /api/landlord/properties/[id] *)
Definition DELETE (session : option SessionUser) (params_id : string)
  : Database -> Response * Database :=
  try_catch "Failed to delete property" (
    user <- require_session session ;;
    existingProperty <- query (property_findUnique params_id) ;;
    match existingProperty with
    | None => respond (json_error 404 "Property not found")
    | Some existingProperty =>
        return_if (not_owner_nor_admin (property_ownerId existingProperty) user)
                  (json_error 403 "Forbidden") ;;
        active <- query (hasActiveLeases params_id) ;;
        return_if active
                  (json_error 400
                     "Cannot delete property with active leases. Please terminate all leases first.") ;;
        property_delete params_id ;;
        ret (json_ok 200 None (Some "Property deleted successfully"))
    end).

End LandlordProperty.

(* ===================================================================== *)
(** * validators/onboarding.ts and app/api/onboarding/submit/route.ts *)
(* ===================================================================== *)

Record CompleteOnboardingInput := {
  ob_firstName : string;
  ob_lastName : string;
  ob_email : string;
  ob_phone : string;
  ob_dateOfBirth : string;
  ob_ssnLast4 : string;
  ob_emergencyContactName : string;
  ob_emergencyContactPhone : string;
  ob_emergencyContactRelation : string;
  ob_employmentStatus : EmploymentStatus;
  ob_employerName : option string;
  ob_employerPhone : option string;
  ob_jobTitle : option string;
  ob_monthlyIncome : Q;
  ob_additionalIncome : option Q;
  ob_incomeSource : option string;
  ob_unitId : string;
  ob_moveInDate : string;
  ob_leaseTerm : LeaseTerm;
  ob_agreedToTerms : bool;
  ob_signature : string
}.

Definition completeOnboardingSchema {E : Externals}
  : json -> Zod.SafeParseReturnType CompleteOnboardingInput :=
  Zod.object (fun body =>
    Zod.ParseOk Build_CompleteOnboardingInput
    <*> Zod.field "firstName" (Zod.string_ [Zod.min_ 1; Zod.max_ 50]) body
    <*> Zod.field "lastName" (Zod.string_ [Zod.min_ 1; Zod.max_ 50]) body
    <*> Zod.field "email"
          (Zod.string_ [Zod.refine_string is_email "Invalid email"]) body
    <*> Zod.field "phone" (Zod.string_ [Zod.min_ 10; Zod.max_ 20]) body
    <*> Zod.field "dateOfBirth" (Zod.string_ []) body
    <*> Zod.field "ssnLast4" (Zod.string_ [Zod.length_ 4]) body
    <*> Zod.field "emergencyContactName" (Zod.string_ [Zod.min_ 1; Zod.max_ 100]) body
    <*> Zod.field "emergencyContactPhone" (Zod.string_ [Zod.min_ 10; Zod.max_ 20]) body
    <*> Zod.field "emergencyContactRelation" (Zod.string_ [Zod.min_ 1; Zod.max_ 50]) body
    <*> Zod.field "employmentStatus" (Zod.enum employmentStatuses None) body
    <*> Zod.field "employerName" (Zod.optional (Zod.string_ [])) body
    <*> Zod.field "employerPhone" (Zod.optional (Zod.string_ [])) body
    <*> Zod.field "jobTitle" (Zod.optional (Zod.string_ [])) body
    <*> Zod.field "monthlyIncome" (Zod.number [Zod.min_number_ 0]) body
    <*> Zod.field "additionalIncome" (Zod.optional (Zod.number [])) body
    <*> Zod.field "incomeSource" (Zod.optional (Zod.string_ [])) body
    <*> Zod.field "unitId" (Zod.string_ [Zod.min_ 1]) body
    <*> Zod.field "moveInDate" (Zod.string_ []) body
    <*> Zod.field "leaseTerm" (Zod.enum leaseTerms None) body
    <*> Zod.field "agreedToTerms" Zod.boolean body
    <*> Zod.field "signature" (Zod.string_ [Zod.min_ 1]) body).

Definition leaseTerm_str (t : LeaseTerm) : string :=
  match t with Term6 => "6" | Term12 => "12" | Term18 => "18" | Term24 => "24" end.

(** The white space [String.prototype.trim] removes, among the code units
    of one byte. *)
Definition is_space (c : ascii) : bool :=
  let n := nat_of_ascii c in
  (Nat.leb 9 n && Nat.leb n 13) || Nat.eqb n 32 || Nat.eqb n 160.

Fixpoint trimStart (s : string) : string :=
  match s with
  | String c rest => if is_space c then trimStart rest else s
  | EmptyString => EmptyString
  end.

Fixpoint trimEnd (s : string) : string :=
  match s with
  | String c rest =>
      match trimEnd rest with
      | EmptyString => if is_space c then EmptyString else String c EmptyString
      | rest' => String c rest'
      end
  | EmptyString => EmptyString
  end.

Definition trim (s : string) : string := trimEnd (trimStart s).

(** [s.split(',')[0]] *)
Fixpoint before_comma (s : string) : string :=
  match s with
  | String c rest => if Ascii.eqb c "," then EmptyString else String c (before_comma rest)
  | EmptyString => EmptyString
  end.

Module OnboardingSubmit.

(** [forwardedFor ? forwardedFor.split(',')[0].trim() : 'unknown'] *)
Definition clientIp (forwardedFor : option string) : string :=
  match forwardedFor with
  | Some h => if truthy h then trim (before_comma h) else "unknown"
  | None => "unknown"
  end.

(** The profile columns that [tx.user.update] writes. *)
Definition with_profile {E : Externals} (data : CompleteOnboardingInput)
           (dateOfBirth : Z) (u : User) : User :=
  {| user_id := user_id u;
     user_email := user_email u;
     user_firstName := ob_firstName data;
     user_lastName := ob_lastName data;
     user_phone := Some (ob_phone data);
     user_dateOfBirth := Some dateOfBirth;
     user_ssnEncrypted := Some (encrypt (ob_ssnLast4 data));
     user_emergencyContactName := Some (ob_emergencyContactName data);
     user_emergencyContactPhone := Some (ob_emergencyContactPhone data);
     user_emergencyContactRelation := Some (ob_emergencyContactRelation data);
     user_status := USER_ACTIVE;
     user_stripeCustomerId := user_stripeCustomerId u |}.

(** [tx.user.update({ where: { id }, data })] *)
Definition user_update_profile {E : Externals} (id : string)
           (data : CompleteOnboardingInput) : Handler unit :=
  dateOfBirth <- date_value (newDate (ob_dateOfBirth data)) ;;
  fun db =>
    match user_findUnique id db with
    | None => (Throw, db)
    | Some _ =>
        (Value tt,
         set_users
           (map (fun u => if user_id u =? id then with_profile data dateOfBirth u else u))
           db)
    end.

(** The row of [tx.lease.create]. *)
Definition new_lease (id tenantId : string) (unit : Unit)
           (data : CompleteOnboardingInput) (startDate endDate : Z)
           (ip : string) (now : Z) : Lease :=
  {| lease_id := id; lease_tenantId := tenantId;
     lease_unitId := ob_unitId data;
     lease_status := PENDING_SIGNATURE;
     lease_startDate := startDate; lease_endDate := endDate;
     lease_monthlyRent := unit_monthlyRent unit;
     lease_depositAmount := unit_depositAmount unit;
     lease_rentDueDay := 1%Z; lease_gracePeriodDays := 5%Z;
     lease_tenantSignature := Some (ob_signature data);
     lease_tenantSignedAt := Some now;
     lease_tenantSignedIp := Some ip;
     lease_moveInDate := Some startDate |}.

(** [tx.lease.create({ data })] *)
Definition lease_create {E : Externals} (tenantId : string) (unit : Unit)
           (data : CompleteOnboardingInput) (startDate endDate : Date)
           (ip : string) (now : Z) : Handler Lease :=
  startDate <- date_value startDate ;;
  endDate <- date_value endDate ;;
  id <- fresh_id ;;
  let row := new_lease id tenantId unit data startDate endDate ip now in
  fun db => (Value row, set_leases (fun rows => rows ++ [row]) db).

(** [data: { status: 'RESERVED' }] *)
Definition reserved (u : Unit) : Unit :=
  {| unit_id := unit_id u;
     unit_propertyId := unit_propertyId u;
     unit_unitNumber := unit_unitNumber u;
     unit_status := RESERVED;
     unit_monthlyRent := unit_monthlyRent u;
     unit_depositAmount := unit_depositAmount u |}.

(** [tx.unit.update({ where: { id }, data: { status: 'RESERVED' } })] *)
Definition unit_reserve (id : string) : Handler unit :=
  fun db =>
    match unit_findUnique id db with
    | None => (Throw, db)
    | Some _ =>
        (Value tt, set_units (map (fun u => if unit_id u =? id then reserved u else u)) db)
    end.

(** The row of [tx.auditLog.create]. *)
Definition audit_row (id userId leaseId ip : string) (data : CompleteOnboardingInput)
  : AuditLog :=
  {| audit_id := id; audit_userId := userId;
     audit_action := "TENANT_ONBOARDING_COMPLETED";
     audit_entityType := "Lease";
     audit_entityId := leaseId;
     audit_ipAddress := ip;
     audit_newValues :=
       [ ("unitId", ob_unitId data); ("leaseId", leaseId);
         ("moveInDate", ob_moveInDate data);
         ("leaseTerm", leaseTerm_str (ob_leaseTerm data)) ] |}.

(** [tx.auditLog.create({ data })] *)
Definition auditLog_create {E : Externals} (userId leaseId ip : string)
           (data : CompleteOnboardingInput) : Handler unit :=
  id <- fresh_id ;;
  let row := audit_row id userId leaseId ip data in
  fun db => (Value tt, set_auditLogs (fun rows => rows ++ [row]) db).

(** POST /api/onboarding/submit *)
Definition POST {E : Externals} (session : option SessionUser) (body : json)
           (forwardedFor : option string) (now : Z)
  : Database -> Response * Database :=
  try_catch "Failed to submit application" (
    user <- require_session session ;;
    match completeOnboardingSchema body with
    | Zod.ParseError errors => validation_error errors
    | Zod.ParseOk data =>
        unit <- query (unit_findUnique (ob_unitId data)) ;;
        match unit with
        | None => respond (json_error 404 "Unit not found")
        | Some unit =>
            return_if (negb (UnitStatus_beq (unit_status unit) VACANT))
                      (json_error 409 "This unit is no longer available") ;;
            let ip := clientIp forwardedFor in
            let startDate := newDate (ob_moveInDate data) in
            let leaseMonths := parseInt_leaseTerm (ob_leaseTerm data) in
            let endDate := addMonths startDate leaseMonths in
            lease <- transaction (
              user_update_profile (session_id user) data ;;
              newLease <- lease_create (session_id user) unit data
                            startDate endDate ip now ;;
              unit_reserve (ob_unitId data) ;;
              auditLog_create (session_id user) (lease_id newLease) ip data ;;
              ret newLease) ;;
            ret (json_ok 201
                   (Some (LeaseSubmitted (lease_id lease)
                            "Application submitted successfully. Awaiting landlord approval."))
                   None)
        end
    end).

End OnboardingSubmit.

(* ===================================================================== *)
(** * lib/stripe/server.ts, validators/payment.ts, app/api/tenant/payments/route.ts *)
(* ===================================================================== *)

Record CreatePaymentInput := {
  cp_leaseId : string;
  cp_type : PaymentType;
  cp_method : PaymentMethod;
  cp_amount : Q;
  cp_periodStart : option string;
  cp_periodEnd : option string;
  cp_notes : option string
}.

Definition createPaymentSchema : json -> Zod.SafeParseReturnType CreatePaymentInput :=
  Zod.object (fun body =>
    Zod.ParseOk Build_CreatePaymentInput
    <*> Zod.field "leaseId" (Zod.string_ [Zod.min 1 "Lease is required"]) body
    <*> Zod.field "type" (Zod.enum paymentTypes (Some "Please select a payment type")) body
    <*> Zod.field "method"
          (Zod.enum paymentMethods (Some "Please select a payment method")) body
    <*> Zod.field "amount"
          (Zod.number [Zod.min_number (1 # 100) "Amount must be greater than 0"]) body
    <*> Zod.field "periodStart" (Zod.optional (Zod.string_ [])) body
    <*> Zod.field "periodEnd" (Zod.optional (Zod.string_ [])) body
    <*> Zod.field "notes" (Zod.optional (Zod.string_ [Zod.max_ 500])) body).

Module Stripe.

(** A call of the gateway inside a handler. *)
Definition call {A} (answer : option A) : Handler A :=
  match answer with Some a => ret a | None => throw end.

(** [getOrCreateStripeCustomer]: an existing customer that can be
    retrieved and is not deleted is returned; otherwise one is created. *)
Definition getOrCreateStripeCustomer {E : Externals} (userId email name : string)
           (existingCustomerId : option string) : Handler StripeCustomer :=
  let create := call (customers_create email name userId) in
  match existingCustomerId with
  | Some id =>
      if truthy id then
        match customers_retrieve id with
        | Some customer => if customer_deleted customer then create else ret customer
        | None => create
        end
      else create
  | None => create
  end.

(** [Math.round] of a finite Number value, given as the rational it stands
    for: the nearest integer, the larger of the two when they are equally
    near.  The product of [createPaymentIntent] below is the exact one;
    the product rounded to binary64 is [cents_binary64]. *)
Definition Math_round (x : Q) : Z := Qfloor (x + (1 # 2)).

(** [createPaymentIntent] called without a payment method. *)
Definition createPaymentIntent {E : Externals} (amount : Q) (customerId : string)
           (leaseId userId : string) (type : PaymentType)
  : Handler StripePaymentIntent :=
  call (paymentIntents_create (Math_round (amount * (100 # 1))) customerId
                              leaseId userId type).

End Stripe.

Module TenantPayments.

(** [user.update({ where: { id }, data: { stripeCustomerId } })] *)
Definition user_set_stripeCustomerId (id customerId : string) : Handler unit :=
  fun db =>
    match user_findUnique id db with
    | None => (Throw, db)
    | Some _ =>
        (Value tt,
         set_users
           (map (fun u =>
                   if user_id u =? id then
                     {| user_id := user_id u; user_email := user_email u;
                        user_firstName := user_firstName u;
                        user_lastName := user_lastName u;
                        user_phone := user_phone u;
                        user_dateOfBirth := user_dateOfBirth u;
                        user_ssnEncrypted := user_ssnEncrypted u;
                        user_emergencyContactName := user_emergencyContactName u;
                        user_emergencyContactPhone := user_emergencyContactPhone u;
                        user_emergencyContactRelation := user_emergencyContactRelation u;
                        user_status := user_status u;
                        user_stripeCustomerId := Some customerId |}
                   else u)) db)
    end.

(** [s ? new Date(s) : undefined] *)
Definition optional_date {E : Externals} (s : option string) : option Date :=
  match s with
  | Some v => if truthy v then Some (newDate v) else None
  | None => None
  end.

(** [payment.create({ data })] *)
Definition payment_create {E : Externals} (userId : string) (data : CreatePaymentInput)
           (paymentIntentId : string) (now : Z) : Handler Payment :=
  periodStart <- optional_date_value (optional_date (cp_periodStart data)) ;;
  periodEnd <- optional_date_value (optional_date (cp_periodEnd data)) ;;
  id <- fresh_id ;;
  let row := {| payment_id := id; payment_userId := userId;
                payment_leaseId := cp_leaseId data;
                payment_type := cp_type data; payment_method := cp_method data;
                payment_status := PENDING;
                payment_amount := cp_amount data;
                payment_totalAmount := cp_amount data;
                payment_dueDate := now;
                payment_periodStart := periodStart;
                payment_periodEnd := periodEnd;
                payment_notes := cp_notes data;
                payment_stripePaymentIntentId := Some paymentIntentId |} in
  fun db => (Value row, set_payments (fun rows => rows ++ [row]) db).

Definition is_none {A} (o : option A) : bool :=
  match o with None => true | Some _ => false end.

(** POST /api/tenant/payments *)
Definition POST {E : Externals} (session : option SessionUser) (body : json) (now : Z)
  : Database -> Response * Database :=
  try_catch "Failed to create payment" (
    sessionUser <- require_session session ;;
    match createPaymentSchema body with
    | Zod.ParseError errors => validation_error errors
    | Zod.ParseOk data =>
        lease <- query (lease_findUnique (cp_leaseId data)) ;;
        match lease with
        | None => respond (json_error 404 "Lease not found")
        | Some lease =>
            return_if (negb (lease_tenantId lease =? session_id sessionUser))
                      (json_error 403 "Forbidden") ;;
            user <- query (user_findUnique (session_id sessionUser)) ;;
            match user with
            | None => respond (json_error 404 "User not found")
            | Some user =>
                stripeCustomer <- Stripe.getOrCreateStripeCustomer
                                    (user_id user) (user_email user)
                                    (user_firstName user ++ " " ++ user_lastName user)
                                    (user_stripeCustomerId user) ;;
                (if is_none (if_truthy (user_stripeCustomerId user))
                 then user_set_stripeCustomerId (user_id user)
                                                (customer_id stripeCustomer)
                 else ret tt) ;;
                paymentIntent <- Stripe.createPaymentIntent
                                   (cp_amount data) (customer_id stripeCustomer)
                                   (cp_leaseId data) (session_id sessionUser)
                                   (cp_type data) ;;
                payment <- payment_create (session_id sessionUser) data
                                          (intent_id paymentIntent) now ;;
                ret (json_ok 201
                       (Some (PaymentCreated payment (client_secret paymentIntent)))
                       None)
            end
        end
    end).

End TenantPayments.

(* ===================================================================== *)
(** * A sample deployment, for the examples *)
(* ===================================================================== *)

Module Sample.

Local Open Scope string_scope.

Definition externals : Externals :=
  {| is_url := fun s => String.prefix "http" s;
     is_email := fun s => match String.index 0 "@" s with Some _ => true | None => false end;
     newDate := fun s => if s =? "2025-01-01" then DateMs 1735689600000
                         else if s =? "1990-05-17" then DateMs 642902400000
                         else InvalidDate;
     addMonths_ms := fun ms n => (ms + n * 2629800000)%Z;
     AES_encrypt := fun s => "U2FsdGVk" ++ s;
     cuid := fun n => "c" ++ Zod.dec n;
     customers_retrieve := fun id => Some {| customer_id := id; customer_deleted := false |};
     customers_create := fun _ _ userId =>
       Some {| customer_id := "cus_" ++ userId; customer_deleted := false |};
     paymentIntents_create := fun _ _ leaseId _ _ =>
       Some {| intent_id := "pi_" ++ leaseId;
               client_secret := Some ("pi_" ++ leaseId ++ "_secret") |} |}.

Definition alice : SessionUser := {| session_id := "alice"; session_role := LANDLORD |}.
Definition bob : SessionUser := {| session_id := "bob"; session_role := LANDLORD |}.
Definition tina : SessionUser := {| session_id := "tina"; session_role := TENANT |}.
Definition tom : SessionUser := {| session_id := "tom"; session_role := TENANT |}.

Definition user_row (id email firstName lastName : string) : User :=
  {| user_id := id; user_email := email; user_firstName := firstName;
     user_lastName := lastName; user_phone := None; user_dateOfBirth := None;
     user_ssnEncrypted := None; user_emergencyContactName := None;
     user_emergencyContactPhone := None; user_emergencyContactRelation := None;
     user_status := USER_PENDING; user_stripeCustomerId := None |}.

Definition unit_row (id number : string) (s : UnitStatus) : Unit :=
  {| unit_id := id; unit_propertyId := "p1"; unit_unitNumber := number;
     unit_status := s; unit_monthlyRent := 1200 # 1; unit_depositAmount := 1200 # 1 |}.

Definition lease_row (id tenantId unitId : string) (s : LeaseStatus) : Lease :=
  {| lease_id := id; lease_tenantId := tenantId; lease_unitId := unitId;
     lease_status := s; lease_startDate := 0; lease_endDate := 31557600000;
     lease_monthlyRent := 1200 # 1; lease_depositAmount := 1200 # 1;
     lease_rentDueDay := 1; lease_gracePeriodDays := 5;
     lease_tenantSignature := None; lease_tenantSignedAt := None;
     lease_tenantSignedIp := None; lease_moveInDate := None |}.

Definition request_row : MaintenanceRequest :=
  {| mr_id := "r1"; mr_tenantId := "tina"; mr_unitId := "u1";
     mr_title := "Leaking tap"; mr_description := "The kitchen tap drips all night";
     mr_category := PLUMBING; mr_priority := MEDIUM; mr_status := SUBMITTED;
     mr_entryPermission := true; mr_preferredTimes := None; mr_photoUrls := [];
     mr_assignedToId := None; mr_scheduledDate := None; mr_scheduledTimeSlot := None;
     mr_estimatedCost := None; mr_actualCost := None; mr_vendorName := None;
     mr_vendorPhone := None; mr_resolutionNotes := None;
     mr_acknowledgedAt := None; mr_completedAt := None; mr_createdAt := 10 |}.

Definition update_row (id : string) (isPublic : bool) (createdAt : Z) : MaintenanceUpdate :=
  {| mu_id := id; mu_requestId := "r1"; mu_previousStatus := SUBMITTED;
     mu_newStatus := SUBMITTED; mu_message := "note " ++ id; mu_isPublic := isPublic;
     mu_photoUrls := []; mu_createdBy := "alice"; mu_createdAt := createdAt |}.

Definition elm_court : Property :=
  {| property_id := "p1"; property_name := "Elm Court";
     property_ownerId := "alice"; property_totalUnits := 3 |}.

(** Alice owns property p1 with units u1 (let to Tina, who filed request
    r1), u2 (vacant) and u3 (reserved by a lease awaiting signature). *)
Definition db : Database :=
  {| users := [ user_row "alice" "alice@example.com" "Alice" "Archer";
                user_row "bob" "bob@example.com" "Bob" "Baker";
                user_row "tina" "tina@example.com" "Tina" "Turner";
                user_row "tom" "tom@example.com" "Tom" "Thumb" ];
     properties := [ elm_court ];
     units := [ unit_row "u1" "1A" OCCUPIED; unit_row "u2" "1B" VACANT;
                unit_row "u3" "2A" RESERVED ];
     leases := [ lease_row "l1" "tina" "u1" LEASE_ACTIVE;
                 lease_row "l3" "tom" "u3" PENDING_SIGNATURE ];
     payments := [];
     maintenanceRequests := [ request_row ];
     maintenanceUpdates := [ update_row "m1" true 11; update_row "m2" false 12;
                             update_row "m3" true 13; update_row "m4" true 14;
                             update_row "m5" false 15; update_row "m6" true 16 ];
     auditLogs := [];
     nextId := 100 |}.

(** The body of an onboarding submission for a unit, and what the schema
    makes of it. *)
Definition onboarding_body (unitId moveInDate : string) : json :=
  JObj [ ("firstName", JStr "Tom"); ("lastName", JStr "Thumb");
         ("email", JStr "tom@example.com"); ("phone", JStr "5550100200");
         ("dateOfBirth", JStr "1990-05-17"); ("ssnLast4", JStr "1234");
         ("emergencyContactName", JStr "Tess Thumb");
         ("emergencyContactPhone", JStr "5550100300");
         ("emergencyContactRelation", JStr "Sister");
         ("employmentStatus", JStr "EMPLOYED");
         ("monthlyIncome", JNum (4200 # 1));
         ("unitId", JStr unitId); ("moveInDate", JStr moveInDate);
         ("leaseTerm", JStr "12"); ("agreedToTerms", JBool true);
         ("signature", JStr "Tom Thumb") ].

Definition onboarding_input (unitId moveInDate : string) : CompleteOnboardingInput :=
  {| ob_firstName := "Tom"; ob_lastName := "Thumb"; ob_email := "tom@example.com";
     ob_phone := "5550100200"; ob_dateOfBirth := "1990-05-17"; ob_ssnLast4 := "1234";
     ob_emergencyContactName := "Tess Thumb";
     ob_emergencyContactPhone := "5550100300";
     ob_emergencyContactRelation := "Sister";
     ob_employmentStatus := EMPLOYED; ob_employerName := None;
     ob_employerPhone := None; ob_jobTitle := None;
     ob_monthlyIncome := 4200 # 1; ob_additionalIncome := None;
     ob_incomeSource := None; ob_unitId := unitId; ob_moveInDate := moveInDate;
     ob_leaseTerm := Term12; ob_agreedToTerms := true; ob_signature := "Tom Thumb" |}.

(** The body of a maintenance request, with or without optional keys. *)
Definition request_body (title description : string) : json :=
  JObj [ ("title", JStr title); ("description", JStr description);
         ("category", JStr "PLUMBING") ].

(** The body of a rent payment for a lease. *)
Definition payment_body (leaseId : string) : json :=
  JObj [ ("leaseId", JStr leaseId); ("type", JStr "RENT"); ("method", JStr "ACH");
         ("amount", JNum (1200 # 1)) ].


End Sample.

(* ===================================================================== *)
(** * What the handlers write and answer, by name *)
(* ===================================================================== *)

Unset Implicit Arguments.

(** The time value of a date that the database accepted. *)
Definition stored (d : option Date) : option Z :=
  match d with
  | Some (DateMs ms) => Some ms
  | _ => None
  end.

(** The log row PUT writes when the status moves from that of
    [existingRequest] to [newStatus]. *)
Definition status_log_row (id requestId : string) (existingRequest : MaintenanceRequest)
           (newStatus : MaintenanceStatus) (createdBy : string) (now : Z)
  : MaintenanceUpdate :=
  {| mu_id := id; mu_requestId := requestId;
     mu_previousStatus := mr_status existingRequest;
     mu_newStatus := newStatus;
     mu_message := LandlordMaintenanceId.status_changed_message (mr_status existingRequest) newStatus;
     mu_isPublic := true; mu_photoUrls := []; mu_createdBy := createdBy;
     mu_createdAt := now |}.

(** The row POST writes. *)
Definition comment_row (id requestId : string) (existingRequest : MaintenanceRequest)
           (data : AddMaintenanceUpdateInput) (createdBy : string) (now : Z)
  : MaintenanceUpdate :=
  {| mu_id := id; mu_requestId := requestId;
     mu_previousStatus := mr_status existingRequest;
     mu_newStatus := or_keep (au_newStatus data) (mr_status existingRequest);
     mu_message := au_message data;
     mu_isPublic := au_isPublic data; mu_photoUrls := au_photoUrls data;
     mu_createdBy := createdBy; mu_createdAt := now |}.

(** [maintenanceRequest.update] as a function on the table. *)
Definition patch_table (id : string) (d : MaintenanceRequestUpdateInput) (db : Database)
  : Database :=
  set_maintenanceRequests
    (map (fun x => if mr_id x =? id
                   then patch_request d (stored (ud_scheduledDate d))
                                      (stored (ud_acknowledgedAt d))
                                      (stored (ud_completedAt d)) x
                   else x)) db.

Definition append_update (row : MaintenanceUpdate) (db : Database) : Database :=
  set_maintenanceUpdates (fun rows => rows ++ [row]) (bump_nextId db).

(** The three checks that open GET, PUT and POST: the request exists, its
    unit and property can be read, and the caller owns the property or is
    an administrator. *)
Inductive Access :=
| NotFound
| Dangling
| Forbidden
| Granted (existingRequest : MaintenanceRequest).

Definition access (user : SessionUser) (id : string) (db : Database) : Access :=
  match maintenanceRequest_findUnique id db with
  | None => NotFound
  | Some existingRequest =>
      match unit_findUnique (mr_unitId existingRequest) db with
      | None => Dangling
      | Some unit =>
          match property_findUnique (unit_propertyId unit) db with
          | None => Dangling
          | Some property =>
              if not_owner_nor_admin (property_ownerId property) user
              then Forbidden else Granted existingRequest
          end
      end
  end.

(** A call of one of the two landlord handlers that write to a request. *)
Inductive LandlordCall :=
| PutCall (session : option SessionUser) (id : string) (body : json) (now : Z)
| PostCall (session : option SessionUser) (id : string) (body : json) (now : Z).

Definition call_time (c : LandlordCall) : Z :=
  match c with PutCall _ _ _ now | PostCall _ _ _ now => now end.

Definition landlord_call {E : Externals} (c : LandlordCall) (db : Database) : Database :=
  match c with
  | PutCall session id body now => snd (LandlordMaintenanceId.PUT session id body now db)
  | PostCall session id body now => snd (LandlordMaintenanceId.POST session id body now db)
  end.

Definition landlord_calls {E : Externals} (calls : list LandlordCall) (db : Database)
  : Database :=
  fold_left (fun db c => landlord_call c db) calls db.

(** How a call at time [now] may change a timestamp that is triggered by
    [target]: not at all, or from empty to [now] while the request enters
    [target]. *)
Definition stamped_by (now : Z) (target : MaintenanceStatus)
           (before after : option Z) (statusAfter : MaintenanceStatus) : Prop :=
  after = before \/ (before = None /\ after = Some now /\ statusAfter = target).

(** A patch whose timestamps come from [stamp_once] on its own status. *)
Definition stamps_once (d : MaintenanceRequestUpdateInput) (r : MaintenanceRequest)
           (now : Z) : Prop :=
  ud_acknowledgedAt d = LandlordMaintenanceId.stamp_once (ud_status d) ACKNOWLEDGED (mr_acknowledgedAt r) now /\
  ud_completedAt d = LandlordMaintenanceId.stamp_once (ud_status d) COMPLETED (mr_completedAt r) now.

Definition stamped (now : Z) (r r' : MaintenanceRequest) : Prop :=
  stamped_by now ACKNOWLEDGED (mr_acknowledgedAt r) (mr_acknowledgedAt r') (mr_status r')
  /\ stamped_by now COMPLETED (mr_completedAt r) (mr_completedAt r') (mr_status r').

(** The rows of the tenant's list, before the updates are attached. *)
Definition tenant_rows (user : SessionUser) (whereStatus : option MaintenanceStatus)
           (db : Database) : list MaintenanceRequest :=
  orderBy (createdAt_desc mr_createdAt)
    (filter (fun r => (mr_tenantId r =? session_id user)
                      && matches MaintenanceStatus_beq whereStatus (mr_status r))
            (maintenanceRequests db)).

(** The rows of the landlord's list, before the updates are attached. *)
Definition landlord_rows (user : SessionUser) (propertyId : option string)
           (whereStatus : option MaintenanceStatus)
           (wherePriority : option MaintenancePriority)
           (db : Database) : list MaintenanceRequest :=
  orderBy priority_createdAt_desc
    (filter (fun r => LandlordMaintenance.owned_by (session_id user) propertyId db r
                      && matches MaintenanceStatus_beq whereStatus (mr_status r)
                      && matches MaintenancePriority_beq wherePriority (mr_priority r))
            (maintenanceRequests db)).

(** A response that refuses the caller: the given status, no data, and
    nothing written. *)
Definition denied (code : Z) (db : Database) (result : Response * Database) : Prop :=
  status (fst result) = code /\ success (fst result) = false
  /\ data (fst result) = None /\ snd result = db.

(** A lease that blocks deletion. *)
Definition blocks_deletion (l : Lease) : Prop :=
  lease_status l = LEASE_ACTIVE \/ lease_status l = PENDING_SIGNATURE.

(** A refusal in the 400 class that writes nothing. *)
Definition rejected (db : Database) (result : Response * Database) : Prop :=
  (400 <= status (fst result) < 500)%Z /\ success (fst result) = false
  /\ snd result = db.

(** The database after the four writes of a submission: the profile of the
    submitting user, the new lease, the reserved unit and the audit row.
    The lease takes the next generated id and the audit row the one after. *)
Definition onboarded {E : Externals} (user : SessionUser) (data : CompleteOnboardingInput)
           (unit : Unit) (dateOfBirth startDate : Z) (ip : string) (now : Z)
           (db : Database) : Database :=
  let lease := OnboardingSubmit.new_lease (cuid (nextId db)) (session_id user) unit data
                 startDate
                 (addMonths_ms startDate (parseInt_leaseTerm (ob_leaseTerm data)))
                 ip now in
  {| users := map (fun u => if user_id u =? session_id user
                            then OnboardingSubmit.with_profile data dateOfBirth u else u)
                  (users db);
     properties := properties db;
     units := map (fun u => if unit_id u =? ob_unitId data
                            then OnboardingSubmit.reserved u else u)
                  (units db);
     leases := leases db ++ [lease];
     payments := payments db;
     maintenanceRequests := maintenanceRequests db;
     maintenanceUpdates := maintenanceUpdates db;
     auditLogs := auditLogs db
                  ++ [OnboardingSubmit.audit_row (cuid (S (nextId db))) (session_id user)
                        (lease_id lease) ip data];
     nextId := S (S (nextId db)) |}.

(** The columns of a user row after [tx.user.update]: the profile of the
    body, the status ACTIVE, and the columns that the update leaves alone. *)
Definition profile_written {E : Externals} (input : CompleteOnboardingInput)
           (dateOfBirth : Z) (before after : User) : Prop :=
  user_id after = user_id before
  /\ user_email after = user_email before
  /\ user_firstName after = ob_firstName input
  /\ user_lastName after = ob_lastName input
  /\ user_phone after = Some (ob_phone input)
  /\ user_dateOfBirth after = Some dateOfBirth
  /\ user_ssnEncrypted after = Some (encrypt (ob_ssnLast4 input))
  /\ user_emergencyContactName after = Some (ob_emergencyContactName input)
  /\ user_emergencyContactPhone after = Some (ob_emergencyContactPhone input)
  /\ user_emergencyContactRelation after = Some (ob_emergencyContactRelation input)
  /\ user_status after = USER_ACTIVE
  /\ user_stripeCustomerId after = user_stripeCustomerId before.

(** The columns of the lease that [tx.lease.create] writes. *)
Definition lease_written {E : Externals} (user : SessionUser)
           (input : CompleteOnboardingInput) (unit : Unit) (startDate : Z)
           (ip : string) (now : Z) (db : Database) (lease : Lease) : Prop :=
  lease_id lease = cuid (nextId db)
  /\ lease_tenantId lease = session_id user
  /\ lease_unitId lease = ob_unitId input
  /\ lease_status lease = PENDING_SIGNATURE
  /\ lease_startDate lease = startDate
  /\ lease_endDate lease
     = addMonths_ms startDate (parseInt_leaseTerm (ob_leaseTerm input))
  /\ lease_monthlyRent lease = unit_monthlyRent unit
  /\ lease_depositAmount lease = unit_depositAmount unit
  /\ lease_rentDueDay lease = 1%Z
  /\ lease_gracePeriodDays lease = 5%Z
  /\ lease_tenantSignature lease = Some (ob_signature input)
  /\ lease_tenantSignedAt lease = Some now
  /\ lease_tenantSignedIp lease = Some ip
  /\ lease_moveInDate lease = Some startDate.

(** The columns of the row that [tx.auditLog.create] writes. *)
Definition audit_written (user : SessionUser) (input : CompleteOnboardingInput)
           (lease : Lease) (ip : string) (audit : AuditLog) : Prop :=
  audit_userId audit = session_id user
  /\ audit_action audit = "TENANT_ONBOARDING_COMPLETED"
  /\ audit_entityType audit = "Lease"
  /\ audit_entityId audit = lease_id lease
  /\ audit_ipAddress audit = ip
  /\ audit_newValues audit
     = [ ("unitId", ob_unitId input); ("leaseId", lease_id lease);
         ("moveInDate", ob_moveInDate input);
         ("leaseTerm", leaseTerm_str (ob_leaseTerm input)) ].

(** The columns of a unit after [tx.unit.update]: the status RESERVED, the
    others as before. *)
Definition unit_reserved (before after : Unit) : Prop :=
  unit_id after = unit_id before
  /\ unit_propertyId after = unit_propertyId before
  /\ unit_unitNumber after = unit_unitNumber before
  /\ unit_status after = RESERVED
  /\ unit_monthlyRent after = unit_monthlyRent before
  /\ unit_depositAmount after = unit_depositAmount before.

(** On failure a schema reports at least one issue. *)
Definition reports {A} (r : Zod.SafeParseReturnType A) : Prop :=
  match r with
  | Zod.ParseError [] => False
  | _ => True
  end.

(** The issue of a description that is too short. *)
Definition description_issue : Zod.ZodIssue :=
  {| Zod.path := ["description"];
     Zod.message := "Please provide a detailed description" |}.

(** The issues of the two leading keys of the schema. *)
Definition title_field (fields : list (string * json)) : Zod.SafeParseReturnType string :=
  Zod.field "title" (Zod.string_ [Zod.min 1 "Title is required"; Zod.max_ 200]) fields.

(** The customer the handler ends up with, when the gateway answers. *)
Definition customer_for {E : Externals} (user : User) : option StripeCustomer :=
  let create := customers_create (user_email user)
                  (user_firstName user ++ " " ++ user_lastName user) (user_id user) in
  match if_truthy (user_stripeCustomerId user) with
  | Some id =>
      match customers_retrieve id with
      | Some customer => if customer_deleted customer then create else Some customer
      | None => create
      end
  | None => create
  end.

(** The row of [payment.create]. *)
Definition new_payment (id userId : string) (input : CreatePaymentInput)
           (periodStart periodEnd : option Z) (paymentIntentId : string) (now : Z)
  : Payment :=
  {| payment_id := id; payment_userId := userId;
     payment_leaseId := cp_leaseId input;
     payment_type := cp_type input; payment_method := cp_method input;
     payment_status := PENDING;
     payment_amount := cp_amount input;
     payment_totalAmount := cp_amount input;
     payment_dueDate := now;
     payment_periodStart := periodStart;
     payment_periodEnd := periodEnd;
     payment_notes := cp_notes input;
     payment_stripePaymentIntentId := Some paymentIntentId |}.

(* ===================================================================== *)
(** * Orders of the list views *)
(* ===================================================================== *)

(** Newest first: no row is followed by a row created later. *)
Definition newest_first {A} (createdAt : A -> Z) (l : list A) : Prop :=
  StronglySorted (fun a b => (createdAt b <= createdAt a)%Z) l.

(** The order of the landlord's list: higher priority first, and newest
    first among requests of one priority. *)
Definition by_priority_then_newest (a b : MaintenanceRequest) : Prop :=
  (priority_rank (mr_priority b) < priority_rank (mr_priority a))%Z
  \/ (priority_rank (mr_priority b) = priority_rank (mr_priority a)
      /\ (mr_createdAt b <= mr_createdAt a)%Z).

(* ===================================================================== *)
(** * Effects of the deletions, by name *)
(* ===================================================================== *)

(** The caller owns the property or is an administrator. *)
Definition owner_or_admin (property : Property) (user : SessionUser) : Prop :=
  property_ownerId property = session_id user \/ session_role user = ADMIN.

(** The unit has no lease that is ACTIVE or PENDING_SIGNATURE. *)
Definition free_of_leases (unitId : string) (db : Database) : Prop :=
  forall l, In l (leases db) -> lease_unitId l = unitId -> ~ blocks_deletion l.

(** No unit of the property has a lease that blocks deletion. *)
Definition vacated (propertyId : string) (db : Database) : Prop :=
  forall unit, In unit (units db) -> unit_propertyId unit = propertyId ->
               free_of_leases (unit_id unit) db.

(** No row refers to the unit: no lease is on it, whatever its status, and
    no maintenance request is for it.  Deleting such a unit meets no
    foreign key, so the outcome does not depend on the referential actions
    of the schema. *)
Definition unreferenced (unitId : string) (db : Database) : Prop :=
  (forall l, In l (leases db) -> lease_unitId l <> unitId)
  /\ (forall r, In r (maintenanceRequests db) -> mr_unitId r <> unitId).

(** The property has no unit, so that no row refers to it. *)
Definition without_units (propertyId : string) (db : Database) : Prop :=
  forall unit, In unit (units db) -> unit_propertyId unit <> propertyId.

(** * A second sample: two landlords *)

Module Portfolio.

Local Open Scope string_scope.

Definition oak_row : Property :=
  {| property_id := "p2"; property_name := "Oak Row";
     property_ownerId := "bob"; property_totalUnits := 1 |}.

Definition oak_unit : Unit :=
  {| unit_id := "u4"; unit_propertyId := "p2"; unit_unitNumber := "1A";
     unit_status := VACANT; unit_monthlyRent := 900 # 1; unit_depositAmount := 900 # 1 |}.

(** The sample deployment with Bob's property Oak Row and its one vacant
    unit u4 beside Alice's Elm Court. *)
Definition db : Database :=
  set_units (fun rows => (rows ++ [oak_unit])%list)
    (set_properties (fun rows => (rows ++ [oak_row])%list) Sample.db).

Definition birch_lot : Property :=
  {| property_id := "p3"; property_name := "Birch Lot";
     property_ownerId := "bob"; property_totalUnits := 0 |}.

(** The same with Bob's second property Birch Lot, which has no unit yet. *)
Definition with_lot : Database :=
  set_properties (fun rows => (rows ++ [birch_lot])%list) db.

End Portfolio.

(** * What a landlord call leaves alone *)

Definition call_id (c : LandlordCall) : string :=
  match c with PutCall _ id _ _ | PostCall _ id _ _ => id end.

Definition call_session (c : LandlordCall) : option SessionUser :=
  match c with PutCall session _ _ _ | PostCall session _ _ _ => session end.

(** The columns of a request that hold what the tenant reported. *)
Definition keeps_report (r r' : MaintenanceRequest) : Prop :=
  mr_id r' = mr_id r /\ mr_tenantId r' = mr_tenantId r /\ mr_unitId r' = mr_unitId r
  /\ mr_title r' = mr_title r /\ mr_description r' = mr_description r
  /\ mr_category r' = mr_category r /\ mr_entryPermission r' = mr_entryPermission r
  /\ mr_preferredTimes r' = mr_preferredTimes r /\ mr_photoUrls r' = mr_photoUrls r
  /\ mr_createdAt r' = mr_createdAt r.

(** A log row written by one of the calls: for the request of the call, at
    the time of the call, in the name of its caller. *)
Definition logged_by (calls : list LandlordCall) (row : MaintenanceUpdate) : Prop :=
  exists c user, In c calls /\ call_session c = Some user
                 /\ mu_requestId row = call_id c
                 /\ mu_createdAt row = call_time c
                 /\ mu_createdBy row = session_id user.

(** * The client address of a submission *)

(** A string without commas. *)
Definition comma_free (s : string) : Prop :=
  forall c, In c (list_ascii_of_string s) -> c <> ","%char.

(** A string of white space only. *)
Definition blank (s : string) : Prop :=
  forall c, In c (list_ascii_of_string s) -> is_space c = true.

(** A non-empty string without white space or commas, such as an address
    in an [x-forwarded-for] header. *)
Definition address (s : string) : Prop :=
  s <> EmptyString
  /\ forall c, In c (list_ascii_of_string s) -> is_space c = false /\ c <> ","%char.

(** * Tenant payments: what is written besides the payment *)

(** [data: { stripeCustomerId }] on a row of the users table. *)
Definition with_stripeCustomerId (customerId : string) (u : User) : User :=
  {| user_id := user_id u; user_email := user_email u;
     user_firstName := user_firstName u;
     user_lastName := user_lastName u;
     user_phone := user_phone u;
     user_dateOfBirth := user_dateOfBirth u;
     user_ssnEncrypted := user_ssnEncrypted u;
     user_emergencyContactName := user_emergencyContactName u;
     user_emergencyContactPhone := user_emergencyContactPhone u;
     user_emergencyContactRelation := user_emergencyContactRelation u;
     user_status := user_status u;
     user_stripeCustomerId := Some customerId |}.

(** A user row that is as before, but for the customer id. *)
Definition keeps_profile (u u' : User) : Prop :=
  u' = u \/ exists customerId, u' = with_stripeCustomerId customerId u.

(** * Number values

    The amounts of the code are Number values, that is, binary64.  A
    number of a body is held as the rational that the Number value stands
    for; comparisons of such values are those of the rationals, and a
    product is the rational product rounded to binary64. *)

(** The integer nearest to [x]; of the two integers nearest to a half-way
    [x], the even one. *)
Definition round_half_even (x : Q) : Z :=
  let f := Qfloor x in
  match (x - inject_Z f ?= 1 # 2)%Q with
  | Lt => f
  | Gt => (f + 1)%Z
  | Eq => if Z.even f then f else (f + 1)%Z
  end.

(** The binary exponent of a positive number: the [e] with
    [2^e <= a < 2^(e+1)]. *)
Definition ilog2 (a : Q) : Z :=
  let e := (Z.log2 (Qnum a) - Z.log2 (Zpos (Qden a)))%Z in
  if Qle_bool ((2 # 1) ^ e) a then e else (e - 1)%Z.

(** The distance between the doubles around a positive [a]: 52 binary
    places below the exponent of [a], which is no less than that of the
    subnormal numbers. *)
Definition ulp (a : Q) : Q := ((2 # 1) ^ (Z.max (ilog2 a) (-1022) - 52))%Q.

(** The finite Number value of a real: IEEE 754 binary64, rounding to
    nearest, ties to even.  [None] stands for the overflow to an infinity;
    the two zeros are not told apart. *)
Definition binary64 (x : Q) : option Q :=
  let x := Qred x in
  if Qeq_bool x 0 then Some 0%Q
  else
    let a := Qabs x in
    let r := (inject_Z (round_half_even (a / ulp a)) * ulp a)%Q in
    if Qle_bool ((2 # 1) ^ 1024) r then None
    else Some (Qred (if Qle_bool 0 x then r else - r)).

(** [Math.round(amount * 100)] on Number values: the product is rounded to
    binary64, and [Math.round] of a finite Number is exact. *)
Definition cents_binary64 (amount : Q) : option Z :=
  option_map Stripe.Math_round (binary64 (amount * (100 # 1))%Q).

(* ===================================================================== *)
(** * middleware.ts *)
(* ===================================================================== *)

Module Middleware.

Local Open Scope string_scope.

(** [NextResponse.next()] and [NextResponse.redirect(new URL(pathname, req.url))] *)
Inductive NextResponse := next | redirect (pathname : string).

(** [path.startsWith(prefix)] *)
Definition startsWith (path prefix : string) : bool := String.prefix prefix path.

(** A statement of the function body: [Some r] when it returns [r], [None]
    when control goes on to the next statement. *)
Definition Statement := option NextResponse.

Definition when (c : bool) (body : Statement) : Statement := if c then body else None.

Definition and_then (s1 s2 : Statement) : Statement :=
  match s1 with Some r => Some r | None => s2 end.

Definition return_ (r : NextResponse) : Statement := Some r.

(** [token], by the role it carries: [None] is no token. *)
Definition has_token (token : option Role) : bool :=
  match token with Some _ => true | None => false end.

(** [token.role === r] *)
Definition role_is (token : option Role) (r : Role) : bool :=
  match token with Some role => Role_beq role r | None => false end.

(** The function passed to [withAuth]. *)
Definition middleware (token : option Role) (path : string) : NextResponse :=
  match
    and_then
      (when (has_token token && ((path =? "/login") || (path =? "/register")))
         (return_ (redirect (if role_is token LANDLORD
                             then "/landlord/dashboard" else "/tenant/dashboard"))))
   (and_then
      (when (startsWith path "/tenant")
         (and_then
            (when (negb (has_token token)) (return_ (redirect "/login")))
            (when (negb (role_is token TENANT) && negb (role_is token ADMIN))
               (return_ (redirect "/landlord/dashboard")))))
   (and_then
      (when (startsWith path "/landlord")
         (and_then
            (when (negb (has_token token)) (return_ (redirect "/login")))
            (when (negb (role_is token LANDLORD) && negb (role_is token ADMIN))
               (return_ (redirect "/tenant/dashboard")))))
   (and_then
      (when (startsWith path "/onboarding")
         (when (negb (has_token token)) (return_ (redirect "/login"))))
      (when (startsWith path "/admin")
         (when (negb (has_token token) || negb (role_is token ADMIN))
            (return_ (redirect "/login")))))))
  with
  | Some r => r
  | None => next
  end.

(** The [authorized] callback. *)
Definition authorized (token : option Role) (path : string) : bool :=
  if (path =? "/") || (path =? "/login") || (path =? "/register")
     || startsWith path "/api/auth"
  then true
  else has_token token.

(** The paths the [authorized] callback lets everyone request. *)
Definition public (path : string) : Prop :=
  path = "/" \/ path = "/login" \/ path = "/register"
  \/ startsWith path "/api/auth" = true.

(** A request that is let through: the callback authorizes it and the
    function answers [next]. *)
Definition passes (token : option Role) (path : string) : Prop :=
  authorized token path = true /\ middleware token path = next.

(** Where a request for [path] ends after following at most [hops]
    redirects of the function. *)
Fixpoint follow (hops : nat) (token : option Role) (path : string) : option string :=
  match middleware token path with
  | next => Some path
  | redirect target =>
      match hops with
      | O => None
      | S hops => follow hops token target
      end
  end.

End Middleware.

(* ===================================================================== *)
(** * lib/encryption.ts: masks for display *)
(* ===================================================================== *)

(** [s.slice(-n)]: the last [n] code units, or all of [s] when it is shorter. *)
Definition slice_last (n : nat) (s : string) : string :=
  String.substring (String.length s - n) n s.

(** [maskSSN] *)
Definition maskSSN (ssn : string) : string :=
  if negb (truthy ssn) || Nat.ltb (String.length ssn) 4
  then "***-**-****"
  else ("***-**-" ++ slice_last 4 ssn)%string.

(** [maskAccountNumber] *)
Definition maskAccountNumber (accountNumber : string) : string :=
  if negb (truthy accountNumber) || Nat.ltb (String.length accountNumber) 4
  then "****"
  else ("****" ++ slice_last 4 accountNumber)%string.

(* ===================================================================== *)
(** * lib/telegram.ts: escaping for Markdown *)
(* ===================================================================== *)

(** The characters of the class [[_*[\]()~`>#+=|{}.!-]]. *)
Definition markdown_special (c : ascii) : bool :=
  existsb (Ascii.eqb c) (list_ascii_of_string "_*[]()~`>#+=|{}.!-").

(** [text.replace(/[_*[\]()~`>#+=|{}.!-]/g, '\\$&')] *)
Fixpoint escapeMarkdown (text : string) : string :=
  match text with
  | EmptyString => EmptyString
  | String c rest =>
      if markdown_special c
      then String "\" (String c (escapeMarkdown rest))
      else String c (escapeMarkdown rest)
  end.

(** Reading an escaped text: a backslash before a special character is
    dropped. *)
Fixpoint unescapeMarkdown (text : string) : string :=
  match text with
  | EmptyString => EmptyString
  | String c rest =>
      match rest with
      | String d rest' =>
          if Ascii.eqb c "\" && markdown_special d
          then String d (unescapeMarkdown rest')
          else String c (unescapeMarkdown rest)
      | EmptyString => String c EmptyString
      end
  end.

(** Every special character of the text stands behind a backslash. *)
Fixpoint escaped (text : string) : bool :=
  match text with
  | EmptyString => true
  | String c rest =>
      if markdown_special c then false
      else match rest with
           | String d rest' =>
               if Ascii.eqb c "\" && markdown_special d
               then escaped rest' else escaped rest
           | EmptyString => true
           end
  end.

(* ===================================================================== *)
(** * Bodies as the schemas see them *)
(* ===================================================================== *)

(** Two objects that hold the same value, or none, under each of the keys. *)
Definition agree_on (keys : list string) (fields fields' : list (string * json)) : Prop :=
  forall key, In key keys -> get_field key fields = get_field key fields'.

(** The keys of the shapes. *)
Definition createMaintenanceRequest_keys : list string :=
  ["title"; "description"; "category"; "priority"; "entryPermission";
   "preferredTimes"; "photoUrls"].

Definition updateMaintenanceRequest_keys : list string :=
  ["status"; "priority"; "assignedToId"; "scheduledDate"; "scheduledTimeSlot";
   "estimatedCost"; "actualCost"; "vendorName"; "vendorPhone"; "resolutionNotes"].

Definition addMaintenanceUpdate_keys : list string :=
  ["message"; "newStatus"; "isPublic"; "photoUrls"].

Definition completeOnboarding_keys : list string :=
  ["firstName"; "lastName"; "email"; "phone"; "dateOfBirth"; "ssnLast4";
   "emergencyContactName"; "emergencyContactPhone"; "emergencyContactRelation";
   "employmentStatus"; "employerName"; "employerPhone"; "jobTitle";
   "monthlyIncome"; "additionalIncome"; "incomeSource"; "unitId"; "moveInDate";
   "leaseTerm"; "agreedToTerms"; "signature"].

Definition createPayment_keys : list string :=
  ["leaseId"; "type"; "method"; "amount"; "periodStart"; "periodEnd"; "notes"].

(** A refusal of a body: 400 with the message of the first issue of the
    schema, and nothing written. *)
Definition refused_with (errors : list Zod.ZodIssue) (db : Database)
           (result : Response * Database) : Prop :=
  exists issue rest, errors = issue :: rest
                     /\ result = (json_error 400 (Zod.message issue), db).

(* ===================================================================== *)
(** * validators/property.ts: the unit schemas *)
(* ===================================================================== *)

(** [unitStatuses] *)
Definition unitStatuses : list (string * UnitStatus) :=
  [ ("VACANT", VACANT); ("OCCUPIED", OCCUPIED);
    ("UNDER_MAINTENANCE", UNDER_MAINTENANCE); ("RESERVED", RESERVED) ].

(** [.int()] *)
Definition int_ : Zod.Check Q :=
  {| Zod.test := fun x => Qeq_bool (inject_Z (Qfloor x)) x;
     Zod.check_message := "Expected integer, received float" |}.

(** [.multipleOf(0.5)]: the value is a whole number of halves.  zod decides
    this on the digits that the Number prints with, which gives the same
    answer for the counts of rooms that are written with a few decimals,
    and need not for a value that prints in exponent notation. *)
Definition multipleOf_half : Zod.Check Q :=
  {| Zod.test := fun x => Qeq_bool (inject_Z (Qfloor (x * (2 # 1)))) (x * (2 # 1));
     Zod.check_message := "Number must be a multiple of 0.5" |}.

Record CreateUnitInput := {
  cu_unitNumber : string;
  cu_status : UnitStatus;
  cu_bedrooms : Q;
  cu_bathrooms : Q;
  cu_squareFeet : option Q;
  cu_floor : option Q;
  cu_monthlyRent : Q;
  cu_depositAmount : Q;
  cu_features : list string;
  cu_petPolicy : option string
}.

Definition unitNumber_schema : Zod.ZodType string :=
  Zod.string_ [Zod.min 1 "Unit number is required"; Zod.max_ 20].
Definition unit_status_schema : Zod.ZodType UnitStatus :=
  Zod.optional_default (Zod.enum unitStatuses None) (JStr "VACANT").
Definition bedrooms_schema : Zod.ZodType Q :=
  Zod.number [int_; Zod.min_number 0 "Bedrooms must be 0 or more"].
Definition bathrooms_schema : Zod.ZodType Q :=
  Zod.number [Zod.min_number 0 "Bathrooms must be 0 or more"; multipleOf_half].
Definition squareFeet_schema : Zod.ZodType (option Q) :=
  Zod.optional (Zod.number [int_; Zod.min_number_ 1]).
Definition floor_schema : Zod.ZodType (option Q) := Zod.optional (Zod.number [int_]).
Definition monthlyRent_schema : Zod.ZodType Q :=
  Zod.number [Zod.min_number 0 "Rent must be a positive number"].
Definition depositAmount_schema : Zod.ZodType Q :=
  Zod.number [Zod.min_number 0 "Deposit must be a positive number"].
Definition features_schema : Zod.ZodType (list string) :=
  Zod.optional_default (Zod.array (Zod.string_ [])) (JArr []).
Definition petPolicy_schema : Zod.ZodType (option string) :=
  Zod.optional (Zod.string_ [Zod.max_ 500]).

(** [createUnitSchema] *)
Definition createUnitSchema : json -> Zod.SafeParseReturnType CreateUnitInput :=
  Zod.object (fun body =>
    Zod.ParseOk Build_CreateUnitInput
    <*> Zod.field "unitNumber" unitNumber_schema body
    <*> Zod.field "status" unit_status_schema body
    <*> Zod.field "bedrooms" bedrooms_schema body
    <*> Zod.field "bathrooms" bathrooms_schema body
    <*> Zod.field "squareFeet" squareFeet_schema body
    <*> Zod.field "floor" floor_schema body
    <*> Zod.field "monthlyRent" monthlyRent_schema body
    <*> Zod.field "depositAmount" depositAmount_schema body
    <*> Zod.field "features" features_schema body
    <*> Zod.field "petPolicy" petPolicy_schema body).

Record UpdateUnitInput := {
  uu_unitNumber : option string;
  uu_status : option UnitStatus;
  uu_bedrooms : option Q;
  uu_bathrooms : option Q;
  uu_squareFeet : option (option Q);
  uu_floor : option (option Q);
  uu_monthlyRent : option Q;
  uu_depositAmount : option Q;
  uu_features : option (list string);
  uu_petPolicy : option (option string)
}.

(** [updateUnitSchema = createUnitSchema.partial()]: every key of the shape
    becomes optional, so that a key left out is [undefined] in the result,
    also where the shape has a default. *)
Definition updateUnitSchema : json -> Zod.SafeParseReturnType UpdateUnitInput :=
  Zod.object (fun body =>
    Zod.ParseOk Build_UpdateUnitInput
    <*> Zod.field "unitNumber" (Zod.optional unitNumber_schema) body
    <*> Zod.field "status" (Zod.optional unit_status_schema) body
    <*> Zod.field "bedrooms" (Zod.optional bedrooms_schema) body
    <*> Zod.field "bathrooms" (Zod.optional bathrooms_schema) body
    <*> Zod.field "squareFeet" (Zod.optional squareFeet_schema) body
    <*> Zod.field "floor" (Zod.optional floor_schema) body
    <*> Zod.field "monthlyRent" (Zod.optional monthlyRent_schema) body
    <*> Zod.field "depositAmount" (Zod.optional depositAmount_schema) body
    <*> Zod.field "features" (Zod.optional features_schema) body
    <*> Zod.field "petPolicy" (Zod.optional petPolicy_schema) body).

(* ===================================================================== *)
(** * app/api/landlord/properties/[id]/units: creating and updating units *)
(* ===================================================================== *)

(** [NextResponse.json({ success: true, data, message }, { status })] with
    [data] of the type [P]. *)
Record Success (P : Type) := {
  ok_status : Z;
  ok_data : P;
  ok_message : option string
}.
Arguments ok_status {P} _.
Arguments ok_data {P} _.
Arguments ok_message {P} _.

(** [try { ... } catch (error) { return 500 }] around a handler whose
    success carries data of the type [P]; a refusal is a [Response]. *)
Definition try_catch_data {P} (failure : string) (body : Handler (Success P))
  : Database -> (Response + Success P) * Database :=
  fun db =>
    match body db with
    | (Value s, db') => (inr s, db')
    | (Return r, db') => (inl r, db')
    | (Throw, db') => (inl (json_error 500 failure), db')
    end.

Module LandlordUnits.

(** [unit.findUnique({ where: { propertyId_unitNumber: { propertyId,
    unitNumber } } })] *)
Definition unit_findUnique_propertyId_unitNumber (propertyId unitNumber : string)
           (db : Database) : option Unit :=
  find (fun u => (unit_propertyId u =? propertyId)%string
                 && (unit_unitNumber u =? unitNumber)%string)
       (units db).

(** The row of [unit.create({ data: { ...result.data, propertyId } })], in
    the columns that the record of a unit holds. *)
Definition new_unit (id propertyId : string) (data : CreateUnitInput) : Unit :=
  {| unit_id := id; unit_propertyId := propertyId;
     unit_unitNumber := cu_unitNumber data;
     unit_status := cu_status data;
     unit_monthlyRent := cu_monthlyRent data;
     unit_depositAmount := cu_depositAmount data |}.

(** [unit.create({ data })] *)
Definition unit_create {E : Externals} (propertyId : string) (data : CreateUnitInput)
  : Handler Unit :=
  id <- fresh_id ;;
  let row := new_unit id propertyId data in
  fun db => (Value row, set_units (fun rows => rows ++ [row]) db).

(** [property.update({ where: { id }, data: { totalUnits: { increment: 1 } } })] *)
Definition property_increment_totalUnits (id : string) : Handler unit :=
  fun db =>
    match property_findUnique id db with
    | None => (Throw, db)
    | Some _ =>
        (Value tt,
         set_properties
           (map (fun p => if (property_id p =? id)%string
                          then {| property_id := property_id p;
                                  property_name := property_name p;
                                  property_ownerId := property_ownerId p;
                                  property_totalUnits := (property_totalUnits p + 1)%Z |}
                          else p)) db)
    end.

(** POST /api/landlord/properties/[id]/units *)
Definition POST {E : Externals} (session : option SessionUser) (params_id : string)
           (body : json) : Database -> (Response + Success Unit) * Database :=
  try_catch_data "Failed to create unit" (
    user <- require_session session ;;
    property <- query (property_findUnique params_id) ;;
    match property with
    | None => respond (json_error 404 "Property not found")
    | Some property =>
        return_if (not_owner_nor_admin (property_ownerId property) user)
                  (json_error 403 "Forbidden") ;;
        match createUnitSchema body with
        | Zod.ParseError errors => validation_error errors
        | Zod.ParseOk data =>
            existingUnit <- query (unit_findUnique_propertyId_unitNumber
                                     params_id (cu_unitNumber data)) ;;
            match existingUnit with
            | Some _ => respond (json_error 409 "A unit with this number already exists")
            | None =>
                unit <- unit_create params_id data ;;
                property_increment_totalUnits params_id ;;
                ret {| ok_status := 201; ok_data := unit;
                       ok_message := Some "Unit created successfully" |}
            end
        end
    end).

(** The row after [unit.update({ where: { id }, data: result.data })], in
    the columns that the record of a unit holds; a key that is [undefined]
    leaves its column as it is. *)
Definition patch_unit (data : UpdateUnitInput) (u : Unit) : Unit :=
  {| unit_id := unit_id u;
     unit_propertyId := unit_propertyId u;
     unit_unitNumber := or_keep (uu_unitNumber data) (unit_unitNumber u);
     unit_status := or_keep (uu_status data) (unit_status u);
     unit_monthlyRent := or_keep (uu_monthlyRent data) (unit_monthlyRent u);
     unit_depositAmount := or_keep (uu_depositAmount data) (unit_depositAmount u) |}.

(** [unit.update({ where: { id }, data })] *)
Definition unit_update (id : string) (data : UpdateUnitInput) : Handler Unit :=
  fun db =>
    match unit_findUnique id db with
    | None => (Throw, db)
    | Some u =>
        (Value (patch_unit data u),
         set_units (map (fun x => if (unit_id x =? id)%string
                                  then patch_unit data x else x)) db)
    end.

(** [if (result.data.unitNumber && result.data.unitNumber !==
    existingUnit.unitNumber) { ... return 409 ... }] *)
Definition check_duplicate (propertyId : string) (data : UpdateUnitInput)
           (existingUnit : Unit) : Handler unit :=
  match uu_unitNumber data with
  | Some unitNumber =>
      if truthy unitNumber && negb (unitNumber =? unit_unitNumber existingUnit)%string
      then
        duplicateUnit <- query (unit_findUnique_propertyId_unitNumber
                                  propertyId unitNumber) ;;
        match duplicateUnit with
        | Some _ => respond (json_error 409 "A unit with this number already exists")
        | None => ret tt
        end
      else ret tt
  | None => ret tt
  end.

(** PUT /api/landlord/properties/[id]/units/[unitId] *)
Definition PUT (session : option SessionUser) (params_id params_unitId : string)
           (body : json) : Database -> (Response + Success Unit) * Database :=
  try_catch_data "Failed to update unit" (
    user <- require_session session ;;
    ownership <- LandlordUnit.verifyOwnership params_id (session_id user)
                                              (session_role user) ;;
    match ownership with
    | inl (error, status) => respond (json_error status error)
    | inr _ =>
        existingUnit <- query (unit_findUnique params_unitId) ;;
        match existingUnit with
        | None => respond (json_error 404 "Unit not found")
        | Some existingUnit =>
            return_if (negb (unit_propertyId existingUnit =? params_id)%string)
                      (json_error 400 "Unit does not belong to this property") ;;
            match updateUnitSchema body with
            | Zod.ParseError errors => validation_error errors
            | Zod.ParseOk data =>
                check_duplicate params_id data existingUnit ;;
                unit <- unit_update params_unitId data ;;
                ret {| ok_status := 200; ok_data := unit;
                       ok_message := Some "Unit updated successfully" |}
            end
        end
    end).

End LandlordUnits.

(** Within a property no two units have the same number. *)
Definition unique_numbers (db : Database) : Prop :=
  NoDup (map (fun u => (unit_propertyId u, unit_unitNumber u)) (units db)).


(** No two units have the same id. *)
Definition unique_unit_ids (db : Database) : Prop := NoDup (map unit_id (units db)).

(** The property with one more unit counted. *)
Definition one_more (id : string) (p : Property) : Property :=
  if (property_id p =? id)%string
  then {| property_id := property_id p;
          property_name := property_name p;
          property_ownerId := property_ownerId p;
          property_totalUnits := (property_totalUnits p + 1)%Z |}
  else p.

(** The database after a unit has been created in a property. *)
Definition with_unit (row : Unit) (db : Database) : Database :=
  set_properties (map (one_more (unit_propertyId row)))
    (set_units (fun rows => rows ++ [row]) (bump_nextId db)).

(** The units of a property carry no number [unitNumber]. *)
Definition number_free (propertyId unitNumber : string) (db : Database) : Prop :=
  forall u, In u (units db) -> unit_propertyId u = propertyId ->
            unit_unitNumber u <> unitNumber.

(** The key of the unique index on units. *)
Definition unit_key (u : Unit) : string * string := (unit_propertyId u, unit_unitNumber u).

(** The body renumbers the unit to a number that a unit of the property
    already carries. *)
Definition number_taken (propertyId : string) (data : UpdateUnitInput)
           (existingUnit : Unit) (db : Database) : bool :=
  match uu_unitNumber data with
  | Some unitNumber =>
      truthy unitNumber && negb (unitNumber =? unit_unitNumber existingUnit)%string
      && match LandlordUnits.unit_findUnique_propertyId_unitNumber
                 propertyId unitNumber db with
         | Some _ => true
         | None => false
         end
  | None => false
  end.

(** [unit.update] as a function on the table. *)
Definition patch_units (id : string) (data : UpdateUnitInput) (db : Database) : Database :=
  set_units (map (fun x => if (unit_id x =? id)%string
                           then LandlordUnits.patch_unit data x else x)) db.

(** The body that creates a two-bedroom unit, and what the schema makes of it. *)
Definition unit_body (unitNumber : string) : json :=
  JObj [ ("unitNumber", JStr unitNumber); ("bedrooms", JNum (2 # 1));
         ("bathrooms", JNum (3 # 2)); ("monthlyRent", JNum (950 # 1));
         ("depositAmount", JNum (950 # 1)) ].

Definition unit_input (unitNumber : string) : CreateUnitInput :=
  {| cu_unitNumber := unitNumber; cu_status := VACANT; cu_bedrooms := 2 # 1;
     cu_bathrooms := 3 # 2; cu_squareFeet := None; cu_floor := None;
     cu_monthlyRent := 950 # 1; cu_depositAmount := 950 # 1;
     cu_features := []; cu_petPolicy := None |}.

(* ===================================================================== *)
(** * Running the handlers *)
(* ===================================================================== *)

(** Unfolds the handler monad and the client calls down to matches on the
    database lookups. *)
Ltac run_handler :=
  cbv [try_catch transaction bind ret respond throw query return_if
       require_session validation_error maintenanceRequest_findUnique_include
       include_unit_property maintenanceRequest_update maintenanceUpdate_create
       optional_date_value date_value fresh_id Stripe.call] in *.

Lemma find_map_preserving {A} (p : A -> bool) (f : A -> A) (l : list A) :
  (forall x, p (f x) = p x) ->
  find p (map f l) = option_map f (find p l).
Proof.
  intros Hp. induction l as [|x l IH]; cbn; [reflexivity|].
  rewrite Hp. destruct (p x); [reflexivity|exact IH].
Qed.

Section OrderBy.

Context {A : Type} (precedes : A -> A -> bool).

Lemma insert_sorted_perm x l : Permutation (x :: l) (insert_sorted precedes x l).
Proof.
  induction l as [|y t IH]; cbn; [reflexivity|].
  destruct (precedes y x); [|reflexivity].
  rewrite perm_swap. now apply perm_skip.
Qed.

Lemma orderBy_perm l : Permutation l (orderBy precedes l).
Proof.
  induction l as [|x l IH]; cbn; [constructor|].
  rewrite <- insert_sorted_perm. now apply perm_skip.
Qed.

Lemma orderBy_In x l : In x (orderBy precedes l) <-> In x l.
Proof.
  split; apply Permutation_in; [symmetry|]; apply orderBy_perm.
Qed.

Lemma orderBy_length l : List.length (orderBy precedes l) = List.length l.
Proof. symmetry. apply Permutation_length, orderBy_perm. Qed.

Lemma orderBy_Forall (P : A -> Prop) l : Forall P l -> Forall P (orderBy precedes l).
Proof.
  intros H. rewrite Forall_forall in *. intros x Hx. apply H. now apply orderBy_In.
Qed.

End OrderBy.

Section LandlordMaintenanceIdFacts.

Context {E : Externals}.
Import LandlordMaintenanceId.

Lemma access_granted user id db r :
  access user id db = Granted r -> maintenanceRequest_findUnique id db = Some r.
Proof.
  unfold access. destruct (maintenanceRequest_findUnique id db) as [x|]; [|discriminate].
  destruct (unit_findUnique _ db) as [u|]; [|discriminate].
  destruct (property_findUnique _ db) as [p|]; [|discriminate].
  destruct (not_owner_nor_admin _ user); [discriminate|].
  now intros [= ->].
Qed.

Lemma GET_run user id db :
  GET (Some user) id db =
  match access user id db with
  | NotFound => (json_error 404 "Maintenance request not found", db)
  | Dangling => (json_error 500 "Failed to fetch maintenance request", db)
  | Forbidden => (json_error 403 "Forbidden", db)
  | Granted r => (json_ok 200 (Some (RequestDetail r (include_updates id db))) None, db)
  end.
Proof.
  unfold GET, access. run_handler.
  destruct (maintenanceRequest_findUnique id db) as [r|]; [|reflexivity].
  destruct (unit_findUnique (mr_unitId r) db) as [u|]; [|reflexivity].
  destruct (property_findUnique (unit_propertyId u) db) as [p|]; [|reflexivity].
  destruct (not_owner_nor_admin (property_ownerId p) user); reflexivity.
Qed.

Lemma PUT_run user id body now db :
  PUT (Some user) id body now db =
  match access user id db with
  | NotFound => (json_error 404 "Maintenance request not found", db)
  | Dangling => (json_error 500 "Failed to update maintenance request", db)
  | Forbidden => (json_error 403 "Forbidden", db)
  | Granted existing =>
      match updateMaintenanceRequestSchema body with
      | Zod.ParseError [] => (json_error 500 "Failed to update maintenance request", db)
      | Zod.ParseError (issue :: _) => (json_error 400 (Zod.message issue), db)
      | Zod.ParseOk data =>
          let d := updateData data existing now in
          match ud_scheduledDate d with
          | Some InvalidDate =>
              (json_error 500 "Failed to update maintenance request", db)
          | _ =>
              (json_ok 200
                 (Some (RequestRow (patch_request d (stored (ud_scheduledDate d))
                                      (stored (ud_acknowledgedAt d))
                                      (stored (ud_completedAt d)) existing)))
                 (Some "Maintenance request updated successfully"),
               if statusChanged data existing
               then append_update
                      (status_log_row (cuid (nextId db)) id existing
                         (or_keep (um_status data) (mr_status existing))
                         (session_id user) now)
                      (patch_table id d db)
               else patch_table id d db)
          end
      end
  end.
Proof.
  unfold PUT, access. run_handler.
  destruct (maintenanceRequest_findUnique id db) as [existing|] eqn:Hf; [|reflexivity].
  destruct (unit_findUnique (mr_unitId existing) db) as [unit|]; [|reflexivity].
  destruct (property_findUnique (unit_propertyId unit) db) as [property|]; [|reflexivity].
  destruct (not_owner_nor_admin (property_ownerId property) user); [reflexivity|].
  destruct (updateMaintenanceRequestSchema body) as [data|[|i errs]]; try reflexivity.
  unfold statusChanged, patch_table, append_update, status_log_row.
  cbv zeta.
  destruct (ud_scheduledDate (updateData data existing now)) as [[ms|]|] eqn:Hsd;
    try reflexivity.
  all: unfold updateData in *; cbn [ud_acknowledgedAt ud_completedAt ud_scheduledDate] in *.
  all: rewrite ?Hsd; unfold stamp_once.
  all: destruct (um_status data) as [s|]; cbn.
  all: try rewrite Hf.
  all: try (destruct (mr_acknowledgedAt existing); destruct (mr_completedAt existing)).
  all: try (destruct (MaintenanceStatus_beq s ACKNOWLEDGED);
            destruct (MaintenanceStatus_beq s COMPLETED)).
  all: cbn; rewrite ?Hf; cbn.
  all: try (destruct (MaintenanceStatus_beq s (mr_status existing))); cbn; reflexivity.
Qed.

Lemma POST_run user id body now db :
  POST (Some user) id body now db =
  match access user id db with
  | NotFound => (json_error 404 "Maintenance request not found", db)
  | Dangling => (json_error 500 "Failed to add update", db)
  | Forbidden => (json_error 403 "Forbidden", db)
  | Granted existing =>
      match addMaintenanceUpdateSchema body with
      | Zod.ParseError [] => (json_error 500 "Failed to add update", db)
      | Zod.ParseError (issue :: _) => (json_error 400 (Zod.message issue), db)
      | Zod.ParseOk data =>
          let row := comment_row (cuid (nextId db)) id existing data
                                 (session_id user) now in
          (json_ok 201 (Some (UpdateRow row)) (Some "Update added successfully"),
           match au_newStatus data with
           | Some newStatus =>
               if MaintenanceStatus_beq newStatus (mr_status existing)
               then append_update row db
               else patch_table id (statusUpdate newStatus existing now)
                                (append_update row db)
           | None => append_update row db
           end)
      end
  end.
Proof.
  unfold POST, access. run_handler.
  destruct (maintenanceRequest_findUnique id db) as [existing|] eqn:Hf; [|reflexivity].
  destruct (unit_findUnique (mr_unitId existing) db) as [unit|]; [|reflexivity].
  destruct (property_findUnique (unit_propertyId unit) db) as [property|]; [|reflexivity].
  destruct (not_owner_nor_admin (property_ownerId property) user); [reflexivity|].
  destruct (addMaintenanceUpdateSchema body) as [data|[|i errs]]; try reflexivity.
  unfold patch_table, append_update, comment_row, statusUpdate, stamp_once.
  cbv zeta.
  destruct (au_newStatus data) as [s|]; cbn; [|reflexivity].
  destruct (MaintenanceStatus_beq s (mr_status existing)); cbn; [reflexivity|].
  destruct (mr_acknowledgedAt existing); destruct (mr_completedAt existing);
    destruct (MaintenanceStatus_beq s ACKNOWLEDGED);
    destruct (MaintenanceStatus_beq s COMPLETED); cbn;
    unfold maintenanceRequest_findUnique in *; cbn; rewrite Hf; reflexivity.
Qed.

End LandlordMaintenanceIdFacts.

Lemma MaintenanceStatus_beq_eq (a b : MaintenanceStatus) :
  MaintenanceStatus_beq a b = true <-> a = b.
Proof. destruct a, b; cbn; split; intros H; try reflexivity; discriminate H. Qed.

Lemma MaintenanceStatus_beq_neq (a b : MaintenanceStatus) :
  MaintenanceStatus_beq a b = false <-> a <> b.
Proof.
  split.
  - intros H Heq. apply MaintenanceStatus_beq_eq in Heq. congruence.
  - intros H. destruct (MaintenanceStatus_beq a b) eqn:Hb; [|reflexivity].
    apply MaintenanceStatus_beq_eq in Hb. contradiction.
Qed.

Lemma app_one_neq {A} (l : list A) (x : A) : l <> l ++ [x].
Proof.
  intros H. apply (f_equal (@List.length A)) in H.
  rewrite length_app in H. cbn in H. lia.
Qed.

Section UpdateLog.

Context {E : Externals}.
Import LandlordMaintenanceId.

(** What PUT does to the update log. *)
Lemma PUT_log user id body now db :
  let put := PUT (Some user) id body now db in
  (status (fst put) = 200%Z ->
   exists existing data,
     maintenanceRequest_findUnique id db = Some existing /\
     updateMaintenanceRequestSchema body = Zod.ParseOk data /\
     maintenanceUpdates (snd put) =
       maintenanceUpdates db ++
       (if statusChanged data existing
        then [status_log_row (cuid (nextId db)) id existing
                (or_keep (um_status data) (mr_status existing)) (session_id user) now]
        else []))
  /\ (status (fst put) <> 200%Z -> snd put = db).
Proof.
  cbv zeta. rewrite PUT_run.
  destruct (access user id db) as [| | |existing] eqn:Ha;
    try (cbn; split; [discriminate|reflexivity]).
  destruct (updateMaintenanceRequestSchema body) as [data|[|i errs]];
    try (cbn; split; [discriminate|reflexivity]).
  cbv zeta.
  destruct (ud_scheduledDate (updateData data existing now)) as [[ms|]|]; cbn;
    try (split; [discriminate|reflexivity]).
  all: split; [intros _|intros H; exfalso; now apply H].
  all: exists existing, data; split; [now apply access_granted with user|].
  all: split; [reflexivity|].
  all: destruct (statusChanged data existing); cbn; now rewrite ?app_nil_r.
Qed.

(** What POST does to the update log. *)
Lemma POST_log user id body now db :
  let post := POST (Some user) id body now db in
  (status (fst post) = 201%Z ->
   exists existing data,
     maintenanceRequest_findUnique id db = Some existing /\
     addMaintenanceUpdateSchema body = Zod.ParseOk data /\
     maintenanceUpdates (snd post) =
       maintenanceUpdates db ++
       [comment_row (cuid (nextId db)) id existing data (session_id user) now])
  /\ (status (fst post) <> 201%Z -> snd post = db).
Proof.
  cbv zeta. rewrite POST_run.
  destruct (access user id db) as [| | |existing] eqn:Ha;
    try (cbn; split; [discriminate|reflexivity]).
  destruct (addMaintenanceUpdateSchema body) as [data|[|i errs]];
    try (cbn; split; [discriminate|reflexivity]).
  cbn. split; [intros _|intros H; exfalso; now apply H].
  exists existing, data; split; [now apply access_granted with user|].
  split; [reflexivity|].
  destruct (au_newStatus data) as [s|]; [|reflexivity].
  destruct (MaintenanceStatus_beq s (mr_status existing)); reflexivity.
Qed.

Lemma statusChanged_differs data existing :
  statusChanged data existing = true <->
  exists s, um_status data = Some s /\ s <> mr_status existing.
Proof.
  unfold statusChanged. destruct (um_status data) as [s|].
  - rewrite negb_true_iff, MaintenanceStatus_beq_neq. split.
    + intros H. now exists s.
    + intros (s' & [= <-] & H). exact H.
  - split; [discriminate|]. intros (s & H & _). discriminate H.
Qed.

(** C1 (as amended).  A successful PUT appends a row to the update log if
    and only if the body carries a status that differs from the request's
    current status, and that row records the current status as
    [previousStatus] and the status of the body as [newStatus]; a PUT that
    fails writes nothing.  A successful POST appends exactly one row whether
    or not a new status is given: its [previousStatus] is the current status
    and its [newStatus] is the status of the body, or the current status
    when the body has none; a POST that fails writes nothing. *)
Theorem update_row_on_status_change user id body now db :
  let put := PUT (Some user) id body now db in
  let post := POST (Some user) id body now db in
  (status (fst put) = 200%Z ->
   exists existing data,
     maintenanceRequest_findUnique id db = Some existing /\
     updateMaintenanceRequestSchema body = Zod.ParseOk data /\
     ((exists row, maintenanceUpdates (snd put) = maintenanceUpdates db ++ [row])
      <-> (exists s, um_status data = Some s /\ s <> mr_status existing)) /\
     (forall row, maintenanceUpdates (snd put) = maintenanceUpdates db ++ [row] ->
                  mu_requestId row = id /\
                  mu_previousStatus row = mr_status existing /\
                  um_status data = Some (mu_newStatus row)) /\
     ((forall s, um_status data = Some s -> s = mr_status existing) ->
      maintenanceUpdates (snd put) = maintenanceUpdates db))
  /\ (status (fst put) <> 200%Z -> snd put = db)
  /\ (status (fst post) = 201%Z ->
      exists existing data row,
        maintenanceRequest_findUnique id db = Some existing /\
        addMaintenanceUpdateSchema body = Zod.ParseOk data /\
        maintenanceUpdates (snd post) = maintenanceUpdates db ++ [row] /\
        mu_requestId row = id /\
        mu_previousStatus row = mr_status existing /\
        mu_newStatus row = or_keep (au_newStatus data) (mr_status existing))
  /\ (status (fst post) <> 201%Z -> snd post = db).
Proof.
  cbv zeta.
  destruct (PUT_log user id body now db) as [Hput Hput'].
  destruct (POST_log user id body now db) as [Hpost Hpost'].
  cbv zeta in *. repeat split; try assumption.
  - intros H. destruct (Hput H) as (existing & data & Hf & Hp & Hl).
    exists existing, data. repeat split; try assumption.
    + intros [row Hrow]. apply statusChanged_differs.
      destruct (statusChanged data existing); [reflexivity|].
      rewrite Hl, app_nil_r in Hrow. now apply app_one_neq in Hrow.
    + intros Hd. apply statusChanged_differs in Hd. rewrite Hd in Hl. eauto.
    + destruct (statusChanged data existing) eqn:Hc.
      * rewrite Hl in H0. apply app_inv_head in H0. now injection H0 as <-.
      * rewrite Hl, app_nil_r in H0. now apply app_one_neq in H0.
    + destruct (statusChanged data existing) eqn:Hc.
      * rewrite Hl in H0. apply app_inv_head in H0. now injection H0 as <-.
      * rewrite Hl, app_nil_r in H0. now apply app_one_neq in H0.
    + destruct (statusChanged data existing) eqn:Hc.
      * rewrite Hl in H0. apply app_inv_head in H0. injection H0 as <-. cbn.
        apply statusChanged_differs in Hc. destruct Hc as (s & -> & _). reflexivity.
      * rewrite Hl, app_nil_r in H0. now apply app_one_neq in H0.
    + intros Hsame. destruct (statusChanged data existing) eqn:Hc.
      * apply statusChanged_differs in Hc. destruct Hc as (s & Hs & Hne).
        contradiction Hne. now apply Hsame.
      * now rewrite Hl, app_nil_r.
  - intros H. destruct (Hpost H) as (existing & data & Hf & Hp & Hl).
    exists existing, data, (comment_row (cuid (nextId db)) id existing data
                                        (session_id user) now).
    repeat split; assumption.
Qed.

End UpdateLog.

(** A PUT that acknowledges Tina's request logs the transition. *)
Lemma update_row_on_status_change_witness :
  let body := JObj [("status", JStr "ACKNOWLEDGED")] in
  let put := LandlordMaintenanceId.PUT (E := Sample.externals)
               (Some Sample.alice) "r1" body 50 Sample.db in
  status (fst put) = 200%Z /\
  exists row, maintenanceUpdates (snd put) = maintenanceUpdates Sample.db ++ [row].
Proof.
  cbv zeta. split; [reflexivity|].
  destruct (@update_row_on_status_change Sample.externals Sample.alice "r1"
              (JObj [("status", JStr "ACKNOWLEDGED")]) 50%Z Sample.db) as (Hput & _).
  destruct (Hput eq_refl) as (existing & data & Hf & Hp & Hiff & _).
  apply Hiff. vm_compute in Hf. vm_compute in Hp.
  injection Hf as <-. injection Hp as <-.
  exists ACKNOWLEDGED. split; [reflexivity|discriminate].
Defined.

(** C1, counterexample.  Alice adds a comment to Tina's request without
    naming a new status: a row is appended to the update log although no
    new status differs from the current one. *)
Lemma POST_logs_without_status_change :
  let body := JObj [("message", JStr "Plumber booked for Friday")] in
  let post := LandlordMaintenanceId.POST (E := Sample.externals)
                (Some Sample.alice) "r1" body 50 Sample.db in
  ~ ((exists row, maintenanceUpdates (snd post) = maintenanceUpdates Sample.db ++ [row])
     <-> (exists data s,
            addMaintenanceUpdateSchema (E := Sample.externals) body = Zod.ParseOk data /\
            au_newStatus data = Some s /\ s <> mr_status Sample.request_row)).
Proof.
  cbv zeta. intros [Hcreated _].
  destruct Hcreated as (data & s & Hp & Hs & _).
  - eexists. vm_compute. reflexivity.
  - vm_compute in Hp. injection Hp as <-. discriminate Hs.
Qed.

(* ===================================================================== *)
(** * Timestamps of a request over a history of landlord calls *)
(* ===================================================================== *)

Section Timestamps.

Context {E : Externals}.
Import LandlordMaintenanceId.

Lemma stamp_once_spec newStatus target current now :
  stamped_by now target current
             (or_keep_opt (stored (stamp_once newStatus target current now)) current)
             (or_keep newStatus target)
  /\ (newStatus = None ->
      or_keep_opt (stored (stamp_once newStatus target current now)) current = current).
Proof.
  unfold stamped_by, stamp_once.
  destruct newStatus as [s|], current as [t|]; cbn; auto.
  destruct (MaintenanceStatus_beq s target) eqn:Hs; cbn; auto.
  apply MaintenanceStatus_beq_eq in Hs. subst. split; [right; auto|discriminate].
Qed.

Lemma patch_request_stamped d sd r now :
  stamps_once d r now ->
  let r' := patch_request d sd (stored (ud_acknowledgedAt d))
                          (stored (ud_completedAt d)) r in
  stamped_by now ACKNOWLEDGED (mr_acknowledgedAt r) (mr_acknowledgedAt r') (mr_status r')
  /\ stamped_by now COMPLETED (mr_completedAt r) (mr_completedAt r') (mr_status r').
Proof.
  intros [Ha Hc]. cbn. rewrite Ha, Hc. unfold stamped_by.
  destruct (ud_status d) as [s|]; cbn.
  - destruct (stamp_once_spec (Some s) ACKNOWLEDGED (mr_acknowledgedAt r) now) as [H1 _].
    destruct (stamp_once_spec (Some s) COMPLETED (mr_completedAt r) now) as [H2 _].
    unfold stamped_by, stamp_once in *. cbn in *.
    destruct (mr_acknowledgedAt r), (mr_completedAt r); cbn in *; auto;
      destruct (MaintenanceStatus_beq s ACKNOWLEDGED) eqn:Hsa;
      destruct (MaintenanceStatus_beq s COMPLETED) eqn:Hsc; cbn in *; auto;
      try apply MaintenanceStatus_beq_eq in Hsa;
      try apply MaintenanceStatus_beq_eq in Hsc; subst; auto;
      try discriminate.
  - destruct (mr_acknowledgedAt r), (mr_completedAt r); cbn; auto.
Qed.

Lemma find_patch_table id id' d db :
  maintenanceRequest_findUnique id (patch_table id' d db) =
  option_map (fun x => if mr_id x =? id'
                       then patch_request d (stored (ud_scheduledDate d))
                                          (stored (ud_acknowledgedAt d))
                                          (stored (ud_completedAt d)) x
                       else x)
             (maintenanceRequest_findUnique id db).
Proof.
  unfold maintenanceRequest_findUnique, patch_table. cbn.
  apply find_map_preserving. intros x. destruct (mr_id x =? id'); reflexivity.
Qed.

Lemma find_append_update id row db :
  maintenanceRequest_findUnique id (append_update row db) =
  maintenanceRequest_findUnique id db.
Proof. reflexivity. Qed.

Lemma stamped_refl now r : stamped now r r.
Proof. split; left; reflexivity. Qed.

(** A patch of the table by a granted call, seen from the row with id [id]. *)
Lemma patched_row_stamped user id id' d db existing r now :
  access user id' db = Granted existing ->
  stamps_once d existing now ->
  maintenanceRequest_findUnique id db = Some r ->
  exists r', maintenanceRequest_findUnique id (patch_table id' d db) = Some r'
             /\ stamped now r r'.
Proof.
  intros Ha Hd Hf. rewrite find_patch_table, Hf. cbn.
  destruct (mr_id r =? id') eqn:Hid.
  - eexists; split; [reflexivity|].
    apply String.eqb_eq in Hid.
    assert (Hr : existing = r).
    { apply access_granted in Ha.
      destruct (find_some _ _ Hf) as [_ Hid']. apply String.eqb_eq in Hid'.
      assert (id = id') by congruence. subst id'. congruence. }
    subst existing. now apply patch_request_stamped.
  - eexists; split; [reflexivity|apply stamped_refl].
Qed.

Lemma landlord_call_step c db id r :
  maintenanceRequest_findUnique id db = Some r ->
  exists r', maintenanceRequest_findUnique id (landlord_call c db) = Some r'
             /\ stamped (call_time c) r r'.
Proof.
  intros Hf.
  assert (Hsame : exists r', maintenanceRequest_findUnique id db = Some r'
                             /\ stamped (call_time c) r r')
    by (exists r; split; [assumption|apply stamped_refl]).
  destruct c as [[user|] id' body now|[user|] id' body now]; cbn [landlord_call call_time];
    try exact Hsame.
  - rewrite PUT_run.
    destruct (access user id' db) as [| | |existing] eqn:Ha; try exact Hsame.
    destruct (updateMaintenanceRequestSchema body) as [data|[|i errs]]; try exact Hsame.
    cbv zeta.
    destruct (ud_scheduledDate (updateData data existing now)) as [[ms|]|] eqn:Hsd;
      try exact Hsame.
    all: cbn [snd]; destruct (statusChanged data existing);
      rewrite ?find_append_update;
      apply patched_row_stamped with user existing; try assumption;
      split; reflexivity.
  - rewrite POST_run.
    destruct (access user id' db) as [| | |existing] eqn:Ha; try exact Hsame.
    destruct (addMaintenanceUpdateSchema body) as [data|[|i errs]]; try exact Hsame.
    cbv zeta. cbn [snd].
    destruct (au_newStatus data) as [s|]; [|exact Hsame].
    destruct (MaintenanceStatus_beq s (mr_status existing)); [exact Hsame|].
    apply patched_row_stamped with user existing;
      [exact Ha|split; reflexivity|exact Hf].
Qed.

(** C2.  Over the PUT and POST handlers of a landlord, [acknowledgedAt] and
    [completedAt] are each set at most once.  A single call changes such a
    timestamp only from empty to the time of the call, and only while it
    moves the request into ACKNOWLEDGED (resp. COMPLETED); and once the
    timestamp is set, it has the same value after any further sequence of
    calls, however often the triggering status is entered again. *)
Theorem timestamps_set_at_most_once :
  (forall c db id r r',
      maintenanceRequest_findUnique id db = Some r ->
      maintenanceRequest_findUnique id (landlord_call c db) = Some r' ->
      (mr_acknowledgedAt r' <> mr_acknowledgedAt r ->
       mr_acknowledgedAt r = None /\ mr_acknowledgedAt r' = Some (call_time c)
       /\ mr_status r' = ACKNOWLEDGED)
      /\ (mr_completedAt r' <> mr_completedAt r ->
          mr_completedAt r = None /\ mr_completedAt r' = Some (call_time c)
          /\ mr_status r' = COMPLETED))
  /\ (forall calls db id r,
         maintenanceRequest_findUnique id db = Some r ->
         exists r', maintenanceRequest_findUnique id (landlord_calls calls db) = Some r'
                    /\ (forall t, mr_acknowledgedAt r = Some t ->
                                  mr_acknowledgedAt r' = Some t)
                    /\ (forall t, mr_completedAt r = Some t ->
                                  mr_completedAt r' = Some t)).
Proof.
  split.
  - intros c db id r r' Hf Hf'.
    destruct (landlord_call_step c db id r Hf) as (r'' & Hf'' & [Ha Hc]).
    assert (r'' = r') by congruence. subst r''.
    split; intros Hne.
    + destruct Ha as [Ha|Ha]; [contradiction|exact Ha].
    + destruct Hc as [Hc|Hc]; [contradiction|exact Hc].
  - intros calls. induction calls as [|c calls IH]; intros db id r Hf.
    + exists r. cbn. auto.
    + destruct (landlord_call_step c db id r Hf) as (r1 & Hf1 & [Ha Hc]).
      destruct (IH _ _ _ Hf1) as (r' & Hf' & Ha' & Hc').
      exists r'. cbn. split; [exact Hf'|]. split; intros t Ht.
      * apply Ha'. destruct Ha as [Ha|[Ha _]]; congruence.
      * apply Hc'. destruct Hc as [Hc|[Hc _]]; congruence.
Qed.

End Timestamps.

(** Acknowledged at time 50, the request keeps that timestamp when it is
    taken in progress and then acknowledged again. *)
Lemma timestamps_set_at_most_once_witness :
  let db1 := landlord_call (E := Sample.externals)
               (PutCall (Some Sample.alice) "r1"
                        (JObj [("status", JStr "ACKNOWLEDGED")]) 50) Sample.db in
  let calls := [ PutCall (Some Sample.alice) "r1" (JObj [("status", JStr "IN_PROGRESS")]) 60;
                 PostCall (Some Sample.alice) "r1"
                          (JObj [("message", JStr "again"); ("newStatus", JStr "ACKNOWLEDGED")])
                          70 ] in
  exists r r',
    maintenanceRequest_findUnique "r1" db1 = Some r /\
    mr_acknowledgedAt r = Some 50%Z /\
    maintenanceRequest_findUnique "r1" (landlord_calls (E := Sample.externals) calls db1)
    = Some r' /\
    mr_status r' = ACKNOWLEDGED /\
    mr_acknowledgedAt r' = Some 50%Z.
Proof.
  intros db1 calls.
  destruct (@timestamps_set_at_most_once Sample.externals) as [_ Hkeep].
  pose (r := match maintenanceRequest_findUnique "r1" db1 with
             | Some r => r
             | None => Sample.request_row
             end).
  assert (Hr : maintenanceRequest_findUnique "r1" db1 = Some r)
    by (vm_compute; reflexivity).
  destruct (Hkeep calls db1 "r1" r Hr) as (r' & Hf & Ha & _).
  exists r, r'. split; [exact Hr|].
  split; [vm_compute; reflexivity|]. split; [exact Hf|].
  split; [|apply Ha; vm_compute; reflexivity].
  vm_compute in Hf. injection Hf as <-. reflexivity.
Defined.

(* ===================================================================== *)
(** * Reads of maintenance requests *)
(* ===================================================================== *)

Lemma In_firstn {A} (n : nat) (l : list A) (x : A) : In x (firstn n l) -> In x l.
Proof.
  intros H. rewrite <- (firstn_skipn n l). apply in_or_app. now left.
Qed.

Section Reads.

Context {E : Externals}.

Lemma tenant_GET_run user id db :
  TenantMaintenanceId.GET (Some user) id db =
  match maintenanceRequest_findUnique id db with
  | None => (json_error 404 "Maintenance request not found", db)
  | Some r =>
      if mr_tenantId r =? session_id user
      then (json_ok 200
              (Some (TenantRequestDetail r
                       (map select_update (include_public_updates id db)))) None, db)
      else (json_error 403 "Forbidden", db)
  end.
Proof.
  unfold TenantMaintenanceId.GET. run_handler.
  destruct (maintenanceRequest_findUnique id db) as [r|]; [|reflexivity].
  destruct (mr_tenantId r =? session_id user); reflexivity.
Qed.

Lemma tenant_list_run user status db :
  (exists whereStatus,
      TenantMaintenance.GET (Some user) status db =
      (json_ok 200
         (Some (RequestList
                  (map (fun r => (r, firstn 3 (include_public_updates (mr_id r) db)))
                       (tenant_rows user whereStatus db)))) None, db))
  \/ TenantMaintenance.GET (Some user) status db =
     (json_error 500 "Failed to fetch maintenance requests", db).
Proof.
  unfold TenantMaintenance.GET, enum_where, tenant_rows. run_handler.
  destruct status as [s|]; [|left; exists None; reflexivity].
  destruct (truthy s); [|left; exists None; reflexivity].
  destruct (Zod.lookup_value maintenanceStatuses s) as [st|];
    [left; exists (Some st); reflexivity|right; reflexivity].
Qed.

Lemma landlord_list_run user status priority propertyId db :
  (exists whereStatus wherePriority,
      LandlordMaintenance.GET (Some user) status priority propertyId db =
      (json_ok 200
         (Some (RequestList
                  (map (fun r => (r, firstn 5 (include_updates (mr_id r) db)))
                       (landlord_rows user propertyId whereStatus wherePriority db))))
         None, db))
  \/ (data (fst (LandlordMaintenance.GET (Some user) status priority propertyId db)) = None
      /\ snd (LandlordMaintenance.GET (Some user) status priority propertyId db) = db).
Proof.
  unfold LandlordMaintenance.GET, enum_where, landlord_rows. run_handler.
  destruct (negb (Role_beq (session_role user) LANDLORD)
            && negb (Role_beq (session_role user) ADMIN)); [right; split; reflexivity|].
  destruct status as [s|]; [destruct (truthy s);
    [destruct (Zod.lookup_value maintenanceStatuses s) as [st|]|]|].
  all: try (right; split; reflexivity).
  all: destruct priority as [p|]; [destruct (truthy p);
    [destruct (Zod.lookup_value maintenancePriorities p) as [pr|]|]|].
  all: try (right; split; reflexivity).
  all: left; eexists; eexists; reflexivity.
Qed.

End Reads.

Section Ownership.

Context {E : Externals}.

Lemma not_owner_nor_admin_true ownerId user :
  ownerId <> session_id user -> session_role user <> ADMIN ->
  not_owner_nor_admin ownerId user = true.
Proof.
  intros Ho Hr. unfold not_owner_nor_admin.
  apply String.eqb_neq in Ho. rewrite Ho. cbn.
  destruct (session_role user); try reflexivity. now contradiction Hr.
Qed.

Lemma owned_by_owner ownerId propertyId db r :
  LandlordMaintenance.owned_by ownerId propertyId db r = true ->
  exists unit property,
    unit_findUnique (mr_unitId r) db = Some unit
    /\ property_findUnique (unit_propertyId unit) db = Some property
    /\ property_ownerId property = ownerId.
Proof.
  unfold LandlordMaintenance.owned_by.
  destruct (unit_findUnique (mr_unitId r) db) as [unit|]; [|discriminate].
  destruct (property_findUnique (unit_propertyId unit) db) as [property|] eqn:Hp;
    [|discriminate].
  intros H. apply andb_true_iff in H. destruct H as [H _].
  apply String.eqb_eq in H. exists unit, property. auto.
Qed.

(** C3.  A landlord who neither owns the property of the request's unit nor
    is an administrator gets 403 from GET, PUT and POST on the request, and
    404 when the request does not exist; a tenant who is not the tenant of
    the request gets 403, and 404 when it does not exist.  Such a response
    carries no data and nothing is written.  The list views return only
    requests under the caller's own properties (landlord) or filed by the
    caller (tenant). *)
Theorem request_access_denied user id body now db :
  (maintenanceRequest_findUnique id db = None ->
   denied 404 db (LandlordMaintenanceId.GET (Some user) id db)
   /\ denied 404 db (LandlordMaintenanceId.PUT (Some user) id body now db)
   /\ denied 404 db (LandlordMaintenanceId.POST (Some user) id body now db)
   /\ denied 404 db (TenantMaintenanceId.GET (Some user) id db))
  /\ (forall r unit property,
         maintenanceRequest_findUnique id db = Some r ->
         unit_findUnique (mr_unitId r) db = Some unit ->
         property_findUnique (unit_propertyId unit) db = Some property ->
         property_ownerId property <> session_id user ->
         session_role user <> ADMIN ->
         denied 403 db (LandlordMaintenanceId.GET (Some user) id db)
         /\ denied 403 db (LandlordMaintenanceId.PUT (Some user) id body now db)
         /\ denied 403 db (LandlordMaintenanceId.POST (Some user) id body now db))
  /\ (forall r,
         maintenanceRequest_findUnique id db = Some r ->
         mr_tenantId r <> session_id user ->
         denied 403 db (TenantMaintenanceId.GET (Some user) id db))
  /\ (forall status priority propertyId requests r updates,
         data (fst (LandlordMaintenance.GET (Some user) status priority propertyId db))
         = Some (RequestList requests) ->
         In (r, updates) requests ->
         exists unit property,
           unit_findUnique (mr_unitId r) db = Some unit
           /\ property_findUnique (unit_propertyId unit) db = Some property
           /\ property_ownerId property = session_id user)
  /\ (forall status requests r updates,
         data (fst (TenantMaintenance.GET (Some user) status db))
         = Some (RequestList requests) ->
         In (r, updates) requests ->
         mr_tenantId r = session_id user).
Proof.
  repeat split.
  1-16: rewrite ?GET_run, ?PUT_run, ?POST_run, ?tenant_GET_run;
        unfold access; rewrite H; reflexivity.
  1-12: rewrite ?GET_run, ?PUT_run, ?POST_run; unfold access;
        rewrite H, H0, H1, (not_owner_nor_admin_true _ _ H2 H3); reflexivity.
  1-4: rewrite tenant_GET_run, H; apply String.eqb_neq in H0; rewrite H0; reflexivity.
  - intros status priority propertyId requests r updates Hd Hin.
    destruct (landlord_list_run user status priority propertyId db)
      as [(ws & wp & Hrun)|[Hnone _]]; [|congruence].
    rewrite Hrun in Hd. cbn [fst data json_ok] in Hd. injection Hd as <-.
    apply in_map_iff in Hin. destruct Hin as (x & [= <- <-] & Hin).
    unfold landlord_rows in Hin. apply orderBy_In, filter_In in Hin.
    destruct Hin as [_ Hin]. apply andb_true_iff in Hin. destruct Hin as [Hin _].
    apply andb_true_iff in Hin. destruct Hin as [Hin _].
    now apply owned_by_owner in Hin.
  - intros status requests r updates Hd Hin.
    destruct (tenant_list_run user status db) as [(ws & Hrun)|Hrun];
      rewrite Hrun in Hd; [|discriminate].
    cbn [fst data json_ok] in Hd. injection Hd as <-.
    apply in_map_iff in Hin. destruct Hin as (x & [= <- <-] & Hin).
    unfold tenant_rows in Hin. apply orderBy_In, filter_In in Hin.
    destruct Hin as [_ Hin]. apply andb_true_iff in Hin. destruct Hin as [Hin _].
    now apply String.eqb_eq in Hin.
Qed.

(** C4 (as amended).  The updates in a tenant's single-request view and in
    a tenant's list are all public: the single-request view shows every
    public update of the request, the list the three most recent public
    ones.  The landlord's reads apply no visibility filter: the
    single-request view returns all updates of the request, and the list
    returns, for each request, the five most recent of all its updates. *)
Theorem update_visibility user id status priority propertyId db :
  (forall r updates,
      data (fst (TenantMaintenanceId.GET (Some user) id db))
      = Some (TenantRequestDetail r updates) ->
      Forall (fun u => su_isPublic u = true) updates
      /\ exists rows, updates = map select_update rows
                      /\ Permutation rows (filter mu_isPublic (updates_of id db)))
  /\ (forall requests r updates,
         data (fst (TenantMaintenance.GET (Some user) status db))
         = Some (RequestList requests) ->
         In (r, updates) requests ->
         Forall (fun u => mu_isPublic u = true) updates
         /\ updates = firstn 3 (orderBy (createdAt_desc mu_createdAt)
                                        (filter mu_isPublic (updates_of (mr_id r) db))))
  /\ (forall r updates,
         data (fst (LandlordMaintenanceId.GET (Some user) id db))
         = Some (RequestDetail r updates) ->
         Permutation updates (updates_of id db))
  /\ (forall requests r updates,
         data (fst (LandlordMaintenance.GET (Some user) status priority propertyId db))
         = Some (RequestList requests) ->
         In (r, updates) requests ->
         updates = firstn 5 (orderBy (createdAt_desc mu_createdAt)
                                     (updates_of (mr_id r) db))).
Proof.
  assert (Hpub : forall rid,
             Forall (fun u => mu_isPublic u = true) (include_public_updates rid db)).
  { intros rid. unfold include_public_updates. apply orderBy_Forall.
    apply Forall_forall. intros u Hu. now apply filter_In in Hu. }
  split; [|split; [|split]].
  - intros r updates Hd. rewrite tenant_GET_run in Hd.
    destruct (maintenanceRequest_findUnique id db) as [r0|]; [|discriminate].
    destruct (mr_tenantId r0 =? session_id user); [|discriminate].
    cbn in Hd. injection Hd as <- <-. split.
    + apply Forall_map. exact (Hpub id).
    + eexists. split; [reflexivity|]. symmetry. apply orderBy_perm.
  - intros requests r updates Hd Hin.
    destruct (tenant_list_run user status db) as [(ws & Hrun)|Hrun];
      rewrite Hrun in Hd; [|discriminate].
    cbn [fst data json_ok] in Hd. injection Hd as <-.
    apply in_map_iff in Hin. destruct Hin as (x & [= <- <-] & Hin).
    split; [|reflexivity].
    apply Forall_forall. intros u Hu.
    change (In u (firstn 3 (include_public_updates (mr_id x) db))) in Hu.
    apply In_firstn in Hu.
    specialize (Hpub (mr_id x)). rewrite Forall_forall in Hpub. now apply Hpub.
  - intros r updates Hd. rewrite GET_run in Hd.
    destruct (access user id db); try discriminate.
    cbn in Hd. injection Hd as <- <-. symmetry. apply orderBy_perm.
  - intros requests r updates Hd Hin.
    destruct (landlord_list_run user status priority propertyId db)
      as [(ws & wp & Hrun)|[Hnone _]]; [|congruence].
    rewrite Hrun in Hd. cbn [fst data json_ok] in Hd. injection Hd as <-.
    apply in_map_iff in Hin. destruct Hin as (x & [= <- <-] & Hin). reflexivity.
Qed.

End Ownership.

(** Bob, a landlord who does not own Elm Court, and Tom, a tenant who did
    not file the request, are both refused. *)
Lemma request_access_denied_witness :
  denied 403 Sample.db (LandlordMaintenanceId.GET (Some Sample.bob) "r1" Sample.db)
  /\ denied 403 Sample.db
            (LandlordMaintenanceId.PUT (E := Sample.externals) (Some Sample.bob) "r1"
               (JObj [("status", JStr "COMPLETED")]) 50 Sample.db)
  /\ denied 403 Sample.db (TenantMaintenanceId.GET (Some Sample.tom) "r1" Sample.db).
Proof.
  destruct (@request_access_denied Sample.externals Sample.bob "r1"
              (JObj [("status", JStr "COMPLETED")]) 50%Z Sample.db) as (_ & Hl & _).
  destruct (@request_access_denied Sample.externals Sample.tom "r1" JNull 0%Z Sample.db)
    as (_ & _ & Ht & _).
  destruct (Hl Sample.request_row (Sample.unit_row "u1" "1A" OCCUPIED) Sample.elm_court)
    as (Hget & Hput & _);
    [reflexivity|reflexivity|reflexivity|discriminate|discriminate|].
  split; [exact Hget|]. split; [exact Hput|].
  apply (Ht Sample.request_row); [reflexivity|discriminate].
Defined.

(** Tina sees the four public updates of her request and none of the two
    internal ones. *)
Lemma update_visibility_witness :
  exists r updates,
    data (fst (TenantMaintenanceId.GET (Some Sample.tina) "r1" Sample.db))
    = Some (TenantRequestDetail r updates)
    /\ Forall (fun u => su_isPublic u = true) updates
    /\ List.length updates = 4.
Proof.
  destruct (@update_visibility Sample.tina "r1" None None None Sample.db) as (Hsingle & _).
  eexists. eexists. split; [reflexivity|]. split; [|reflexivity].
  apply (Hsingle Sample.request_row). reflexivity.
Defined.

(** C4, counterexample.  The request has six updates; the landlord's list
    returns five of them, and the oldest one is not among them. *)
Lemma landlord_list_omits_updates :
  exists updates,
    data (fst (LandlordMaintenance.GET (Some Sample.alice) None None None Sample.db))
    = Some (RequestList [(Sample.request_row, updates)])
    /\ List.length (updates_of "r1" Sample.db) = 6
    /\ List.length updates = 5
    /\ In (Sample.update_row "m1" true 11) (updates_of "r1" Sample.db)
    /\ ~ In (Sample.update_row "m1" true 11) updates.
Proof.
  eexists. split; [vm_compute; reflexivity|].
  split; [reflexivity|]. split; [reflexivity|].
  split; [left; reflexivity|].
  intros H. vm_compute in H.
  repeat (destruct H as [H|H]; [discriminate H|]). exact H.
Qed.

Section StatusRows.

Context {E : Externals}.
Import LandlordMaintenanceId.

Lemma In_app_one {A} (l : list A) (x y : A) :
  In x (l ++ [y]) -> ~ In x l -> x = y.
Proof.
  intros H Hn. apply in_app_or in H. destruct H as [H|[H|[]]]; [contradiction|now symmetry].
Qed.

(** C10.  A row that PUT adds to the update log is public and its message
    is 'Status changed from <previous> to <new>', where <previous> is the
    status the request had and <new> the one it has now; so the row passes
    the filter of the tenant-facing reads, and the tenant of the request
    finds it in the single-request view. *)
Theorem status_rows_are_public session id body now db row :
  let db' := snd (PUT session id body now db) in
  In row (maintenanceUpdates db') ->
  ~ In row (maintenanceUpdates db) ->
  mu_isPublic row = true
  /\ mu_message row = ("Status changed from " ++ status_str (mu_previousStatus row)
                       ++ " to " ++ status_str (mu_newStatus row))%string
  /\ mu_requestId row = id
  /\ (exists existing updated,
         maintenanceRequest_findUnique id db = Some existing
         /\ maintenanceRequest_findUnique id db' = Some updated
         /\ mu_previousStatus row = mr_status existing
         /\ mu_newStatus row = mr_status updated
         /\ mu_newStatus row <> mu_previousStatus row)
  /\ In row (include_public_updates id db')
  /\ (forall tenant r,
         maintenanceRequest_findUnique id db' = Some r ->
         mr_tenantId r = session_id tenant ->
         exists updates,
           fst (TenantMaintenanceId.GET (Some tenant) id db')
           = json_ok 200 (Some (TenantRequestDetail r updates)) None
           /\ In (select_update row) updates).
Proof.
  intros db' Hin Hnew. subst db'.
  destruct session as [user|]; [|contradiction].
  destruct (PUT_log user id body now db) as [Hok Hfail]. cbv zeta in *.
  destruct (Z.eq_dec (status (fst (PUT (Some user) id body now db))) 200) as [H200|Hne];
    [|rewrite (Hfail Hne) in Hin; contradiction].
  destruct (Hok H200) as (existing & data & Hf & Hp & Hl). clear Hok Hfail.
  destruct (statusChanged data existing) eqn:Hc;
    [|rewrite Hl, app_nil_r in Hin; contradiction].
  assert (Hrow : row = status_log_row (cuid (nextId db)) id existing
                         (or_keep (um_status data) (mr_status existing))
                         (session_id user) now).
  { rewrite Hl in Hin. now apply In_app_one in Hin. }
  apply statusChanged_differs in Hc. destruct Hc as (s & Hs & Hne).
  rewrite Hs in Hrow. cbn in Hrow.
  assert (Hpublic : In row (include_public_updates id
                              (snd (PUT (Some user) id body now db)))).
  { unfold include_public_updates, updates_of.
    apply orderBy_In, filter_In. split; [|subst row; reflexivity].
    apply filter_In. split; [exact Hin|]. subst row. cbn. apply String.eqb_refl. }
  assert (Hupdated : exists updated,
             maintenanceRequest_findUnique id (snd (PUT (Some user) id body now db))
             = Some updated /\ mr_status updated = s).
  { rewrite PUT_run. pose proof Hf as Ha.
    revert H200 Hl. rewrite PUT_run.
    destruct (access user id db) as [| | |existing'] eqn:Hacc; try discriminate.
    pose proof (access_granted _ _ _ _ Hacc) as Hf'.
    assert (existing' = existing) by congruence. subst existing'.
    rewrite Hp. cbv zeta.
    destruct (ud_scheduledDate (updateData data existing now)) as [[ms|]|];
      try discriminate; intros _ _; cbn [snd].
    all: replace (statusChanged data existing) with true
        by (symmetry; apply statusChanged_differs; eauto).
    all: rewrite find_append_update, find_patch_table, Hf; cbn [option_map].
    all: destruct (find_some _ _ Hf) as [_ Hid]; rewrite Hid.
    all: eexists; split; [reflexivity|]; cbn; rewrite Hs; reflexivity. }
  destruct Hupdated as (updated & Hfu & Hsu).
  subst row. cbn [mu_isPublic mu_message mu_requestId mu_previousStatus mu_newStatus
                  status_log_row] in *.
  repeat split; try reflexivity.
  - exists existing, updated. repeat split; try assumption; congruence.
  - exact Hpublic.
  - intros tenant r Hr Ht. rewrite tenant_GET_run, Hr.
    apply String.eqb_eq in Ht. rewrite Ht.
    eexists. split; [reflexivity|]. now apply in_map.
Qed.

End StatusRows.

(** Alice acknowledges Tina's request; Tina then reads the public row
    'Status changed from SUBMITTED to ACKNOWLEDGED'. *)
Lemma status_rows_are_public_witness :
  let db' := snd (LandlordMaintenanceId.PUT (E := Sample.externals) (Some Sample.alice) "r1"
                    (JObj [("status", JStr "ACKNOWLEDGED")]) 50 Sample.db) in
  exists row,
    In row (maintenanceUpdates db') /\ ~ In row (maintenanceUpdates Sample.db)
    /\ mu_isPublic row = true
    /\ mu_message row = "Status changed from SUBMITTED to ACKNOWLEDGED"
    /\ In row (include_public_updates "r1" db').
Proof.
  intros db'.
  pose (row := status_log_row "c100" "r1" Sample.request_row ACKNOWLEDGED "alice" 50).
  assert (Hin : In row (maintenanceUpdates db'))
    by (vm_compute; do 6 right; left; reflexivity).
  assert (Hnew : ~ In row (maintenanceUpdates Sample.db)).
  { intros H. vm_compute in H.
    repeat (destruct H as [H|H]; [discriminate H|]). exact H. }
  destruct (@status_rows_are_public Sample.externals (Some Sample.alice) "r1"
              (JObj [("status", JStr "ACKNOWLEDGED")]) 50%Z Sample.db row Hin Hnew)
    as (Hpub & Hmsg & _ & _ & Hvis & _).
  exists row. repeat split; assumption.
Defined.

(* ===================================================================== *)
(** * Deleting units and properties *)
(* ===================================================================== *)

Section Deletion.

Lemma blocks_deletion_active_or_pending l :
  blocks_deletion l -> active_or_pending l = true.
Proof. unfold active_or_pending. intros [H|H]; rewrite H; reflexivity. Qed.

Lemma active_lease_included lease unitId db :
  In lease (leases db) -> lease_unitId lease = unitId -> blocks_deletion lease ->
  Nat.ltb 0 (List.length (include_active_leases unitId db)) = true.
Proof.
  intros Hin Hu Hb.
  assert (H : In lease (include_active_leases unitId db)).
  { apply filter_In. split; [exact Hin|].
    apply andb_true_iff. split; [now apply String.eqb_eq|].
    now apply blocks_deletion_active_or_pending. }
  destruct (include_active_leases unitId db); [contradiction|reflexivity].
Qed.

Lemma rejected_error code msg db :
  (400 <= code < 500)%Z -> rejected db (json_error code msg, db).
Proof. intros H. repeat split; try reflexivity; apply H. Qed.

Lemma unit_DELETE_run user propertyId unitId db :
  LandlordUnit.DELETE (Some user) propertyId unitId db =
  match property_findUnique propertyId db with
  | None => (json_error 404 "Property not found", db)
  | Some property =>
      if negb (property_ownerId property =? session_id user)
         && negb (Role_beq (session_role user) ADMIN)
      then (json_error 403 "Forbidden", db)
      else
        match unit_findUnique unitId db with
        | None => (json_error 404 "Unit not found", db)
        | Some existingUnit =>
            if negb (unit_propertyId existingUnit =? propertyId)
            then (json_error 400 "Unit does not belong to this property", db)
            else if Nat.ltb 0 (List.length (include_active_leases unitId db))
            then (json_error 400
                    "Cannot delete unit with active leases. Please terminate the lease first.",
                  db)
            else LandlordUnit.DELETE (Some user) propertyId unitId db
        end
  end.
Proof.
  unfold LandlordUnit.DELETE at 1, LandlordUnit.verifyOwnership. run_handler.
  destruct (property_findUnique propertyId db) as [property|] eqn:Hp; [|reflexivity].
  destruct (negb (property_ownerId property =? session_id user)
            && negb (Role_beq (session_role user) ADMIN)) eqn:Ho; [reflexivity|].
  destruct (unit_findUnique unitId db) as [existingUnit|] eqn:Hu; [|reflexivity].
  destruct (negb (unit_propertyId existingUnit =? propertyId)) eqn:Hb; [reflexivity|].
  destruct (Nat.ltb 0 (List.length (include_active_leases unitId db))) eqn:Hl;
    [reflexivity|].
  unfold LandlordUnit.DELETE, LandlordUnit.verifyOwnership. run_handler.
  rewrite Hp, Ho, Hu, Hb, Hl. reflexivity.
Qed.

Lemma property_DELETE_run user propertyId db :
  LandlordProperty.DELETE (Some user) propertyId db =
  match property_findUnique propertyId db with
  | None => (json_error 404 "Property not found", db)
  | Some existingProperty =>
      if not_owner_nor_admin (property_ownerId existingProperty) user
      then (json_error 403 "Forbidden", db)
      else if LandlordProperty.hasActiveLeases propertyId db
      then (json_error 400
              "Cannot delete property with active leases. Please terminate all leases first.",
            db)
      else LandlordProperty.DELETE (Some user) propertyId db
  end.
Proof.
  unfold LandlordProperty.DELETE at 1. run_handler.
  destruct (property_findUnique propertyId db) as [property|] eqn:Hp; [|reflexivity].
  destruct (not_owner_nor_admin (property_ownerId property) user) eqn:Ho; [reflexivity|].
  destruct (LandlordProperty.hasActiveLeases propertyId db) eqn:Hl; [reflexivity|].
  unfold LandlordProperty.DELETE. run_handler. rewrite Hp, Ho, Hl. reflexivity.
Qed.

(** C5.  While a unit has a lease that is ACTIVE or PENDING_SIGNATURE,
    DELETE of the unit is refused with a status in the 400 class and nothing
    is deleted; the same holds for DELETE of a property one of whose units
    has such a lease.  For a caller who passes the session and ownership
    checks the status is 400 (for the unit: when it exists under the
    property named in the route). *)
Theorem delete_with_active_lease_rejected session propertyId unitId db :
  (forall lease,
      In lease (leases db) -> lease_unitId lease = unitId -> blocks_deletion lease ->
      rejected db (LandlordUnit.DELETE session propertyId unitId db)
      /\ (forall user property unit,
             session = Some user ->
             property_findUnique propertyId db = Some property ->
             not_owner_nor_admin (property_ownerId property) user = false ->
             unit_findUnique unitId db = Some unit ->
             status (fst (LandlordUnit.DELETE session propertyId unitId db)) = 400%Z))
  /\ (forall unit lease,
         In unit (units db) -> unit_propertyId unit = propertyId ->
         In lease (leases db) -> lease_unitId lease = unit_id unit ->
         blocks_deletion lease ->
         rejected db (LandlordProperty.DELETE session propertyId db)
         /\ (forall user property,
                session = Some user ->
                property_findUnique propertyId db = Some property ->
                not_owner_nor_admin (property_ownerId property) user = false ->
                status (fst (LandlordProperty.DELETE session propertyId db)) = 400%Z)).
Proof.
  split.
  - intros lease Hin Hu Hb.
    pose proof (active_lease_included lease unitId db Hin Hu Hb) as Hl.
    destruct session as [user|]; [|split; [apply rejected_error; lia|discriminate]].
    rewrite unit_DELETE_run. split.
    + destruct (property_findUnique propertyId db) as [property|];
        [|apply rejected_error; lia].
      destruct (negb (property_ownerId property =? session_id user)
                && negb (Role_beq (session_role user) ADMIN));
        [apply rejected_error; lia|].
      destruct (unit_findUnique unitId db) as [existingUnit|];
        [|apply rejected_error; lia].
      destruct (negb (unit_propertyId existingUnit =? propertyId));
        [apply rejected_error; lia|].
      rewrite Hl. apply rejected_error; lia.
    + intros user' property unit [= <-] Hp Ho Hunit.
      rewrite Hp. unfold not_owner_nor_admin in Ho. rewrite Ho, Hunit, Hl.
      destruct (negb (unit_propertyId unit =? propertyId)); reflexivity.
  - intros unit lease Hunit Hp Hin Hu Hb.
    assert (Hl : LandlordProperty.hasActiveLeases propertyId db = true).
    { apply existsb_exists. exists unit. split.
      - apply filter_In. split; [exact Hunit|now apply String.eqb_eq].
      - now apply active_lease_included with lease. }
    destruct session as [user|]; [|split; [apply rejected_error; lia|discriminate]].
    rewrite property_DELETE_run. split.
    + destruct (property_findUnique propertyId db) as [property|];
        [|apply rejected_error; lia].
      destruct (not_owner_nor_admin (property_ownerId property) user);
        [apply rejected_error; lia|].
      rewrite Hl. apply rejected_error; lia.
    + intros user' property [= <-] Hprop Ho. rewrite Hprop, Ho, Hl. reflexivity.
Qed.

End Deletion.

(** Unit u1 is let to Tina and unit u3 is reserved by a lease awaiting
    signature: Alice can delete neither, nor Elm Court itself. *)
Lemma delete_with_active_lease_rejected_witness :
  rejected Sample.db (LandlordUnit.DELETE (Some Sample.alice) "p1" "u1" Sample.db)
  /\ status (fst (LandlordUnit.DELETE (Some Sample.alice) "p1" "u3" Sample.db)) = 400%Z
  /\ rejected Sample.db (LandlordProperty.DELETE (Some Sample.alice) "p1" Sample.db).
Proof.
  destruct (delete_with_active_lease_rejected (Some Sample.alice) "p1" "u1" Sample.db)
    as [Hunit Hproperty].
  destruct (delete_with_active_lease_rejected (Some Sample.alice) "p1" "u3" Sample.db)
    as [Hunit3 _].
  split; [|split].
  - apply (Hunit (Sample.lease_row "l1" "tina" "u1" LEASE_ACTIVE));
      [left; reflexivity|reflexivity|left; reflexivity].
  - destruct (Hunit3 (Sample.lease_row "l3" "tom" "u3" PENDING_SIGNATURE))
      as [_ H400]; [right; left; reflexivity|reflexivity|right; reflexivity|].
    apply (H400 Sample.alice Sample.elm_court (Sample.unit_row "u3" "2A" RESERVED));
      reflexivity.
  - apply (Hproperty (Sample.unit_row "u1" "1A" OCCUPIED)
                     (Sample.lease_row "l1" "tina" "u1" LEASE_ACTIVE));
      [left; reflexivity|reflexivity|left; reflexivity|reflexivity|left; reflexivity].
Defined.

(* ===================================================================== *)
(** * Onboarding submission *)
(* ===================================================================== *)

Section Onboarding.

Context {E : Externals}.
Import OnboardingSubmit.

Lemma onboarding_POST_run user body forwardedFor now db :
  POST (Some user) body forwardedFor now db =
  match completeOnboardingSchema body with
  | Zod.ParseError [] => (json_error 500 "Failed to submit application", db)
  | Zod.ParseError (issue :: _) => (json_error 400 (Zod.message issue), db)
  | Zod.ParseOk data =>
      match unit_findUnique (ob_unitId data) db with
      | None => (json_error 404 "Unit not found", db)
      | Some unit =>
          if negb (UnitStatus_beq (unit_status unit) VACANT)
          then (json_error 409 "This unit is no longer available", db)
          else
            match newDate (ob_dateOfBirth data), user_findUnique (session_id user) db,
                  newDate (ob_moveInDate data) with
            | DateMs dateOfBirth, Some _, DateMs startDate =>
                (json_ok 201
                   (Some (LeaseSubmitted (cuid (nextId db))
                            "Application submitted successfully. Awaiting landlord approval."))
                   None,
                 onboarded user data unit dateOfBirth startDate
                           (clientIp forwardedFor) now db)
            | _, _, _ => (json_error 500 "Failed to submit application", db)
            end
      end
  end.
Proof.
  unfold POST, user_update_profile, lease_create, unit_reserve, auditLog_create, addMonths.
  run_handler.
  destruct (completeOnboardingSchema body) as [data|[|i errs]]; try reflexivity.
  destruct (unit_findUnique (ob_unitId data) db) as [unit|] eqn:Hu; [|reflexivity].
  destruct (negb (UnitStatus_beq (unit_status unit) VACANT)); [reflexivity|].
  destruct (newDate (ob_dateOfBirth data)) as [dob|]; [|reflexivity].
  destruct (user_findUnique (session_id user) db) as [u|]; [|reflexivity].
  destruct (newDate (ob_moveInDate data)) as [start|]; [|reflexivity].
  unfold unit_findUnique in *. cbn. rewrite Hu. reflexivity.
Qed.

Lemma Forall2_map_if {A} (R : A -> A -> Prop) (c : A -> bool) (f : A -> A)
      (l : list A) :
  (forall x, c x = true -> R x (f x)) -> (forall x, c x = false -> R x x) ->
  Forall2 R l (map (fun x => if c x then f x else x) l).
Proof.
  intros Hf Hx. induction l as [|x l IH]; cbn; constructor; [|exact IH].
  destruct (c x) eqn:Hc; auto.
Qed.

(** C6.  A submission that succeeds (201) leaves the database with exactly
    four writes applied together.  The row of the submitting user holds the
    profile of the body: first and last name, phone, the date of birth as
    [new Date] reads it, the last four digits of the SSN encrypted, the
    emergency contact, and the status ACTIVE, with id, e-mail and Stripe
    customer as before; every other user row is as before.  One new lease
    is appended, in PENDING_SIGNATURE, for the submitting user and the
    selected unit, with the rent and deposit of the unit, the dates, the
    signature, its time and the client address.  The selected unit has the
    status RESERVED and its other columns as before, and every other unit
    is as before.  One new audit-log row names the user, the action, the
    lease and the client address.  Every other table is as before.  A
    submission that does not succeed writes nothing, so none of the four
    writes is ever seen without the others.  When the selected unit is not
    VACANT the response is 409 and nothing is written. *)
Theorem onboarding_submission user body forwardedFor now db :
  let result := POST (Some user) body forwardedFor now db in
  (status (fst result) = 201%Z ->
   exists input unit dateOfBirth startDate lease audit,
     completeOnboardingSchema body = Zod.ParseOk input
     /\ unit_findUnique (ob_unitId input) db = Some unit
     /\ unit_status unit = VACANT
     /\ snd result = onboarded user input unit dateOfBirth startDate
                               (clientIp forwardedFor) now db
     /\ users (snd result)
        = map (fun u => if user_id u =? session_id user
                        then with_profile input dateOfBirth u else u) (users db)
     /\ leases (snd result) = leases db ++ [lease]
     /\ lease_status lease = PENDING_SIGNATURE
     /\ lease_unitId lease = ob_unitId input
     /\ lease_tenantId lease = session_id user
     /\ units (snd result)
        = map (fun u => if unit_id u =? ob_unitId input then reserved u else u) (units db)
     /\ (exists unit', unit_findUnique (ob_unitId input) (snd result) = Some unit'
                       /\ unit_status unit' = RESERVED)
     /\ auditLogs (snd result) = auditLogs db ++ [audit]
     /\ audit_entityId audit = lease_id lease
     /\ properties (snd result) = properties db
     /\ payments (snd result) = payments db
     /\ maintenanceRequests (snd result) = maintenanceRequests db
     /\ maintenanceUpdates (snd result) = maintenanceUpdates db
     /\ data (fst result)
        = Some (LeaseSubmitted (lease_id lease)
                  "Application submitted successfully. Awaiting landlord approval.")
     /\ newDate (ob_dateOfBirth input) = DateMs dateOfBirth
     /\ newDate (ob_moveInDate input) = DateMs startDate
     /\ (exists row row',
            user_findUnique (session_id user) db = Some row
            /\ user_findUnique (session_id user) (snd result) = Some row'
            /\ profile_written input dateOfBirth row row')
     /\ Forall2 (fun u u' => if user_id u =? session_id user
                             then profile_written input dateOfBirth u u'
                             else u' = u)
                (users db) (users (snd result))
     /\ lease_written user input unit startDate (clientIp forwardedFor) now db lease
     /\ audit_written user input lease (clientIp forwardedFor) audit
     /\ Forall2 (fun u u' => if unit_id u =? ob_unitId input
                             then unit_reserved u u' else u' = u)
                (units db) (units (snd result)))
  /\ (status (fst result) <> 201%Z -> snd result = db)
  /\ (forall data unit,
         completeOnboardingSchema body = Zod.ParseOk data ->
         unit_findUnique (ob_unitId data) db = Some unit ->
         unit_status unit <> VACANT ->
         fst result = json_error 409 "This unit is no longer available"
         /\ snd result = db).
Proof.
  cbv zeta. rewrite onboarding_POST_run.
  destruct (completeOnboardingSchema body) as [input|[|i errs]].
  2,3: split; [discriminate|split; [reflexivity|intros d u Hd; discriminate Hd]].
  assert (Hsame : forall (P : CompleteOnboardingInput -> Unit -> Prop) d u,
             Zod.ParseOk input = Zod.ParseOk d ->
             unit_findUnique (ob_unitId d) db = Some u ->
             (forall u', unit_findUnique (ob_unitId input) db = Some u' -> P input u') ->
             P d u).
  { intros P d u [= <-] Hu HP. now apply HP. }
  destruct (unit_findUnique (ob_unitId input) db) as [unit|] eqn:Hu.
  2:{ split; [discriminate|split; [reflexivity|]]. intros d u Hd Hu'.
      apply (Hsame (fun _ _ => _) d u Hd Hu'). discriminate. }
  destruct (UnitStatus_beq (unit_status unit) VACANT) eqn:Hv; cbn [negb].
  2:{ split; [discriminate|]. split; [reflexivity|]. intros; split; reflexivity. }
  assert (Hvacant : unit_status unit = VACANT)
    by (destruct (unit_status unit); try discriminate; reflexivity).
  assert (H409 : forall d u, Zod.ParseOk input = Zod.ParseOk d ->
                             unit_findUnique (ob_unitId d) db = Some u ->
                             unit_status u <> VACANT -> False).
  { intros d u Hd Hu' Hne. revert Hne.
    apply (Hsame (fun _ u => unit_status u <> VACANT -> False) d u Hd Hu').
    intros u' [= <-] Hne. contradiction. }
  destruct (newDate (ob_dateOfBirth input)) as [dob|] eqn:Hdob;
    [|split; [discriminate|split; [reflexivity|intros; exfalso; eauto]]].
  destruct (user_findUnique (session_id user) db) as [u|] eqn:Huser;
    [|split; [discriminate|split; [reflexivity|intros; exfalso; eauto]]].
  destruct (newDate (ob_moveInDate input)) as [start|] eqn:Hstart;
    [|split; [discriminate|split; [reflexivity|intros; exfalso; eauto]]].
  split; [intros _|split; [intros H; exfalso; now apply H|intros; exfalso; eauto]].
  exists input, unit, dob, start. eexists. eexists.
  cbn [fst snd].
  repeat match goal with |- _ /\ _ => split end;
    try reflexivity; try assumption;
    try (unfold lease_written, audit_written; repeat split; reflexivity).
  - unfold unit_findUnique in *. cbn [onboarded units].
    rewrite find_map_preserving
      by (intros x; destruct (unit_id x =? ob_unitId input) eqn:Hx; cbn; now rewrite Hx).
    rewrite Hu. cbn [option_map]. destruct (find_some _ _ Hu) as [_ Hid]. rewrite Hid.
    eexists. split; reflexivity.
  - exists u. eexists. split; [reflexivity|]. split.
    + unfold user_findUnique in *. cbn [onboarded users].
      rewrite find_map_preserving
        by (intros x; destruct (user_id x =? session_id user) eqn:Hx; cbn;
            now rewrite Hx).
      rewrite Huser. cbn [option_map]. destruct (find_some _ _ Huser) as [_ Hid].
      rewrite Hid. reflexivity.
    + repeat split.
  - cbn [onboarded users]. apply Forall2_map_if; intros x Hx; rewrite Hx;
      [repeat split|reflexivity].
  - cbn [onboarded units]. apply Forall2_map_if; intros x Hx; rewrite Hx;
      [repeat split|reflexivity].
Qed.

End Onboarding.

(* ===================================================================== *)
(** * Facts about the schema combinators *)
(* ===================================================================== *)

Section ZodFacts.

Import Zod.

Lemma issues_ap {A B} (f : SafeParseReturnType (A -> B)) (a : SafeParseReturnType A) :
  issues_of (f <*> a) = issues_of f ++ issues_of a.
Proof. destruct f, a; cbn; now rewrite ?app_nil_r. Qed.

Lemma ap_ok {A B} (f : SafeParseReturnType (A -> B)) (a : SafeParseReturnType A) b :
  f <*> a = ParseOk b -> exists g x, f = ParseOk g /\ a = ParseOk x /\ b = g x.
Proof.
  destruct f as [g|e], a as [x|e']; cbn; try discriminate.
  intros [= <-]. now exists g, x.
Qed.

Lemma error_issues {A} (r : SafeParseReturnType A) :
  issues_of r <> [] -> r = ParseError (issues_of r).
Proof. destruct r; cbn; [congruence|reflexivity]. Qed.

Lemma reports_ap {A B} (f : SafeParseReturnType (A -> B)) (a : SafeParseReturnType A) :
  reports f -> reports a -> reports (f <*> a).
Proof.
  destruct f as [g|[|i e]], a as [x|[|i' e']]; cbn; auto.
Qed.

Lemma reports_field {A} key (schema : ZodType A) fields :
  (forall input, reports (schema input)) -> reports (field key schema fields).
Proof.
  intros H. unfold field. specialize (H (get_field key fields)).
  destruct (schema (get_field key fields)) as [a|[|i e]]; cbn; auto.
Qed.

Lemma reports_run_checks {A} (checks : list (Check A)) a : reports (run_checks checks a).
Proof. unfold run_checks. destruct (flat_map _ checks); exact I. Qed.

Lemma reports_string checks input : reports (string_ checks input).
Proof.
  unfold string_. destruct input as [[]|]; try exact I. apply reports_run_checks.
Qed.

Lemma reports_number checks input : reports (number checks input).
Proof.
  unfold number. destruct input as [[]|]; try exact I. apply reports_run_checks.
Qed.

Lemma reports_boolean input : reports (boolean input).
Proof. unfold boolean. destruct input as [[]|]; exact I. Qed.

Lemma reports_enum {A} (values : list (string * A)) errorMap input :
  reports (enum values errorMap input).
Proof.
  unfold enum. destruct input as [[]|]; try exact I.
  destruct (lookup_value values s); exact I.
Qed.

Lemma reports_optional {A} (inner : ZodType A) input :
  (forall i, reports (inner i)) -> reports (optional inner input).
Proof.
  intros H. unfold optional. destruct input as [j|]; [|exact I].
  specialize (H (Some j)). destruct (inner (Some j)) as [a|[|i e]]; cbn; auto.
Qed.

Lemma reports_optional_default {A} (inner : ZodType A) v input :
  (forall i, reports (inner i)) -> reports (optional_default inner v input).
Proof. intros H. unfold optional_default. destruct input; apply H. Qed.

Lemma reports_array {A} (element : ZodType A) input : reports (array element input).
Proof.
  unfold array. destruct input as [[]|]; try exact I.
  destruct (array_items element 0 items) as [vs [|i e]]; exact I.
Qed.

Lemma reports_object {A} (shape : list (string * json) -> SafeParseReturnType A) body :
  (forall fields, reports (shape fields)) -> reports (object shape body).
Proof. intros H. unfold object. destruct body; try exact I. apply H. Qed.

End ZodFacts.

Create HintDb zod.
#[local] Hint Resolve reports_ap reports_field reports_string reports_number
  reports_boolean reports_enum reports_optional reports_optional_default
  reports_array reports_object : zod.

Lemma createMaintenanceRequestSchema_reports {E : Externals} body :
  reports (createMaintenanceRequestSchema body).
Proof.
  unfold createMaintenanceRequestSchema. apply reports_object. intros fields.
  repeat apply reports_ap; try exact I; apply reports_field; intros;
    auto 6 with zod.
Qed.

(* ===================================================================== *)
(** * Creating a maintenance request *)
(* ===================================================================== *)

Lemma find_none_iff {A} (p : A -> bool) (l : list A) :
  find p l = None <-> forall x, In x l -> p x = false.
Proof.
  split; [apply find_none|].
  induction l as [|a l IH]; cbn; [reflexivity|]. intros H.
  rewrite (H a) by now left. apply IH. intros x Hx. apply H. now right.
Qed.

Section CreateRequest.

Context {E : Externals}.
Import TenantMaintenance.

Lemma tenant_POST_run user body now db :
  POST (Some user) body now db =
  match createMaintenanceRequestSchema body with
  | Zod.ParseError [] => (json_error 500 "Failed to create maintenance request", db)
  | Zod.ParseError (issue :: _) => (json_error 400 (Zod.message issue), db)
  | Zod.ParseOk data =>
      match lease_findFirst_active (session_id user) db with
      | None => (json_error 400 "No active lease found", db)
      | Some activeLease =>
          let row := new_request (cuid (nextId db)) (session_id user)
                                 (lease_unitId activeLease) data now in
          (json_ok 201 (Some (RequestRow row))
                   (Some "Maintenance request submitted successfully"),
           set_maintenanceRequests (fun rows => rows ++ [row]) (bump_nextId db))
      end
  end.
Proof.
  unfold POST, maintenanceRequest_create. run_handler.
  destruct (createMaintenanceRequestSchema body) as [data|[|i errs]]; try reflexivity.
  destruct (lease_findFirst_active (session_id user) db); reflexivity.
Qed.

Lemma short_description_issue fields s :
  get_field "description" fields = Some (JStr s) ->
  String.length s < 10 ->
  Zod.field "description"
    (Zod.string_ [Zod.min 10 "Please provide a detailed description"; Zod.max_ 2000])
    fields
  = Zod.ParseError [description_issue].
Proof.
  intros Hd Hs.
  assert (H10 : Nat.leb 10 (String.length s) = false) by (apply Nat.leb_gt; lia).
  assert (H2000 : Nat.leb (String.length s) 2000 = true) by (apply Nat.leb_le; lia).
  unfold Zod.field. rewrite Hd.
  unfold Zod.string_, Zod.run_checks, Zod.min, Zod.max_, Zod.max.
  cbn [flat_map Zod.test Zod.check_message]. rewrite H10, H2000. reflexivity.
Qed.

Lemma valid_title_ok fields t :
  get_field "title" fields = Some (JStr t) ->
  1 <= String.length t <= 200 ->
  title_field fields = Zod.ParseOk t.
Proof.
  intros Ht Hl.
  assert (H1 : Nat.leb 1 (String.length t) = true) by (apply Nat.leb_le; lia).
  assert (H200 : Nat.leb (String.length t) 200 = true) by (apply Nat.leb_le; lia).
  unfold title_field, Zod.field. rewrite Ht.
  unfold Zod.string_, Zod.run_checks, Zod.min, Zod.max_, Zod.max.
  cbn [flat_map Zod.test Zod.check_message]. rewrite H1, H200. reflexivity.
Qed.

(** The issues of the whole schema when the description is too short:
    those of the title, then the description's, then those of later keys. *)
Lemma short_description_issues fields s :
  get_field "description" fields = Some (JStr s) ->
  String.length s < 10 ->
  exists later,
    createMaintenanceRequestSchema (JObj fields)
    = Zod.ParseError (Zod.issues_of (title_field fields) ++ description_issue :: later).
Proof.
  intros Hd Hs.
  pose proof (short_description_issue fields s Hd Hs) as Hissue.
  unfold createMaintenanceRequestSchema, Zod.object.
  match goal with
  | |- exists later, ?r = _ =>
      assert (Hi : exists later,
                 Zod.issues_of r
                 = Zod.issues_of (title_field fields) ++ description_issue :: later)
  end.
  { rewrite !issues_ap, Hissue. cbn [Zod.issues_of app]. fold (title_field fields).
    rewrite <- !app_assoc. cbn [app]. eexists. reflexivity. }
  destruct Hi as [later Hi]. exists later. rewrite <- Hi.
  apply error_issues. rewrite Hi. now destruct (Zod.issues_of (title_field fields)).
Qed.

(** C7 (as amended).  When [priority] is omitted from the body, a request
    that is created has priority MEDIUM.  When [description] is a string
    shorter than 10 characters, the handler answers 400 with the message of
    the first issue of the schema and creates no request; the description's
    issue is among the issues, and it is the first one, so that the error
    is 'Please provide a detailed description', when the title is a string
    of 1 to 200 characters. *)
Theorem create_request_validation user fields now db :
  let result := POST (Some user) (JObj fields) now db in
  (get_field "priority" fields = None ->
   forall r, data (fst result) = Some (RequestRow r) ->
             mr_priority r = MEDIUM
             /\ maintenanceRequests (snd result) = maintenanceRequests db ++ [r])
  /\ (forall s,
         get_field "description" fields = Some (JStr s) ->
         String.length s < 10 ->
         exists issue rest,
           createMaintenanceRequestSchema (JObj fields) = Zod.ParseError (issue :: rest)
           /\ fst result = json_error 400 (Zod.message issue)
           /\ snd result = db
           /\ In description_issue (issue :: rest)
           /\ (forall t, get_field "title" fields = Some (JStr t) ->
                         1 <= String.length t <= 200 ->
                         issue = description_issue
                         /\ error (fst result)
                            = Some "Please provide a detailed description")).
Proof.
  cbv zeta. rewrite tenant_POST_run. split.
  - intros Hp r.
    destruct (createMaintenanceRequestSchema (JObj fields)) as [data|[|i errs]] eqn:Hs;
      try discriminate.
    destruct (lease_findFirst_active (session_id user) db) as [lease|]; [|discriminate].
    cbn. intros [= <-]. split; [|reflexivity]. cbn.
    unfold createMaintenanceRequestSchema, Zod.object in Hs.
    repeat (apply ap_ok in Hs; destruct Hs as (? & ? & Hs & ? & ->)).
    injection Hs as <-. cbn.
    match goal with
    | H : Zod.field "priority" _ _ = _ |- _ =>
        unfold Zod.field in H; rewrite Hp in H; cbn in H; now injection H as <-
    end.
  - intros s Hd Hs.
    destruct (short_description_issues fields s Hd Hs) as [later Hparse].
    rewrite Hparse.
    destruct (Zod.issues_of (title_field fields)) as [|i errs] eqn:Ht; cbn [app].
    + exists description_issue, later. repeat split; try reflexivity. now left.
    + exists i, (errs ++ description_issue :: later).
      repeat split; try reflexivity.
      * right. apply in_or_app. right. now left.
      * pose proof (valid_title_ok fields t H H0) as Hok.
        rewrite Hok in Ht. discriminate Ht.
      * pose proof (valid_title_ok fields t H H0) as Hok.
        rewrite Hok in Ht. discriminate Ht.
Qed.


End CreateRequest.

(* ===================================================================== *)
(** * Tenant payments *)
(* ===================================================================== *)

Section Payments.

Context {E : Externals}.
Import TenantPayments.

(** Every way the handler can end: without a new payment, or with one new
    payment built from the gateway's payment intent. *)
Lemma payments_POST_cases user body now db :
  let result := POST (Some user) body now db in
  (status (fst result) <> 201%Z /\ payments (snd result) = payments db)
  \/ (exists input lease row customer intent periodStart periodEnd id,
         createPaymentSchema body = Zod.ParseOk input
         /\ lease_findUnique (cp_leaseId input) db = Some lease
         /\ lease_tenantId lease = session_id user
         /\ user_findUnique (session_id user) db = Some row
         /\ customer_for row = Some customer
         /\ paymentIntents_create
              (Stripe.Math_round (cp_amount input * (100 # 1))%Q) (customer_id customer)
              (cp_leaseId input) (session_id user) (cp_type input)
            = Some intent
         /\ fst result
            = json_ok 201
                (Some (PaymentCreated
                         (new_payment id (session_id user) input periodStart periodEnd
                                      (intent_id intent) now)
                         (client_secret intent))) None
         /\ payments (snd result)
            = payments db ++ [new_payment id (session_id user) input periodStart periodEnd
                                          (intent_id intent) now]).
Proof.
  cbv zeta.
  unfold POST, payment_create, user_set_stripeCustomerId,
    Stripe.getOrCreateStripeCustomer, Stripe.createPaymentIntent, optional_date, customer_for, is_none.
  run_handler.
  destruct (createPaymentSchema body) as [input|[|i errs]];
    try (left; split; [discriminate|reflexivity]).
  destruct (lease_findUnique (cp_leaseId input) db) as [lease|] eqn:Hl;
    [|left; split; [discriminate|reflexivity]].
  destruct (lease_tenantId lease =? session_id user) eqn:Ht; cbn [negb];
    [|left; split; [discriminate|reflexivity]].
  apply String.eqb_eq in Ht.
  destruct (user_findUnique (session_id user) db) as [row|] eqn:Hu;
    [|left; split; [discriminate|reflexivity]].
  pose proof (find_some _ _ Hu) as [_ Hid]. apply String.eqb_eq in Hid.
  repeat match goal with
  | |- context [match ?x with _ => _ end] =>
      match x with
      | context [match _ with _ => _ end] => fail 1
      | _ => destruct x eqn:?
      end; cbv beta iota zeta
  end.
  all: first [ left; split; [discriminate|reflexivity]
             | right; do 8 eexists; repeat split; try reflexivity; try eassumption ].
  all: cbv [if_truthy] in *;
    repeat match goal with
           | H : truthy ?s = _, H' : context [truthy ?s] |- _ =>
               lazymatch H' with H => fail | _ => rewrite H in H' end
           | H : Some _ = Some _ |- _ => injection H as <-
           | H : Some _ = None |- _ => discriminate H
           | H : None = Some _ |- _ => discriminate H
           end;
    repeat match goal with
           | H : ?x = _ |- context [?x] => rewrite H
           end; try reflexivity; try eassumption.
Qed.

(** C8.  A payment creation that succeeds (201) has appended one Payment
    row with status PENDING, for the lease named in the body, which is a
    lease of the calling tenant, carrying the id of the payment intent the
    gateway created; the response returns that row and the client secret
    of the intent.  Whatever the outcome, the handler leaves the existing
    payments as they were and adds no row whose status is not PENDING. *)
Theorem tenant_payment_created_pending user body now db :
  let result := POST (Some user) body now db in
  (status (fst result) = 201%Z ->
   exists input lease customer intent payment,
     createPaymentSchema body = Zod.ParseOk input
     /\ lease_findUnique (cp_leaseId input) db = Some lease
     /\ lease_tenantId lease = session_id user
     /\ paymentIntents_create
          (Stripe.Math_round (cp_amount input * (100 # 1))%Q) (customer_id customer)
          (cp_leaseId input) (session_id user) (cp_type input)
        = Some intent
     /\ payments (snd result) = payments db ++ [payment]
     /\ payment_status payment = PENDING
     /\ payment_leaseId payment = lease_id lease
     /\ payment_userId payment = session_id user
     /\ payment_stripePaymentIntentId payment = Some (intent_id intent)
     /\ data (fst result) = Some (PaymentCreated payment (client_secret intent)))
  /\ (payments (snd result) = payments db
      \/ exists payment, payments (snd result) = payments db ++ [payment]
                         /\ payment_status payment = PENDING)
  /\ (forall p, In p (payments (snd result)) ->
                In p (payments db) \/ payment_status p = PENDING).
Proof.
  cbv zeta.
  destruct (payments_POST_cases user body now db) as [[Hne Hsame]|Hok]; cbv zeta in *.
  - split; [intros H; contradiction|]. split; [now left|].
    intros p Hp. rewrite Hsame in Hp. now left.
  - destruct Hok as (input & lease & row & customer & intent & ps & pe & id
                     & Hparse & Hlease & Htenant & Huser & Hcustomer & Hintent
                     & Hresp & Hpay).
    split; [intros _|split].
    + exists input, lease, customer, intent,
        (new_payment id (session_id user) input ps pe (intent_id intent) now).
      rewrite Hresp. repeat split; try assumption; try reflexivity.
      cbn. destruct (find_some _ _ Hlease) as [_ Hid].
      apply String.eqb_eq in Hid. now symmetry.
    + right. eexists. split; [exact Hpay|reflexivity].
    + intros p Hp. rewrite Hpay in Hp. apply in_app_or in Hp.
      destruct Hp as [Hp|[<-|[]]]; [now left|now right].
Qed.

End Payments.

(* ===================================================================== *)
(** * The properties on the sample deployment *)
(* ===================================================================== *)

(** Tom applies for the vacant unit u2: his row takes the phone, the date
    of birth, the encrypted SSN digits, the emergency contact and the
    status ACTIVE of the body and keeps its e-mail, the row of Tina is as
    it was, and he gets a lease awaiting signature on u2, which is then
    reserved; an application for u3, which is reserved, is turned down
    with 409. *)
Lemma onboarding_submission_witness :
  let ok := OnboardingSubmit.POST (E := Sample.externals) (Some Sample.tom)
              (Sample.onboarding_body "u2" "2025-01-01")
              (Some "203.0.113.7, 10.0.0.1") 50 Sample.db in
  let taken := OnboardingSubmit.POST (E := Sample.externals) (Some Sample.tom)
                 (Sample.onboarding_body "u3" "2025-01-01") None 50 Sample.db in
  status (fst ok) = 201%Z
  /\ (exists row, user_findUnique "tom" (snd ok) = Some row
                  /\ user_email row = "tom@example.com"
                  /\ user_firstName row = "Tom"
                  /\ user_lastName row = "Thumb"
                  /\ user_phone row = Some "5550100200"
                  /\ user_dateOfBirth row = Some 642902400000%Z
                  /\ user_ssnEncrypted row = Some "U2FsdGVk1234"
                  /\ user_emergencyContactName row = Some "Tess Thumb"
                  /\ user_emergencyContactPhone row = Some "5550100300"
                  /\ user_emergencyContactRelation row = Some "Sister"
                  /\ user_status row = USER_ACTIVE
                  /\ user_stripeCustomerId row = None)
  /\ Forall2 (fun u u' => user_id u <> "tom" -> u' = u)
             (users Sample.db) (users (snd ok))
  /\ (exists lease, leases (snd ok) = leases Sample.db ++ [lease]
                    /\ lease_status lease = PENDING_SIGNATURE
                    /\ lease_unitId lease = "u2"
                    /\ lease_tenantId lease = "tom"
                    /\ lease_startDate lease = 1735689600000%Z
                    /\ lease_tenantSignedIp lease = Some "203.0.113.7")
  /\ (exists unit, unit_findUnique "u2" (snd ok) = Some unit
                   /\ unit_status unit = RESERVED)
  /\ fst taken = json_error 409 "This unit is no longer available"
  /\ snd taken = Sample.db.
Proof.
  intros ok taken.
  destruct (@onboarding_submission Sample.externals Sample.tom
              (Sample.onboarding_body "u2" "2025-01-01")
              (Some "203.0.113.7, 10.0.0.1") 50%Z Sample.db) as (Hok & _ & _).
  destruct (@onboarding_submission Sample.externals Sample.tom
              (Sample.onboarding_body "u3" "2025-01-01") None 50%Z Sample.db)
    as (_ & _ & Htaken).
  split; [reflexivity|].
  destruct (Hok eq_refl)
    as (input & unit & dob & start & lease & audit & Hparse & _ & _ & _ & _ & Hleases
        & Hstatus & Hunit & _ & _ & Hreserved & _ & _ & _ & _ & _ & _ & _
        & Hdob & Hstart & (row & row' & Hrow & Hrow' & Hprofile) & Husers
        & Hlease & _).
  vm_compute in Hparse. injection Hparse as <-.
  vm_compute in Hdob. injection Hdob as <-.
  vm_compute in Hstart. injection Hstart as <-.
  vm_compute in Hrow. injection Hrow as <-.
  split; [|split; [|split; [|split]]].
  - exists row'. split; [exact Hrow'|].
    destruct Hprofile as (_ & He & Hf & Hl & Hp & Hd & Hs & Hn & Hc & Hr & Ha & Hi).
    repeat split; assumption.
  - revert Husers. apply Forall2_impl. intros u u' H Hne.
    destruct (user_id u =? Sample.tom.(session_id)) eqn:Hid; [|exact H].
    apply String.eqb_eq in Hid. contradiction.
  - exists lease.
    destruct Hlease as (_ & Ht & _ & _ & Hs & _ & _ & _ & _ & _ & _ & _ & Hip & _).
    repeat split; try assumption.
  - exact Hreserved.
  - apply (Htaken (Sample.onboarding_input "u3" "2025-01-01")
                  (Sample.unit_row "u3" "2A" RESERVED));
      [reflexivity|reflexivity|discriminate].
Defined.

(** Tina files a request without naming a priority and it is MEDIUM; with
    a description of nine characters she is told to describe the problem. *)
Lemma create_request_validation_witness :
  let created := TenantMaintenance.POST (E := Sample.externals) (Some Sample.tina)
                   (Sample.request_body "Leaking tap" "The tap drips all night")
                   50 Sample.db in
  let refused := TenantMaintenance.POST (E := Sample.externals) (Some Sample.tina)
                   (Sample.request_body "Leaking tap" "Tap drips") 50 Sample.db in
  (exists r, data (fst created) = Some (RequestRow r) /\ mr_priority r = MEDIUM)
  /\ fst refused = json_error 400 "Please provide a detailed description"
  /\ snd refused = Sample.db.
Proof.
  intros created refused.
  destruct (@create_request_validation Sample.externals Sample.tina
              [ ("title", JStr "Leaking tap");
                ("description", JStr "The tap drips all night");
                ("category", JStr "PLUMBING") ] 50%Z Sample.db) as [Hpriority _].
  destruct (@create_request_validation Sample.externals Sample.tina
              [ ("title", JStr "Leaking tap"); ("description", JStr "Tap drips");
                ("category", JStr "PLUMBING") ] 50%Z Sample.db) as [_ Hshort].
  split.
  - eexists. split; [reflexivity|].
    eapply Hpriority; reflexivity.
  - destruct (Hshort "Tap drips" eq_refl) as (issue & rest & _ & Hresp & Hdb & _ & Htitle);
      [cbn; lia|].
    destruct (Htitle "Leaking tap" eq_refl) as [-> _]; [cbn; lia|].
    split; [exact Hresp|exact Hdb].
Defined.

(** C7, counterexample.  With an empty title and a description of nine
    characters, the first issue of the schema is the title's: the error of
    the 400 response is 'Title is required', which is the message of no
    issue of the description. *)
Lemma empty_title_masks_description :
  let body := Sample.request_body "" "Tap drips" in
  let result := TenantMaintenance.POST (E := Sample.externals) (Some Sample.tina)
                  body 50 Sample.db in
  exists issues,
    createMaintenanceRequestSchema (E := Sample.externals) body = Zod.ParseError issues
    /\ fst result = json_error 400 "Title is required"
    /\ ~ (exists issue, In issue issues
                        /\ Zod.path issue = ["description"]
                        /\ error (fst result) = Some (Zod.message issue)).
Proof.
  cbv zeta. eexists. split; [vm_compute; reflexivity|].
  split; [reflexivity|].
  intros (issue & Hin & Hpath & Herr).
  destruct Hin as [<-|[<-|[]]]; [discriminate Hpath|discriminate Herr].
Qed.


(** Tina starts a rent payment on her lease l1: a PENDING payment tied to
    the gateway's intent, and the intent's client secret in the response. *)
Lemma tenant_payment_created_pending_witness :
  let result := TenantPayments.POST (E := Sample.externals) (Some Sample.tina)
                  (Sample.payment_body "l1") 50 Sample.db in
  status (fst result) = 201%Z
  /\ exists payment,
       payments (snd result) = [payment]
       /\ payment_status payment = PENDING
       /\ payment_leaseId payment = "l1"
       /\ payment_stripePaymentIntentId payment = Some "pi_l1"
       /\ data (fst result) = Some (PaymentCreated payment (Some "pi_l1_secret")).
Proof.
  intros result.
  destruct (@tenant_payment_created_pending Sample.externals Sample.tina
              (Sample.payment_body "l1") 50%Z Sample.db) as (Hok & _).
  split; [reflexivity|].
  destruct (Hok eq_refl)
    as (input & lease & customer & intent & payment & _ & _ & _ & _
        & Hpay & Hstatus & _ & _ & _ & _).
  exists payment. vm_compute in Hpay. injection Hpay as <-.
  repeat split; reflexivity.
Defined.

(* ===================================================================== *)
(** * Further properties of the handlers *)
(* ===================================================================== *)

Section Ordering.

Context {A : Type} (precedes : A -> A -> bool) (R : A -> A -> Prop).
Hypothesis R_trans : forall a b c, R a b -> R b c -> R a c.
Hypothesis precedes_R : forall y x, precedes y x = true -> R y x.
Hypothesis not_precedes_R : forall y x, precedes y x = false -> R x y.

Lemma insert_sorted_sorted x l :
  StronglySorted R l -> StronglySorted R (insert_sorted precedes x l).
Proof.
  induction 1 as [|y t Ht IH Hy]; cbn; [repeat constructor|].
  destruct (precedes y x) eqn:Hp.
  - constructor; [exact IH|].
    apply Forall_forall. intros z Hz.
    apply (Permutation_in _ (Permutation_sym (insert_sorted_perm precedes x t))) in Hz.
    destruct Hz as [<-|Hz]; [now apply precedes_R|].
    rewrite Forall_forall in Hy. now apply Hy.
  - constructor; [now constructor|].
    constructor; [now apply not_precedes_R|].
    apply Forall_forall. intros z Hz. rewrite Forall_forall in Hy.
    apply R_trans with y; [now apply not_precedes_R|now apply Hy].
Qed.

Lemma orderBy_sorted l : StronglySorted R (orderBy precedes l).
Proof.
  induction l as [|x l IH]; cbn; [constructor|now apply insert_sorted_sorted].
Qed.

End Ordering.

Lemma sorted_app_inv {A} (R : A -> A -> Prop) (l1 l2 : list A) :
  StronglySorted R (l1 ++ l2) ->
  forall a b, In a l1 -> In b l2 -> R a b.
Proof.
  induction l1 as [|x l1 IH]; cbn; intros Hs a b Ha Hb; [contradiction|].
  inversion Hs as [|? ? Hs' Hx]; subst.
  destruct Ha as [<-|Ha]; [|now apply IH].
  rewrite Forall_forall in Hx. apply Hx, in_or_app. now right.
Qed.

(** Among the rows of a sorted list, those left out by [take: n] come
    after all those returned. *)
Lemma firstn_sorted_omitted {A} (R : A -> A -> Prop) (n : nat) (l : list A) :
  StronglySorted R l ->
  forall a b, In a (firstn n l) -> In b l -> ~ In b (firstn n l) -> R a b.
Proof.
  intros Hs a b Ha Hb Hnb.
  rewrite <- (firstn_skipn n l) in Hs, Hb.
  apply in_app_or in Hb. destruct Hb as [Hb|Hb]; [contradiction|].
  now apply (sorted_app_inv R _ _ Hs).
Qed.

Lemma orderBy_newest_first {A} (createdAt : A -> Z) (l : list A) :
  newest_first createdAt (orderBy (createdAt_desc createdAt) l).
Proof.
  apply orderBy_sorted; unfold createdAt_desc.
  - intros a b c H1 H2. lia.
  - intros y x H. apply Z.ltb_lt in H. lia.
  - intros y x H. apply Z.ltb_ge in H. lia.
Qed.

Lemma by_priority_then_newest_trans a b c :
  by_priority_then_newest a b -> by_priority_then_newest b c ->
  by_priority_then_newest a c.
Proof. unfold by_priority_then_newest. intros [H1|[H1 H1']] [H2|[H2 H2']]; lia. Qed.

Lemma firstn_StronglySorted {A} (R : A -> A -> Prop) (n : nat) (l : list A) :
  StronglySorted R l -> StronglySorted R (firstn n l).
Proof.
  intros Hs. revert n. induction Hs as [|x l Hs IH Hx]; intros [|n]; cbn;
    try constructor; [apply IH|].
  apply Forall_forall. intros y Hy. apply In_firstn in Hy.
  rewrite Forall_forall in Hx. now apply Hx.
Qed.

Section ListViews.

(** X1.  The tenant's list returns exactly the caller's requests that match
    the status filter, newest first, and with each of them its three most
    recent public updates, newest first: a public update of the request that
    is left out is no newer than any update returned. *)
Theorem tenant_list_newest_first user status db requests :
  data (fst (TenantMaintenance.GET (Some user) status db)) = Some (RequestList requests) ->
  newest_first mr_createdAt (map fst requests)
  /\ (exists whereStatus,
         Permutation (map fst requests)
           (filter (fun r => (mr_tenantId r =? session_id user)
                             && matches MaintenanceStatus_beq whereStatus (mr_status r))
                   (maintenanceRequests db))
         /\ (whereStatus = None <-> if_truthy status = None)
         /\ (forall s, whereStatus = Some s -> status = Some (status_str s)))
  /\ (forall r updates,
         In (r, updates) requests ->
         newest_first mu_createdAt updates
         /\ List.length updates <= 3
         /\ (forall u, In u updates ->
                       In u (maintenanceUpdates db) /\ mu_requestId u = mr_id r
                       /\ mu_isPublic u = true)
         /\ (forall u u', In u updates ->
                          In u' (maintenanceUpdates db) -> mu_requestId u' = mr_id r ->
                          mu_isPublic u' = true -> ~ In u' updates ->
                          (mu_createdAt u' <= mu_createdAt u)%Z)).
Proof.
  intros Hd.
  assert (Hrun : exists whereStatus,
             requests = map (fun r => (r, firstn 3 (include_public_updates (mr_id r) db)))
                            (tenant_rows user whereStatus db)
             /\ (whereStatus = None <-> if_truthy status = None)
             /\ (forall s, whereStatus = Some s -> status = Some (status_str s))).
  { revert Hd. unfold TenantMaintenance.GET, enum_where, tenant_rows. run_handler.
    destruct status as [s|]; cbn [if_truthy].
    - destruct (truthy s) eqn:Ht.
      + destruct (Zod.lookup_value maintenanceStatuses s) as [st|] eqn:Hl;
          [|discriminate].
        cbn. intros [= <-]. exists (Some st). split; [reflexivity|].
        split; [split; discriminate|]. intros s' [= <-].
        unfold Zod.lookup_value in Hl.
        destruct (find _ maintenanceStatuses) as [[k v]|] eqn:Hfind; [|discriminate].
        cbn in Hl. injection Hl as ->.
        destruct (find_some _ _ Hfind) as [Hin Hk]. cbn in Hk.
        apply String.eqb_eq in Hk. subst k.
        cbn in Hin.
        repeat (destruct Hin as [Hin|Hin]; [injection Hin as <- <-; reflexivity|]).
        contradiction.
      + cbn. intros [= <-]. exists None. repeat split; discriminate.
    - cbn. intros [= <-]. exists None. repeat split; discriminate. }
  destruct Hrun as (ws & -> & Hnone & Hsome).
  rewrite map_map. cbn [fst]. rewrite map_id.
  split; [apply orderBy_newest_first|]. split.
  - exists ws. split; [|split; assumption].
    unfold tenant_rows. symmetry. apply orderBy_perm.
  - intros r updates Hin. apply in_map_iff in Hin.
    destruct Hin as (x & Heq & _). injection Heq as Hr Heq. subst x.
    assert (Hu : updates = firstn 3 (include_public_updates (mr_id r) db))
      by (symmetry; exact Heq).
    clear Heq. subst updates.
    pose proof (orderBy_newest_first mu_createdAt
                  (filter mu_isPublic (updates_of (mr_id r) db))) as Hsorted.
    fold (include_public_updates (mr_id r) db) in Hsorted.
    split; [now apply firstn_StronglySorted|].
    split; [apply firstn_le_length|]. split.
    + intros u Hu. apply In_firstn in Hu. unfold include_public_updates in Hu.
      apply orderBy_In, filter_In in Hu. destruct Hu as [Hu Hp].
      apply filter_In in Hu. destruct Hu as [Hu Hid].
      apply String.eqb_eq in Hid. auto.
    + intros u u' Hu Hu' Hid Hp Hno.
      apply (firstn_sorted_omitted _ 3 _ Hsorted u u' Hu); [|exact Hno].
      unfold include_public_updates. apply orderBy_In, filter_In. split; [|exact Hp].
      apply filter_In. split; [exact Hu'|now apply String.eqb_eq].
Qed.

(** X2.  The landlord's list returns the requests in order of priority,
    EMERGENCY first, and newest first within one priority; each comes with
    the five most recent of all its updates, newest first, so that an update
    left out is no newer than any update returned. *)
Theorem landlord_list_by_priority user status priority propertyId db requests :
  data (fst (LandlordMaintenance.GET (Some user) status priority propertyId db))
  = Some (RequestList requests) ->
  StronglySorted by_priority_then_newest (map fst requests)
  /\ (forall r updates,
         In (r, updates) requests ->
         In r (maintenanceRequests db)
         /\ newest_first mu_createdAt updates
         /\ List.length updates <= 5
         /\ (forall u u', In u updates ->
                          In u' (maintenanceUpdates db) -> mu_requestId u' = mr_id r ->
                          ~ In u' updates ->
                          (mu_createdAt u' <= mu_createdAt u)%Z)).
Proof.
  intros Hd.
  destruct (landlord_list_run user status priority propertyId db)
    as [(ws & wp & Hrun)|[Hnone _]]; [|rewrite Hnone in Hd; discriminate Hd].
  rewrite Hrun in Hd. cbn [fst data json_ok] in Hd. injection Hd as <-.
  rewrite map_map. cbn [fst]. rewrite map_id. split.
  - unfold landlord_rows. apply orderBy_sorted.
    + apply by_priority_then_newest_trans.
    + intros y x H. unfold priority_createdAt_desc in H. unfold by_priority_then_newest.
      apply orb_true_iff in H. destruct H as [H|H].
      * apply Z.ltb_lt in H. now left.
      * apply andb_true_iff in H. destruct H as [H1 H2].
        apply Z.eqb_eq in H1. apply Z.ltb_lt in H2. right. lia.
    + intros y x H. unfold priority_createdAt_desc in H. unfold by_priority_then_newest.
      apply orb_false_iff in H. destruct H as [H1 H2].
      apply Z.ltb_ge in H1. apply andb_false_iff in H2.
      destruct H2 as [H2|H2]; [apply Z.eqb_neq in H2|apply Z.ltb_ge in H2]; lia.
  - intros r updates Hin. apply in_map_iff in Hin.
    destruct Hin as (x & Heq & Hx). injection Heq as Hr Heq. subst x.
    assert (Hu : updates = firstn 5 (include_updates (mr_id r) db))
      by (symmetry; exact Heq).
    clear Heq. subst updates.
    pose proof (orderBy_newest_first mu_createdAt (updates_of (mr_id r) db)) as Hsorted.
    fold (include_updates (mr_id r) db) in Hsorted.
    split; [unfold landlord_rows in Hx; apply orderBy_In, filter_In in Hx; tauto|].
    split; [now apply firstn_StronglySorted|].
    split; [apply firstn_le_length|].
    intros u u' Hu Hu' Hid Hno.
    apply (firstn_sorted_omitted _ 5 _ Hsorted u u' Hu); [|exact Hno].
    unfold include_updates. apply orderBy_In, filter_In.
    split; [exact Hu'|now apply String.eqb_eq].
Qed.

End ListViews.

(** Tina's list shows her request with the three newest public updates,
    m6, m4 and m3; the older public update m1 is left out. *)
Lemma tenant_list_newest_first_witness :
  exists requests updates,
    data (fst (TenantMaintenance.GET (Some Sample.tina) None Sample.db))
    = Some (RequestList requests)
    /\ requests = [(Sample.request_row, updates)]
    /\ map mu_id updates = ["m6"; "m4"; "m3"]
    /\ newest_first mu_createdAt updates.
Proof.
  eexists. eexists. split; [reflexivity|]. split; [reflexivity|].
  split; [reflexivity|].
  destruct (tenant_list_newest_first Sample.tina None Sample.db _ eq_refl)
    as (_ & _ & Hupdates).
  destruct (Hupdates Sample.request_row _ (or_introl eq_refl)) as [Hsorted _].
  exact Hsorted.
Defined.

(** Alice's list shows the request with its five newest updates. *)
Lemma landlord_list_by_priority_witness :
  exists requests updates,
    data (fst (LandlordMaintenance.GET (Some Sample.alice) None None None Sample.db))
    = Some (RequestList requests)
    /\ requests = [(Sample.request_row, updates)]
    /\ map mu_id updates = ["m6"; "m5"; "m4"; "m3"; "m2"]
    /\ newest_first mu_createdAt updates.
Proof.
  eexists. eexists. split; [reflexivity|]. split; [reflexivity|].
  split; [reflexivity|].
  destruct (landlord_list_by_priority Sample.alice None None None Sample.db _ eq_refl)
    as (_ & Hupdates).
  destruct (Hupdates Sample.request_row _ (or_introl eq_refl)) as (_ & Hsorted & _).
  exact Hsorted.
Defined.

(* ===================================================================== *)
(** * Deleting units and properties: what is written, and for whom *)
(* ===================================================================== *)

Lemma find_filter_keep {A} (p q : A -> bool) (l : list A) :
  (forall x, p x = true -> q x = true) -> find p (filter q l) = find p l.
Proof.
  intros H. induction l as [|x l IH]; cbn; [reflexivity|].
  destruct (q x) eqn:Hq; cbn.
  - destruct (p x); [reflexivity|exact IH].
  - destruct (p x) eqn:Hp; [|exact IH]. apply H in Hp. congruence.
Qed.

Lemma find_filter_drop {A} (p q : A -> bool) (l : list A) :
  (forall x, p x = true -> q x = false) -> find p (filter q l) = None.
Proof.
  intros H. apply find_none_iff. intros x Hx. apply filter_In in Hx.
  destruct Hx as [_ Hq]. destruct (p x) eqn:Hp; [|reflexivity].
  apply H in Hp. congruence.
Qed.

Lemma find_map_other {A} (p c : A -> bool) (f : A -> A) (l : list A) :
  (forall x, p (f x) = p x) ->
  (forall x, p x = true -> c x = false) ->
  find p (map (fun x => if c x then f x else x) l) = find p l.
Proof.
  intros Hf Hc. induction l as [|x l IH]; cbn; [reflexivity|].
  destruct (c x) eqn:Hcx.
  - rewrite Hf. destruct (p x) eqn:Hp; [|exact IH]. apply Hc in Hp. congruence.
  - destruct (p x); [reflexivity|exact IH].
Qed.

Lemma not_owner_nor_admin_false ownerId user :
  not_owner_nor_admin ownerId user = false <->
  ownerId = session_id user \/ session_role user = ADMIN.
Proof.
  unfold not_owner_nor_admin. rewrite andb_false_iff, !negb_false_iff, String.eqb_eq.
  split; intros [H|H]; auto.
  - right. now destruct (session_role user).
  - right. now rewrite H.
Qed.

Lemma active_or_pending_blocks l : active_or_pending l = true <-> blocks_deletion l.
Proof.
  unfold active_or_pending, blocks_deletion.
  destruct (lease_status l); cbn; split; intros H; try discriminate; auto;
    destruct H; discriminate.
Qed.

Lemma free_of_leases_spec unitId db :
  Nat.ltb 0 (List.length (include_active_leases unitId db)) = false <->
  free_of_leases unitId db.
Proof.
  unfold free_of_leases, include_active_leases. split.
  - intros H l Hl Hu Hb.
    assert (Hin : In l (filter (fun l0 => (lease_unitId l0 =? unitId)
                                          && active_or_pending l0) (leases db))).
    { apply filter_In. split; [exact Hl|]. apply andb_true_iff.
      split; [now apply String.eqb_eq|now apply active_or_pending_blocks]. }
    destruct (filter _ (leases db)); [contradiction|discriminate H].
  - intros H. destruct (filter _ (leases db)) as [|l rest] eqn:Hf; [reflexivity|].
    assert (Hin : In l (filter (fun l0 => (lease_unitId l0 =? unitId)
                                          && active_or_pending l0) (leases db)))
      by (rewrite Hf; now left).
    apply filter_In in Hin. destruct Hin as [Hl Hp].
    apply andb_true_iff in Hp. destruct Hp as [Hu Hb].
    apply String.eqb_eq in Hu. apply active_or_pending_blocks in Hb.
    now destruct (H l Hl Hu).
Qed.

(** The outcome of DELETE on a unit, case by case. *)
Lemma unit_DELETE_outcome user propertyId unitId db :
  let result := LandlordUnit.DELETE (Some user) propertyId unitId db in
  rejected db result
  \/ (exists property unit,
         property_findUnique propertyId db = Some property
         /\ not_owner_nor_admin (property_ownerId property) user = false
         /\ unit_findUnique unitId db = Some unit
         /\ unit_propertyId unit = propertyId
         /\ free_of_leases unitId db
         /\ fst result = json_ok 200 None (Some "Unit deleted successfully")
         /\ snd result
            = set_properties
                (map (fun p => if property_id p =? propertyId
                               then {| property_id := property_id p;
                                       property_name := property_name p;
                                       property_ownerId := property_ownerId p;
                                       property_totalUnits := (property_totalUnits p - 1)%Z |}
                               else p))
                (set_units (filter (fun u => negb (unit_id u =? unitId))) db)).
Proof.
  cbv zeta.
  unfold LandlordUnit.DELETE, LandlordUnit.verifyOwnership, LandlordUnit.unit_delete,
    LandlordUnit.property_decrement_totalUnits.
  run_handler.
  destruct (property_findUnique propertyId db) as [property|] eqn:Hp;
    [|left; apply rejected_error; lia].
  fold (not_owner_nor_admin (property_ownerId property) user).
  destruct (not_owner_nor_admin (property_ownerId property) user) eqn:Ho;
    [left; apply rejected_error; lia|].
  destruct (unit_findUnique unitId db) as [unit|] eqn:Hu;
    [|left; apply rejected_error; lia].
  destruct (unit_propertyId unit =? propertyId) eqn:Hb; cbn [negb];
    [|left; apply rejected_error; lia].
  destruct (Nat.ltb 0 (List.length (include_active_leases unitId db))) eqn:Hl;
    [left; apply rejected_error; lia|].
  right. exists property, unit. apply String.eqb_eq in Hb.
  apply free_of_leases_spec in Hl.
  unfold property_findUnique in *. rewrite Hu. cbn [properties set_units].
  rewrite Hp. cbn. repeat split; assumption.
Qed.

(** The deletion of a unit that the checks let through. *)
Lemma unit_DELETE_success user propertyId unitId db property unit :
  property_findUnique propertyId db = Some property ->
  owner_or_admin property user ->
  unit_findUnique unitId db = Some unit ->
  unit_propertyId unit = propertyId ->
  free_of_leases unitId db ->
  LandlordUnit.DELETE (Some user) propertyId unitId db
  = (json_ok 200 None (Some "Unit deleted successfully"),
     set_properties
       (map (fun p => if property_id p =? propertyId
                      then {| property_id := property_id p;
                              property_name := property_name p;
                              property_ownerId := property_ownerId p;
                              property_totalUnits :=
                                (property_totalUnits p - 1)%Z |}
                      else p))
       (set_units (filter (fun u => negb (unit_id u =? unitId))) db)).
Proof.
  intros Hp Ho Hu Hb Hfree.
  destruct (unit_DELETE_outcome user propertyId unitId db) as [[Hne _]|Hok];
    cbv zeta in *.
  - exfalso. enough (H200 : status (fst (LandlordUnit.DELETE (Some user) propertyId
                                           unitId db)) = 200%Z) by lia.
    clear Hne.
    apply not_owner_nor_admin_false in Ho. unfold not_owner_nor_admin in Ho.
    apply String.eqb_eq in Hb. apply free_of_leases_spec in Hfree.
    unfold LandlordUnit.DELETE, LandlordUnit.verifyOwnership, LandlordUnit.unit_delete,
      LandlordUnit.property_decrement_totalUnits.
    run_handler. rewrite Hp, Ho, Hu, Hb. cbn [negb]. rewrite Hfree.
    unfold property_findUnique in *. cbv beta iota zeta. rewrite Hu.
    cbv beta iota zeta. cbn [properties set_units]. rewrite Hp. reflexivity.
  - destruct Hok as (property0 & unit0 & _ & _ & _ & _ & _ & Hresp & Hdb).
    rewrite <- Hresp, <- Hdb. now destruct (LandlordUnit.DELETE _ _ _ _).
Qed.

(** X3.  A unit to which no lease and no maintenance request refers is
    deleted for a caller who owns its property (or is an administrator),
    through the route of that property: the answer is 200, afterwards the
    unit is gone, every other unit is as before, the unit count of the
    property is one less, other properties are untouched, and so are the
    leases and the maintenance requests. *)
Theorem unit_DELETE_deletes user propertyId unitId db property unit :
  property_findUnique propertyId db = Some property ->
  owner_or_admin property user ->
  unit_findUnique unitId db = Some unit ->
  unit_propertyId unit = propertyId ->
  unreferenced unitId db ->
  let result := LandlordUnit.DELETE (Some user) propertyId unitId db in
  fst result = json_ok 200 None (Some "Unit deleted successfully")
  /\ unit_findUnique unitId (snd result) = None
  /\ (forall id, id <> unitId ->
                 unit_findUnique id (snd result) = unit_findUnique id db)
  /\ (exists property',
         property_findUnique propertyId (snd result) = Some property'
         /\ property_totalUnits property' = (property_totalUnits property - 1)%Z
         /\ property_ownerId property' = property_ownerId property
         /\ property_name property' = property_name property)
  /\ (forall id, id <> propertyId ->
                 property_findUnique id (snd result) = property_findUnique id db)
  /\ leases (snd result) = leases db
  /\ maintenanceRequests (snd result) = maintenanceRequests db
  /\ unreferenced unitId (snd result).
Proof.
  intros Hp Ho Hu Hb Hfree. cbv zeta.
  assert (Hleases : free_of_leases unitId db).
  { intros l Hl Hid _. now apply (proj1 Hfree l Hl). }
  rewrite (unit_DELETE_success user propertyId unitId db property unit Hp Ho Hu Hb
             Hleases).
  cbn [fst snd]. split; [reflexivity|].
  split; [|split; [|split; [|split; [|split; [|split]]]]].
  - unfold unit_findUnique. cbn. apply find_filter_drop.
    intros x Hx. now rewrite Hx.
  - intros id Hid. unfold unit_findUnique. cbn. apply find_filter_keep.
    intros x Hx. apply String.eqb_eq in Hx. apply negb_true_iff, String.eqb_neq.
    congruence.
  - unfold property_findUnique in *. cbn.
    rewrite find_map_preserving
      by (intros x; destruct (property_id x =? propertyId) eqn:E; cbn; now rewrite ?E).
    rewrite Hp. cbn [option_map]. destruct (find_some _ _ Hp) as [_ Hid].
    rewrite Hid. eexists. split; [reflexivity|]. cbn. auto.
  - intros id Hid. unfold property_findUnique. cbn.
    apply (find_map_other (fun p => property_id p =? id)
             (fun p => property_id p =? propertyId)).
    + intros x. reflexivity.
    + intros x Hx. apply String.eqb_eq in Hx. apply String.eqb_neq. congruence.
  - reflexivity.
  - reflexivity.
  - exact Hfree.
Qed.

(** Alice deletes the vacant unit u2 of Elm Court, which never had a lease
    or a maintenance request: the unit is gone, the property counts two
    units, and the two leases on the other units are still there. *)
Lemma unit_DELETE_deletes_witness :
  let result := LandlordUnit.DELETE (Some Sample.alice) "p1" "u2" Sample.db in
  fst result = json_ok 200 None (Some "Unit deleted successfully")
  /\ unit_findUnique "u2" (snd result) = None
  /\ (exists property',
         property_findUnique "p1" (snd result) = Some property'
         /\ property_totalUnits property' = 2%Z)
  /\ List.length (leases (snd result)) = 2%nat.
Proof.
  destruct (unit_DELETE_deletes Sample.alice "p1" "u2" Sample.db Sample.elm_court
              (Sample.unit_row "u2" "1B" VACANT))
    as (Hresp & Hgone & _ & (property' & Hfind & Hcount & _) & _ & Hleases & _).
  - reflexivity.
  - left. reflexivity.
  - reflexivity.
  - reflexivity.
  - split.
    + intros l [<-|[<-|[]]]; discriminate.
    + intros r [<-|[]]. discriminate.
  - cbv zeta. split; [exact Hresp|]. split; [exact Hgone|]. split.
    + exists property'. split; [exact Hfind|exact Hcount].
    + rewrite Hleases. reflexivity.
Defined.

(** X4.  DELETE on a unit writes to the database only when the caller is
    signed in, the unit exists, it belongs to the property named in the
    route, the caller owns that property or is an administrator, and no
    lease on the unit is ACTIVE or PENDING_SIGNATURE.  In particular a
    landlord cannot delete a unit of someone else's property through the
    route of a property of their own. *)
Theorem unit_DELETE_only_by_owner session propertyId unitId db :
  snd (LandlordUnit.DELETE session propertyId unitId db) <> db ->
  exists user property unit,
    session = Some user
    /\ unit_findUnique unitId db = Some unit
    /\ unit_propertyId unit = propertyId
    /\ property_findUnique (unit_propertyId unit) db = Some property
    /\ owner_or_admin property user
    /\ free_of_leases unitId db.
Proof.
  intros Hw. destruct session as [user|]; [|now contradiction Hw].
  destruct (unit_DELETE_outcome user propertyId unitId db) as [(_ & _ & Hsame)|Hok];
    cbv zeta in *; [contradiction|].
  destruct Hok as (property & unit & Hp & Ho & Hu & Hb & Hfree & _).
  exists user, property, unit. subst propertyId.
  apply not_owner_nor_admin_false in Ho. repeat split; assumption.
Qed.

(** Alice's deletion of unit u2 changes the database, so she is Elm Court's
    owner or an administrator and u2 has no lease in the way. *)
Lemma unit_DELETE_only_by_owner_witness :
  exists user property unit,
    Some Sample.alice = Some user
    /\ unit_findUnique "u2" Sample.db = Some unit
    /\ unit_propertyId unit = "p1"
    /\ property_findUnique (unit_propertyId unit) Sample.db = Some property
    /\ owner_or_admin property user
    /\ free_of_leases "u2" Sample.db.
Proof.
  apply (unit_DELETE_only_by_owner (Some Sample.alice) "p1" "u2" Sample.db).
  vm_compute. discriminate.
Defined.

Lemma hasActiveLeases_vacated propertyId db :
  LandlordProperty.hasActiveLeases propertyId db = false <-> vacated propertyId db.
Proof.
  unfold LandlordProperty.hasActiveLeases, LandlordProperty.include_units, vacated.
  split.
  - intros H unit Hin Hp. apply free_of_leases_spec.
    destruct (Nat.ltb 0 _) eqn:Hl; [|reflexivity].
    assert (Hex : existsb (fun unit0 => Nat.ltb 0 (List.length
                             (include_active_leases (unit_id unit0) db)))
                    (filter (fun u => unit_propertyId u =? propertyId) (units db)) = true).
    { apply existsb_exists. exists unit. split; [|exact Hl].
      apply filter_In. split; [exact Hin|now apply String.eqb_eq]. }
    congruence.
  - intros H. destruct (existsb _ _) eqn:Hex; [|reflexivity].
    apply existsb_exists in Hex. destruct Hex as (unit & Hin & Hl).
    apply filter_In in Hin. destruct Hin as [Hin Hp]. apply String.eqb_eq in Hp.
    apply (H unit Hin) in Hp. apply free_of_leases_spec in Hp. congruence.
Qed.

(** The outcome of DELETE on a property, case by case. *)
Lemma property_DELETE_outcome user propertyId db :
  let result := LandlordProperty.DELETE (Some user) propertyId db in
  rejected db result
  \/ (exists property,
         property_findUnique propertyId db = Some property
         /\ owner_or_admin property user
         /\ vacated propertyId db
         /\ fst result = json_ok 200 None (Some "Property deleted successfully")
         /\ snd result
            = set_units (filter (fun u => negb (unit_propertyId u =? propertyId)))
                (set_properties (filter (fun p => negb (property_id p =? propertyId))) db)).
Proof.
  cbv zeta. unfold LandlordProperty.DELETE, LandlordProperty.property_delete.
  run_handler.
  destruct (property_findUnique propertyId db) as [property|] eqn:Hp;
    [|left; apply rejected_error; lia].
  destruct (not_owner_nor_admin (property_ownerId property) user) eqn:Ho;
    [left; apply rejected_error; lia|].
  destruct (LandlordProperty.hasActiveLeases propertyId db) eqn:Hl;
    [left; apply rejected_error; lia|].
  right. exists property. apply not_owner_nor_admin_false in Ho.
  apply hasActiveLeases_vacated in Hl. rewrite Hp. cbn.
  repeat split; assumption.
Qed.

(** X5.  A property that has no unit is deleted for its owner (or an
    administrator): the answer is 200, afterwards the property is gone,
    every other property is as before, and the units and the leases are as
    before. *)
Theorem property_DELETE_deletes user propertyId db property :
  property_findUnique propertyId db = Some property ->
  owner_or_admin property user ->
  without_units propertyId db ->
  let result := LandlordProperty.DELETE (Some user) propertyId db in
  fst result = json_ok 200 None (Some "Property deleted successfully")
  /\ property_findUnique propertyId (snd result) = None
  /\ (forall id, id <> propertyId ->
                 property_findUnique id (snd result) = property_findUnique id db)
  /\ units (snd result) = units db
  /\ leases (snd result) = leases db
  /\ maintenanceRequests (snd result) = maintenanceRequests db.
Proof.
  intros Hp Ho Hnone. cbv zeta.
  assert (Hv : vacated propertyId db).
  { intros unit Hin Hid. now destruct (Hnone unit Hin). }
  destruct (property_DELETE_outcome user propertyId db) as [[Hne _]|Hok];
    cbv zeta in *.
  - exfalso. enough (H200 : status (fst (LandlordProperty.DELETE (Some user) propertyId
                                           db)) = 200%Z) by lia.
    clear Hne. rewrite property_DELETE_run, Hp.
    apply not_owner_nor_admin_false in Ho. rewrite Ho.
    apply hasActiveLeases_vacated in Hv. rewrite Hv.
    unfold LandlordProperty.DELETE, LandlordProperty.property_delete. run_handler.
    rewrite Hp, Ho, Hv, Hp. reflexivity.
  - destruct Hok as (property0 & _ & _ & _ & Hresp & Hdb).
    rewrite Hresp, Hdb. split; [reflexivity|].
    split; [|split; [|split; [|split]]].
    + unfold property_findUnique. cbn. apply find_filter_drop.
      intros x Hx. now rewrite Hx.
    + intros id Hid. unfold property_findUnique. cbn. apply find_filter_keep.
      intros x Hx. apply String.eqb_eq in Hx. apply negb_true_iff, String.eqb_neq.
      congruence.
    + cbn. clear - Hnone. unfold without_units in Hnone.
      induction (units db) as [|unit rows IH]; [reflexivity|]. cbn.
      assert (Hne : (unit_propertyId unit =? propertyId) = false)
        by (apply String.eqb_neq, Hnone; now left).
      rewrite Hne. cbn. f_equal. apply IH. intros x Hx. apply Hnone. now right.
    + reflexivity.
    + reflexivity.
Qed.

(** Bob deletes Birch Lot, his property without units: it is gone, Oak Row
    and Elm Court are as before, and the four units are still there. *)
Lemma property_DELETE_deletes_witness :
  let result := LandlordProperty.DELETE (Some Sample.bob) "p3" Portfolio.with_lot in
  fst result = json_ok 200 None (Some "Property deleted successfully")
  /\ property_findUnique "p3" (snd result) = None
  /\ property_findUnique "p2" (snd result) = Some Portfolio.oak_row
  /\ property_findUnique "p1" (snd result) = Some Sample.elm_court
  /\ In Portfolio.oak_unit (units (snd result))
  /\ List.length (units (snd result)) = 4%nat.
Proof.
  cbv zeta.
  destruct (property_DELETE_deletes Sample.bob "p3" Portfolio.with_lot
              Portfolio.birch_lot)
    as (Hresp & Hgone & Hothers & Hunits & _).
  - reflexivity.
  - left. reflexivity.
  - intros unit [<-|[<-|[<-|[<-|[]]]]]; discriminate.
  - split; [exact Hresp|]. split; [exact Hgone|].
    rewrite !Hothers by discriminate. rewrite Hunits.
    split; [reflexivity|]. split; [reflexivity|]. split; [|reflexivity].
    do 3 right. left. reflexivity.
Defined.

(** X6.  DELETE on a property writes to the database only when the caller
    is signed in, the property exists, the caller owns it or is an
    administrator, and no unit of it has a lease that is ACTIVE or
    PENDING_SIGNATURE. *)
Theorem property_DELETE_only_by_owner session propertyId db :
  snd (LandlordProperty.DELETE session propertyId db) <> db ->
  exists user property,
    session = Some user
    /\ property_findUnique propertyId db = Some property
    /\ owner_or_admin property user
    /\ vacated propertyId db.
Proof.
  intros Hw. destruct session as [user|]; [|now contradiction Hw].
  destruct (property_DELETE_outcome user propertyId db) as [(_ & _ & Hsame)|Hok];
    cbv zeta in *; [contradiction|].
  destruct Hok as (property & Hp & Ho & Hv & _).
  exists user, property. repeat split; assumption.
Qed.

(** Bob's deletion of Oak Row changes the database, so he owns it. *)
Lemma property_DELETE_only_by_owner_witness :
  exists user property,
    Some Sample.bob = Some user
    /\ property_findUnique "p2" Portfolio.db = Some property
    /\ owner_or_admin property user
    /\ vacated "p2" Portfolio.db.
Proof.
  apply (property_DELETE_only_by_owner (Some Sample.bob) "p2" Portfolio.db).
  vm_compute. discriminate.
Defined.

(* ===================================================================== *)
(** * What the landlord's writes leave alone *)
(* ===================================================================== *)

Section LandlordWrites.

Context {E : Externals}.

(** The tables after one landlord call. *)
Lemma landlord_call_tables c db :
  let db' := landlord_call c db in
  users db' = users db /\ properties db' = properties db /\ units db' = units db
  /\ leases db' = leases db /\ payments db' = payments db
  /\ auditLogs db' = auditLogs db
  /\ (exists f, (forall x, keeps_report x (f x))
                /\ maintenanceRequests db'
                   = map (fun x => if mr_id x =? call_id c then f x else x)
                         (maintenanceRequests db))
  /\ (exists rows, maintenanceUpdates db' = maintenanceUpdates db ++ rows
                   /\ (List.length rows <= 1)%nat
                   /\ Forall (logged_by [c]) rows).
Proof.
  cbv zeta.
  assert (Hid : forall l : list MaintenanceRequest,
             l = map (fun x => if mr_id x =? call_id c then x else x) l).
  { intros l. induction l as [|x l IH]; cbn; [reflexivity|].
    rewrite <- IH. now destruct (mr_id x =? call_id c). }
  assert (Hkeep : forall x, keeps_report x x) by (intros x; repeat split).
  assert (Hsame : users db = users db /\ properties db = properties db
                  /\ units db = units db /\ leases db = leases db
                  /\ payments db = payments db /\ auditLogs db = auditLogs db
                  /\ (exists f, (forall x, keeps_report x (f x))
                                /\ maintenanceRequests db
                                   = map (fun x => if mr_id x =? call_id c then f x else x)
                                         (maintenanceRequests db))
                  /\ (exists rows, maintenanceUpdates db = maintenanceUpdates db ++ rows
                                   /\ (List.length rows <= 1)%nat
                                   /\ Forall (logged_by [c]) rows)).
  { repeat split. - exists (fun x => x). split; [exact Hkeep|apply Hid].
    - exists []. rewrite app_nil_r. repeat split; [cbn; lia|constructor]. }
  assert (Hpatch : forall d sd a co x, keeps_report x (patch_request d sd a co x))
    by (intros; repeat split).
  destruct c as [[user|] id body now|[user|] id body now];
    cbn [landlord_call call_id call_session call_time] in *; try exact Hsame.
  - rewrite PUT_run.
    destruct (access user id db) as [| | |existing]; try exact Hsame.
    destruct (updateMaintenanceRequestSchema body) as [data|[|i errs]]; try exact Hsame.
    cbv zeta.
    destruct (ud_scheduledDate _) as [[ms|]|]; try exact Hsame.
    all: cbn [snd]; destruct (LandlordMaintenanceId.statusChanged data existing);
      unfold append_update, patch_table; cbn;
      repeat split;
      try (eexists; split; [apply Hpatch|reflexivity]).
    all: try (exists []; rewrite app_nil_r; repeat split; [cbn; lia|constructor]).
    all: eexists [_]; repeat split; [cbn; lia|].
    all: constructor; [|constructor].
    all: eexists _, user; split; [now left|repeat split].
  - rewrite POST_run.
    destruct (access user id db) as [| | |existing]; try exact Hsame.
    destruct (addMaintenanceUpdateSchema body) as [data|[|i errs]]; try exact Hsame.
    cbv zeta. cbn [snd].
    assert (Hrow : Forall (logged_by [PostCall (Some user) id body now])
                     [comment_row (cuid (nextId db)) id existing data
                        (session_id user) now]).
    { constructor; [|constructor]. eexists _, user; split; [now left|repeat split]. }
    destruct (au_newStatus data) as [s|];
      [destruct (MaintenanceStatus_beq s (mr_status existing))|];
      unfold append_update, patch_table; cbn; repeat split.
    all: try (exists (fun x => x); split; [exact Hkeep|apply Hid]).
    all: try (eexists; split; [apply Hpatch|reflexivity]).
    all: eexists [_]; repeat split; [cbn; lia|exact Hrow].
Qed.

Lemma Forall2_map_self {A} (R : A -> A -> Prop) (g : A -> A) (l : list A) :
  (forall x, R x (g x)) -> Forall2 R l (map g l).
Proof. intros H. induction l; cbn; constructor; auto. Qed.

Lemma Forall2_compose {A} (R : A -> A -> Prop) (l1 l2 l3 : list A) :
  (forall x y z, R x y -> R y z -> R x z) ->
  Forall2 R l1 l2 -> Forall2 R l2 l3 -> Forall2 R l1 l3.
Proof.
  intros Ht H12. revert l3. induction H12; intros l3 H23; inversion H23; subst;
    constructor; eauto.
Qed.

Lemma keeps_report_trans x y z : keeps_report x y -> keeps_report y z -> keeps_report x z.
Proof. unfold keeps_report. intuition congruence. Qed.

Lemma logged_by_more c calls row : logged_by calls row -> logged_by (c :: calls) row.
Proof.
  intros (c' & user & Hin & H). exists c', user. split; [now right|exact H].
Qed.

(** X7.  Whatever calls of PUT and POST are made on the landlord's route, by
    whomever and with whatever bodies, no maintenance request is created or
    deleted, the requests keep their order, and each keeps what the tenant
    reported: its id, tenant, unit, title, description, category, entry
    permission, preferred times, photos and creation time. *)
Theorem reports_never_rewritten (calls : list LandlordCall) (db : Database) :
  Forall2 keeps_report (maintenanceRequests db)
          (maintenanceRequests (landlord_calls calls db)).
Proof.
  revert db. induction calls as [|c calls IH]; intros db.
  - cbn. induction (maintenanceRequests db); constructor; [repeat split|assumption].
  - change (landlord_calls (c :: calls) db)
      with (landlord_calls calls (landlord_call c db)).
    apply Forall2_compose with (maintenanceRequests (landlord_call c db));
      [exact keeps_report_trans| |apply IH].
    destruct (landlord_call_tables c db) as (_ & _ & _ & _ & _ & _ & (f & Hf & ->) & _).
    apply Forall2_map_self. intros x. destruct (mr_id x =? call_id c); [apply Hf|].
    repeat split.
Qed.

(** X8.  The update log only grows under the landlord's calls: the rows it
    held stay as they were and in place, each call appends at most one
    row, and every row appended is for the request of one of the calls, at
    the time of that call and in the name of its caller. *)
Theorem update_log_append_only (calls : list LandlordCall) (db : Database) :
  exists rows,
    maintenanceUpdates (landlord_calls calls db) = maintenanceUpdates db ++ rows
    /\ (List.length rows <= List.length calls)%nat
    /\ Forall (logged_by calls) rows.
Proof.
  revert db. induction calls as [|c calls IH]; intros db.
  - exists []. rewrite app_nil_r. split; [reflexivity|]. split; [cbn; lia|constructor].
  - change (landlord_calls (c :: calls) db)
      with (landlord_calls calls (landlord_call c db)).
    destruct (landlord_call_tables c db)
      as (_ & _ & _ & _ & _ & _ & _ & (rows1 & H1 & Hl1 & Hby1)).
    destruct (IH (landlord_call c db)) as (rows2 & H2 & Hl2 & Hby2).
    exists (rows1 ++ rows2). rewrite H2, H1, <- app_assoc. split; [reflexivity|].
    split; [rewrite length_app; cbn [List.length]; lia|].
    apply Forall_app. split.
    + eapply Forall_impl; [|exact Hby1]. intros row (c' & user & [<-|[]] & H).
      exists c, user. split; [now left|exact H].
    + eapply Forall_impl; [|exact Hby2]. intros row. apply logged_by_more.
Qed.

(** X9.  One call of PUT or POST for a request changes no other request,
    and no table besides the requests and the update log. *)
Theorem landlord_call_touches_one_request (c : LandlordCall) (db : Database) :
  let db' := landlord_call c db in
  Forall2 (fun r r' => mr_id r <> call_id c -> r' = r)
          (maintenanceRequests db) (maintenanceRequests db')
  /\ users db' = users db /\ properties db' = properties db /\ units db' = units db
  /\ leases db' = leases db /\ payments db' = payments db
  /\ auditLogs db' = auditLogs db.
Proof.
  cbv zeta.
  destruct (landlord_call_tables c db)
    as (Hu & Hp & Hun & Hl & Hpay & Ha & (f & _ & ->) & _).
  split; [|repeat split; assumption].
  apply Forall2_map_self. intros x Hne.
  apply String.eqb_neq in Hne. now rewrite Hne.
Qed.

End LandlordWrites.

(* ===================================================================== *)
(** * Writing and reading back *)
(* ===================================================================== *)

Section RoundTrips.

Context {E : Externals}.

Lemma access_after_write user id db db' existing r' :
  access user id db = Granted existing ->
  maintenanceRequest_findUnique id db' = Some r' ->
  mr_unitId r' = mr_unitId existing ->
  units db' = units db -> properties db' = properties db ->
  access user id db' = Granted r'.
Proof.
  intros Ha Hf Hunit Hu Hp. pose proof (access_granted _ _ _ _ Ha) as Hx.
  unfold access in *. rewrite Hf, Hunit. rewrite Hx in Ha.
  unfold unit_findUnique, property_findUnique in *. rewrite Hu.
  destruct (find _ (units db)) as [u|]; [|discriminate]. rewrite Hp.
  destruct (find _ (properties db)) as [p|]; [|discriminate].
  destruct (not_owner_nor_admin _ user); [discriminate|reflexivity].
Qed.

Lemma find_own_id id db r :
  maintenanceRequest_findUnique id db = Some r -> mr_id r = id.
Proof.
  intros Hf. destruct (find_some _ _ Hf) as [_ Hid]. now apply String.eqb_eq.
Qed.

(** X10.  A successful PUT is read back: a GET of the same request by the
    same caller on the database PUT left answers 200 with the very row
    that PUT returned, and the tenant who filed the request reads that row
    as well. *)
Theorem PUT_then_GET user id body now db :
  let put := LandlordMaintenanceId.PUT (Some user) id body now db in
  status (fst put) = 200%Z ->
  exists r',
    data (fst put) = Some (RequestRow r')
    /\ LandlordMaintenanceId.GET (Some user) id (snd put)
       = (json_ok 200 (Some (RequestDetail r' (include_updates id (snd put)))) None,
          snd put)
    /\ forall tenant, session_id tenant = mr_tenantId r' ->
         TenantMaintenanceId.GET (Some tenant) id (snd put)
         = (json_ok 200
              (Some (TenantRequestDetail r'
                       (map select_update (include_public_updates id (snd put)))))
              None, snd put).
Proof.
  cbv zeta. rewrite PUT_run.
  destruct (access user id db) as [| | |existing] eqn:Ha; try discriminate.
  destruct (updateMaintenanceRequestSchema body) as [parsed|[|i errs]]; try discriminate.
  cbv zeta.
  set (d := LandlordMaintenanceId.updateData parsed existing now).
  assert (Hf : maintenanceRequest_findUnique id db = Some existing)
    by now apply access_granted with user.
  assert (Hfind : forall db0, maintenanceRequest_findUnique id db0 = Some existing ->
            maintenanceRequest_findUnique id (patch_table id d db0)
            = Some (patch_request d (stored (ud_scheduledDate d))
                      (stored (ud_acknowledgedAt d)) (stored (ud_completedAt d))
                      existing)).
  { intros db0 H0. rewrite find_patch_table, H0. cbn [option_map].
    apply find_own_id in H0. apply String.eqb_eq in H0. now rewrite H0. }
  assert (Hread : forall db', maintenanceRequest_findUnique id db'
                    = Some (patch_request d (stored (ud_scheduledDate d))
                              (stored (ud_acknowledgedAt d)) (stored (ud_completedAt d))
                              existing) ->
                  units db' = units db -> properties db' = properties db ->
                  exists r',
                    Some (RequestRow (patch_request d (stored (ud_scheduledDate d))
                              (stored (ud_acknowledgedAt d)) (stored (ud_completedAt d))
                              existing)) = Some (RequestRow r')
                    /\ LandlordMaintenanceId.GET (Some user) id db'
                       = (json_ok 200 (Some (RequestDetail r' (include_updates id db')))
                                  None, db')
                    /\ forall tenant, session_id tenant = mr_tenantId r' ->
                         TenantMaintenanceId.GET (Some tenant) id db'
                         = (json_ok 200
                              (Some (TenantRequestDetail r'
                                       (map select_update
                                            (include_public_updates id db'))))
                              None, db')).
  { intros db' Hf' Hu Hp. eexists. split; [reflexivity|]. split.
    - rewrite GET_run.
      rewrite (access_after_write user id db db' existing _ Ha Hf' eq_refl Hu Hp).
      reflexivity.
    - intros tenant Ht. rewrite tenant_GET_run, Hf'. cbn [mr_tenantId] in *.
      rewrite <- Ht, String.eqb_refl. reflexivity. }
  destruct (ud_scheduledDate d) as [[ms|]|] eqn:Hsd; try discriminate.
  all: intros _; cbn [fst snd data json_ok].
  all: destruct (LandlordMaintenanceId.statusChanged parsed existing).
  all: apply Hread; try reflexivity.
  all: rewrite ?find_append_update; apply Hfind; exact Hf.
Qed.

(** X11.  A note that POST adds with [isPublic] false is internal: what
    the tenant's views show of the updates of any request is the same
    before and after, while the landlord's GET of the request answers 200
    and lists the note. *)
Theorem internal_note_hidden_from_tenant user id body now db input :
  addMaintenanceUpdateSchema body = Zod.ParseOk input ->
  au_isPublic input = false ->
  let post := LandlordMaintenanceId.POST (Some user) id body now db in
  status (fst post) = 201%Z ->
  (forall requestId,
      include_public_updates requestId (snd post) = include_public_updates requestId db)
  /\ exists note r',
       data (fst post) = Some (UpdateRow note)
       /\ mu_message note = au_message input /\ mu_isPublic note = false
       /\ In note (include_updates id (snd post))
       /\ LandlordMaintenanceId.GET (Some user) id (snd post)
          = (json_ok 200 (Some (RequestDetail r' (include_updates id (snd post)))) None,
             snd post).
Proof.
  intros Hparse Hprivate. cbv zeta. rewrite POST_run.
  destruct (access user id db) as [| | |existing] eqn:Ha; try discriminate.
  rewrite Hparse. cbv zeta. intros _. cbn [fst snd data json_ok].
  set (note := comment_row (cuid (nextId db)) id existing input (session_id user) now).
  assert (Hf : maintenanceRequest_findUnique id db = Some existing)
    by now apply access_granted with user.
  assert (Hlog : forall db', maintenanceUpdates db' = maintenanceUpdates db ++ [note] ->
            (forall requestId,
                include_public_updates requestId db' = include_public_updates requestId db)
            /\ In note (include_updates id db')).
  { intros db' Hl. split.
    - intros requestId. unfold include_public_updates, updates_of.
      rewrite Hl, !filter_app. cbn [filter].
      destruct (mu_requestId note =? requestId); cbn [filter];
        [cbn [mu_isPublic note comment_row]; rewrite Hprivate|];
        now rewrite app_nil_r.
    - unfold include_updates, updates_of. apply orderBy_In, filter_In.
      rewrite Hl. split; [apply in_or_app; right; now left|].
      cbn. apply String.eqb_refl. }
  assert (Hget : forall db' r', maintenanceRequest_findUnique id db' = Some r' ->
            mr_unitId r' = mr_unitId existing ->
            units db' = units db -> properties db' = properties db ->
            LandlordMaintenanceId.GET (Some user) id db'
            = (json_ok 200 (Some (RequestDetail r' (include_updates id db'))) None, db')).
  { intros db' r' Hf' Hunit Hu Hp. rewrite GET_run.
    now rewrite (access_after_write user id db db' existing r' Ha Hf' Hunit Hu Hp). }
  destruct (au_newStatus input) as [s|];
    [destruct (MaintenanceStatus_beq s (mr_status existing))|].
  all: match goal with
       | |- context [patch_table ?i ?d ?db0] =>
           destruct (Hlog (patch_table i d db0) eq_refl) as [Hpub Hin]
       | |- _ => destruct (Hlog (append_update note db) eq_refl) as [Hpub Hin]
       end.
  all: split; [exact Hpub|].
  all: exists note; eexists; split; [reflexivity|]; split; [reflexivity|];
    split; [exact Hprivate|]; split; [exact Hin|].
  all: pose proof (find_own_id _ _ _ Hf) as Hid; apply String.eqb_eq in Hid.
  all: eapply Hget;
    [rewrite ?find_patch_table, ?find_append_update, ?Hf; cbn [option_map];
     rewrite ?Hid; reflexivity
    |reflexivity..].
Qed.

Lemma find_app_none {A} (p : A -> bool) (l l' : list A) :
  find p l = None -> find p (l ++ l') = find p l'.
Proof.
  induction l as [|x l IH]; cbn; [reflexivity|].
  destruct (p x); [discriminate|exact IH].
Qed.

(** X12.  A maintenance request that POST created, under an id that no
    request had, is read back: its tenant's GET answers 200 with the row
    that POST returned, every other tenant gets 403, the tenant's list
    shows it, and the landlord who owns the property of its unit reads it
    with a 200. *)
Theorem created_request_read_back user body now db r :
  let post := TenantMaintenance.POST (Some user) body now db in
  data (fst post) = Some (RequestRow r) ->
  maintenanceRequest_findUnique (mr_id r) db = None ->
  TenantMaintenanceId.GET (Some user) (mr_id r) (snd post)
  = (json_ok 200
       (Some (TenantRequestDetail r
                (map select_update (include_public_updates (mr_id r) (snd post)))))
       None, snd post)
  /\ (forall other, session_id other <> session_id user ->
         TenantMaintenanceId.GET (Some other) (mr_id r) (snd post)
         = (json_error 403 "Forbidden", snd post))
  /\ (exists requests,
         data (fst (TenantMaintenance.GET (Some user) None (snd post)))
         = Some (RequestList requests)
         /\ In r (map fst requests))
  /\ (forall landlord unit property,
         unit_findUnique (mr_unitId r) db = Some unit ->
         property_findUnique (unit_propertyId unit) db = Some property ->
         property_ownerId property = session_id landlord ->
         LandlordMaintenanceId.GET (Some landlord) (mr_id r) (snd post)
         = (json_ok 200 (Some (RequestDetail r (include_updates (mr_id r) (snd post))))
                    None, snd post)).
Proof.
  cbv zeta. rewrite tenant_POST_run.
  destruct (createMaintenanceRequestSchema body) as [parsed|[|i errs]];
    try discriminate.
  destruct (TenantMaintenance.lease_findFirst_active (session_id user) db)
    as [lease|]; [|discriminate].
  cbv zeta. cbn [fst snd data json_ok]. intros [= <-] Hfresh.
  set (row := TenantMaintenance.new_request (cuid (nextId db)) (session_id user)
                (lease_unitId lease) parsed now) in *.
  set (db' := set_maintenanceRequests (fun rows => rows ++ [row]) (bump_nextId db)).
  assert (Hf : maintenanceRequest_findUnique (mr_id row) db' = Some row).
  { unfold maintenanceRequest_findUnique in *. cbn.
    rewrite find_app_none by exact Hfresh. cbn. now rewrite String.eqb_refl. }
  split; [|split; [|split]].
  - rewrite tenant_GET_run, Hf. cbn [mr_tenantId row TenantMaintenance.new_request].
    now rewrite String.eqb_refl.
  - intros other Hother. rewrite tenant_GET_run, Hf.
    cbn [mr_tenantId row TenantMaintenance.new_request].
    apply not_eq_sym, String.eqb_neq in Hother. now rewrite Hother.
  - unfold TenantMaintenance.GET, enum_where. run_handler. cbn [fst data json_ok].
    eexists. split; [reflexivity|].
    rewrite map_map. cbn [fst]. rewrite map_id.
    apply orderBy_In, filter_In. split.
    + cbn. apply in_or_app. right. now left.
    + cbn. now rewrite String.eqb_refl.
  - intros landlord unit property Hu Hp Ho. rewrite GET_run. unfold access.
    rewrite Hf. change (unit_findUnique (mr_unitId row) db')
      with (unit_findUnique (mr_unitId row) db).
    rewrite Hu. change (property_findUnique (unit_propertyId unit) db')
      with (property_findUnique (unit_propertyId unit) db).
    rewrite Hp. unfold not_owner_nor_admin. rewrite Ho, String.eqb_refl. reflexivity.
Qed.

End RoundTrips.

(** Alice acknowledges Tina's request; both read the acknowledged row. *)
Lemma PUT_then_GET_witness :
  let put := LandlordMaintenanceId.PUT (E := Sample.externals) (Some Sample.alice) "r1"
               (JObj [("status", JStr "ACKNOWLEDGED")]) 50 Sample.db in
  exists r',
    data (fst put) = Some (RequestRow r')
    /\ LandlordMaintenanceId.GET (Some Sample.alice) "r1" (snd put)
       = (json_ok 200 (Some (RequestDetail r' (include_updates "r1" (snd put)))) None,
          snd put)
    /\ TenantMaintenanceId.GET (Some Sample.tina) "r1" (snd put)
       = (json_ok 200
            (Some (TenantRequestDetail r'
                     (map select_update (include_public_updates "r1" (snd put)))))
            None, snd put).
Proof.
  cbv zeta.
  destruct (@PUT_then_GET Sample.externals Sample.alice "r1"
              (JObj [("status", JStr "ACKNOWLEDGED")]) 50%Z Sample.db eq_refl)
    as (r' & Hdata & Hget & Htenant).
  exists r'. split; [exact Hdata|]. split; [exact Hget|].
  apply Htenant. vm_compute in Hdata. injection Hdata as <-. reflexivity.
Defined.

(** Alice leaves an internal note on Tina's request. *)
Lemma internal_note_hidden_from_tenant_witness :
  let body := JObj [("message", JStr "Ask the plumber for a quote");
                    ("isPublic", JBool false)] in
  let post := LandlordMaintenanceId.POST (E := Sample.externals) (Some Sample.alice) "r1"
                body 50 Sample.db in
  include_public_updates "r1" (snd post) = include_public_updates "r1" Sample.db
  /\ exists note, In note (include_updates "r1" (snd post))
                  /\ mu_message note = "Ask the plumber for a quote".
Proof.
  cbv zeta.
  destruct (@internal_note_hidden_from_tenant Sample.externals Sample.alice "r1"
              (JObj [("message", JStr "Ask the plumber for a quote");
                     ("isPublic", JBool false)]) 50%Z Sample.db
              {| au_message := "Ask the plumber for a quote"; au_newStatus := None;
                 au_isPublic := false; au_photoUrls := [] |}
              eq_refl eq_refl eq_refl)
    as (Hpub & note & r' & _ & Hmsg & _ & Hin & _).
  split; [apply Hpub|]. exists note. split; [exact Hin|exact Hmsg].
Defined.

(** Tina reports a leaking radiator and reads the request back. *)
Lemma created_request_read_back_witness :
  let post := TenantMaintenance.POST (E := Sample.externals) (Some Sample.tina)
                (Sample.request_body "Radiator" "The radiator in the hall leaks")
                60 Sample.db in
  exists r,
    data (fst post) = Some (RequestRow r)
    /\ TenantMaintenanceId.GET (Some Sample.tina) (mr_id r) (snd post)
       = (json_ok 200
            (Some (TenantRequestDetail r
                     (map select_update (include_public_updates (mr_id r) (snd post)))))
            None, snd post)
    /\ TenantMaintenanceId.GET (Some Sample.tom) (mr_id r) (snd post)
       = (json_error 403 "Forbidden", snd post).
Proof.
  cbv zeta.
  pose (r := match data (fst (TenantMaintenance.POST (E := Sample.externals)
                                (Some Sample.tina)
                                (Sample.request_body "Radiator"
                                   "The radiator in the hall leaks")
                                60%Z Sample.db)) with
             | Some (RequestRow r) => r
             | _ => Sample.request_row
             end).
  destruct (@created_request_read_back Sample.externals Sample.tina
              (Sample.request_body "Radiator" "The radiator in the hall leaks")
              60%Z Sample.db r eq_refl eq_refl)
    as (Hown & Hother & _).
  exists r. split; [reflexivity|]. split; [exact Hown|].
  apply Hother. discriminate.
Defined.

(* ===================================================================== *)
(** * After an onboarding submission *)
(* ===================================================================== *)

Section AfterOnboarding.

Context {E : Externals}.

(** The unit and the lease that a successful submission leaves behind. *)
Lemma onboarding_success user body forwardedFor now db input :
  completeOnboardingSchema body = Zod.ParseOk input ->
  status (fst (OnboardingSubmit.POST (Some user) body forwardedFor now db)) = 201%Z ->
  exists unit lease,
    unit_findUnique (ob_unitId input) db = Some unit
    /\ unit_findUnique (ob_unitId input)
         (snd (OnboardingSubmit.POST (Some user) body forwardedFor now db))
       = Some (OnboardingSubmit.reserved unit)
    /\ In (OnboardingSubmit.reserved unit)
          (units (snd (OnboardingSubmit.POST (Some user) body forwardedFor now db)))
    /\ In lease (leases (snd (OnboardingSubmit.POST (Some user) body forwardedFor now db)))
    /\ lease_unitId lease = ob_unitId input
    /\ lease_status lease = PENDING_SIGNATURE.
Proof.
  intros Hparse. rewrite onboarding_POST_run, Hparse.
  destruct (unit_findUnique (ob_unitId input) db) as [unit|] eqn:Hu; [|discriminate].
  destruct (negb (UnitStatus_beq (unit_status unit) VACANT)); [discriminate|].
  destruct (newDate (ob_dateOfBirth input)) as [dob|]; [|discriminate].
  destruct (user_findUnique (session_id user) db) as [u|]; [|discriminate].
  destruct (newDate (ob_moveInDate input)) as [start|]; [|discriminate].
  intros _. cbn [snd].
  assert (Hf : unit_findUnique (ob_unitId input)
                 (onboarded user input unit dob start
                            (OnboardingSubmit.clientIp forwardedFor) now db)
               = Some (OnboardingSubmit.reserved unit)).
  { unfold unit_findUnique in *. cbn [units onboarded].
    rewrite find_map_preserving, Hu.
    - cbn [option_map]. destruct (find_some _ _ Hu) as [_ Hid]. now rewrite Hid.
    - intros x. destruct (unit_id x =? ob_unitId input) eqn:Ex; cbn; now rewrite ?Ex. }
  exists unit. eexists. split; [reflexivity|]. split; [exact Hf|].
  split; [exact (proj1 (find_some _ _ Hf))|].
  split; [cbn [leases onboarded]; apply in_or_app; right; left; reflexivity|].
  split; reflexivity.
Qed.


(** X14.  A unit that a submission has reserved cannot be deleted: DELETE
    of the unit, and DELETE of its property, are refused with a status in
    the 400 class and delete nothing, whoever calls them. *)
Theorem reserved_unit_not_deleted user body forwardedFor now db input :
  completeOnboardingSchema body = Zod.ParseOk input ->
  let first := OnboardingSubmit.POST (Some user) body forwardedFor now db in
  status (fst first) = 201%Z ->
  (forall session propertyId,
      rejected (snd first)
               (LandlordUnit.DELETE session propertyId (ob_unitId input) (snd first)))
  /\ (forall session unit,
         unit_findUnique (ob_unitId input) db = Some unit ->
         rejected (snd first)
                  (LandlordProperty.DELETE session (unit_propertyId unit) (snd first))).
Proof.
  intros Hparse. cbv zeta. intros H201.
  destruct (onboarding_success user body forwardedFor now db input Hparse H201)
    as (unit & lease & Hu & Hf & Hin & Hl & Hlu & Hls).
  set (db' := snd (OnboardingSubmit.POST (Some user) body forwardedFor now db)) in *.
  assert (Hblocked : ~ free_of_leases (ob_unitId input) db').
  { intros Hfree. apply (Hfree lease Hl Hlu). now right. }
  split.
  - intros [caller|] propertyId; [|apply rejected_error; lia].
    destruct (unit_DELETE_outcome caller propertyId (ob_unitId input) db')
      as [Hrej|Hok]; cbv zeta in *; [exact Hrej|].
    destruct Hok as (p & u & _ & _ & _ & _ & Hfree & _). contradiction.
  - intros [caller|] unit0 Hu0; [|apply rejected_error; lia].
    rewrite Hu in Hu0. injection Hu0 as <-.
    destruct (property_DELETE_outcome caller (unit_propertyId unit) db')
      as [Hrej|Hok]; cbv zeta in *; [exact Hrej|].
    destruct Hok as (p & _ & _ & Hv & _). exfalso. apply Hblocked.
    destruct (find_some _ _ Hu) as [_ Hid]. apply String.eqb_eq in Hid.
    rewrite <- Hid. apply (Hv (OnboardingSubmit.reserved unit) Hin). reflexivity.
Qed.

End AfterOnboarding.


(** After Tom has booked unit u2, Alice can delete neither u2 nor Elm Court. *)
Lemma reserved_unit_not_deleted_witness :
  let first := OnboardingSubmit.POST (E := Sample.externals) (Some Sample.tom)
                 (Sample.onboarding_body "u2" "2025-01-01") None 70 Sample.db in
  rejected (snd first) (LandlordUnit.DELETE (Some Sample.alice) "p1" "u2" (snd first))
  /\ rejected (snd first) (LandlordProperty.DELETE (Some Sample.alice) "p1" (snd first)).
Proof.
  cbv zeta.
  destruct (@reserved_unit_not_deleted Sample.externals Sample.tom
              (Sample.onboarding_body "u2" "2025-01-01") None 70%Z Sample.db
              (Sample.onboarding_input "u2" "2025-01-01") eq_refl eq_refl)
    as [Hunit Hproperty].
  split; [apply Hunit|].
  apply (Hproperty (Some Sample.alice) (Sample.unit_row "u2" "1B" VACANT)).
  reflexivity.
Defined.

(* ===================================================================== *)
(** * The client address recorded with a signature *)
(* ===================================================================== *)

Lemma trimStart_In c s : In c (list_ascii_of_string (trimStart s)) ->
                         In c (list_ascii_of_string s).
Proof.
  induction s as [|a s IH]; cbn; [auto|].
  destruct (is_space a); cbn; auto.
Qed.

Lemma trimEnd_In c s : In c (list_ascii_of_string (trimEnd s)) ->
                       In c (list_ascii_of_string s).
Proof.
  induction s as [|a s IH]; cbn; [auto|].
  destruct (trimEnd s) as [|b t]; cbn in *.
  - destruct (is_space a); cbn; [contradiction|]. intros [H|[]]. now left.
  - intros [H|H]; [now left|right; now apply IH].
Qed.

Lemma before_comma_free s : comma_free (before_comma s).
Proof.
  unfold comma_free. induction s as [|a s IH]; cbn; [contradiction|].
  destruct (Ascii.eqb a ",") eqn:Ha; cbn; [contradiction|].
  intros c [<-|H]; [|now apply IH].
  now apply Ascii.eqb_neq.
Qed.

Lemma trimEnd_trimEnd s : trimEnd (trimEnd s) = trimEnd s.
Proof.
  induction s as [|a s IH]; cbn; [reflexivity|].
  destruct (trimEnd s) as [|b t] eqn:Ht.
  - destruct (is_space a) eqn:Ha; cbn; [reflexivity|]. now rewrite Ha.
  - cbn [trimEnd] in *. fold trimEnd in *. now rewrite IH.
Qed.

Lemma trimStart_head s :
  trimStart s = EmptyString
  \/ exists a t, trimStart s = String a t /\ is_space a = false.
Proof.
  induction s as [|a s IH]; cbn; [now left|].
  destruct (is_space a) eqn:Ha; [exact IH|]. right. now exists a, s.
Qed.

Lemma trimStart_trimEnd a t :
  is_space a = false -> trimStart (trimEnd (String a t)) = trimEnd (String a t).
Proof.
  intros Ha. cbn [trimEnd]. destruct (trimEnd t); rewrite ?Ha; cbn [trimStart];
    now rewrite Ha.
Qed.

Lemma trim_trim s : trim (trim s) = trim s.
Proof.
  unfold trim. destruct (trimStart_head s) as [->|(a & t & -> & Ha)]; [reflexivity|].
  rewrite trimStart_trimEnd by exact Ha. apply trimEnd_trimEnd.
Qed.

(** X15.  The client address recorded with a submission never has a comma
    in it and never white space at either end (trimming it again changes
    nothing); without the header, or with an empty one, it is 'unknown'. *)
Theorem clientIp_clean (forwardedFor : option string) :
  comma_free (OnboardingSubmit.clientIp forwardedFor)
  /\ trim (OnboardingSubmit.clientIp forwardedFor) = OnboardingSubmit.clientIp forwardedFor
  /\ (if_truthy forwardedFor = None ->
      OnboardingSubmit.clientIp forwardedFor = "unknown").
Proof.
  assert (Hunknown : comma_free "unknown").
  { intros c Hin ->. cbn in Hin. intuition discriminate. }
  unfold OnboardingSubmit.clientIp, if_truthy.
  destruct forwardedFor as [h|]; [destruct (truthy h)|];
    repeat split; try reflexivity; try exact Hunknown; try discriminate.
  - intros c Hin. apply (before_comma_free h).
    now apply trimStart_In, trimEnd_In.
  - apply trim_trim.
Qed.

Lemma list_ascii_of_append (a b : string) :
  list_ascii_of_string (a ++ b)%string
  = list_ascii_of_string a ++ list_ascii_of_string b.
Proof. induction a as [|c a IH]; cbn; [reflexivity|now rewrite IH]. Qed.

Lemma append_assoc_string (a b c : string) :
  ((a ++ b) ++ c = a ++ b ++ c)%string.
Proof. induction a as [|x a IH]; cbn; [reflexivity|now rewrite IH]. Qed.

Lemma before_comma_app a rest :
  comma_free a -> before_comma (a ++ String "," rest)%string = a.
Proof.
  unfold comma_free. induction a as [|c a IH]; cbn; intros H; [reflexivity|].
  destruct (Ascii.eqb c ",") eqn:Hc.
  - apply Ascii.eqb_eq in Hc. exfalso. apply (H c); [now left|exact Hc].
  - rewrite IH; [reflexivity|]. intros c' Hin. apply H. now right.
Qed.

Lemma trimStart_blank pad s : blank pad -> trimStart (pad ++ s)%string = trimStart s.
Proof.
  unfold blank. induction pad as [|c pad IH]; cbn; intros H; [reflexivity|].
  rewrite (H c) by now left. apply IH. intros c' Hin. apply H. now right.
Qed.

Lemma trimEnd_blank pad : blank pad -> trimEnd pad = EmptyString.
Proof.
  unfold blank. induction pad as [|c pad IH]; cbn; intros H; [reflexivity|].
  rewrite IH by (intros c' Hin; apply H; now right).
  now rewrite (H c) by now left.
Qed.

Lemma trimEnd_solid a pad :
  (forall c, In c (list_ascii_of_string a) -> is_space c = false) ->
  blank pad -> trimEnd (a ++ pad)%string = a.
Proof.
  intros Ha Hpad. induction a as [|c a IH]; cbn.
  - now apply trimEnd_blank.
  - rewrite IH by (intros c' Hin; apply Ha; now right).
    destruct a; [|reflexivity].
    now rewrite (Ha c) by now left.
Qed.

(** X16.  When the header lists addresses separated by commas, the address
    recorded is the first of the list, without the white space around it. *)
Theorem clientIp_first_address (before first after rest : string) :
  blank before -> address first -> blank after ->
  OnboardingSubmit.clientIp (Some (before ++ first ++ after ++ String "," rest)%string)
  = first
  /\ OnboardingSubmit.clientIp (Some (before ++ first ++ after)%string) = first.
Proof.
  intros Hb [Hne Ha] Haf.
  assert (Hsolid : forall c, In c (list_ascii_of_string first) -> is_space c = false)
    by (intros c Hin; now apply Ha).
  assert (Hstart : forall s, trimStart (first ++ s)%string = (first ++ s)%string).
  { intros s. destruct first as [|c t]; [contradiction|]. cbn.
    now rewrite (Hsolid c) by now left. }
  assert (Htrim : trim (before ++ first ++ after)%string = first).
  { unfold trim. rewrite trimStart_blank by exact Hb. rewrite Hstart.
    now apply trimEnd_solid. }
  assert (Htruthy : forall s, truthy (before ++ first ++ s)%string = true).
  { intros s. unfold truthy. apply negb_true_iff, String.eqb_neq.
    destruct before; cbn; [|discriminate].
    destruct first; [contradiction|discriminate]. }
  assert (Hfree : comma_free (before ++ first ++ after)%string).
  { intros c Hin. rewrite !list_ascii_of_append in Hin.
    apply in_app_or in Hin. destruct Hin as [Hin|Hin].
    - apply Hb in Hin. intros ->. discriminate Hin.
    - apply in_app_or in Hin. destruct Hin as [Hin|Hin]; [now apply Ha|].
      apply Haf in Hin. intros ->. discriminate Hin. }
  unfold OnboardingSubmit.clientIp. rewrite !Htruthy. split.
  - replace (before ++ first ++ after ++ String "," rest)%string
      with ((before ++ first ++ after) ++ String "," rest)%string
      by now rewrite !append_assoc_string.
    now rewrite before_comma_app.
  - assert (Hnone : forall s, comma_free s -> before_comma s = s).
    { induction s as [|c s IH]; cbn; intros H; [reflexivity|].
      destruct (Ascii.eqb c ",") eqn:Hc.
      - apply Ascii.eqb_eq in Hc. exfalso. apply (H c); [now left|exact Hc].
      - rewrite IH; [reflexivity|]. intros c' Hin. apply H. now right. }
    now rewrite Hnone.
Qed.

(** A header of two addresses with blanks after the comma and around the
    first address. *)
Lemma clientIp_first_address_witness :
  OnboardingSubmit.clientIp (Some " 203.0.113.7 , 198.51.100.2") = "203.0.113.7".
Proof.
  refine (proj1 (clientIp_first_address " " "203.0.113.7" " " " 198.51.100.2" _ _ _)).
  - intros c [<-|[]]. reflexivity.
  - split; [discriminate|]. intros c Hin. cbn in Hin.
    repeat (destruct Hin as [<-|Hin]; [split; [reflexivity|discriminate]|]).
    contradiction.
  - intros c [<-|[]]. reflexivity.
Defined.

(* ===================================================================== *)
(** * Tenant payments: refusals and side effects *)
(* ===================================================================== *)

Section PaymentEffects.

Context {E : Externals}.

(** The tables besides the payments after POST /api/tenant/payments. *)
Lemma payments_POST_tables user body now db :
  let result := TenantPayments.POST (Some user) body now db in
  properties (snd result) = properties db /\ units (snd result) = units db
  /\ leases (snd result) = leases db
  /\ maintenanceRequests (snd result) = maintenanceRequests db
  /\ maintenanceUpdates (snd result) = maintenanceUpdates db
  /\ auditLogs (snd result) = auditLogs db
  /\ (users (snd result) = users db
      \/ exists row customerId,
           user_findUnique (session_id user) db = Some row
           /\ if_truthy (user_stripeCustomerId row) = None
           /\ users (snd result)
              = map (fun u => if user_id u =? session_id user
                              then with_stripeCustomerId customerId u else u)
                    (users db)).
Proof.
  cbv zeta.
  unfold TenantPayments.POST, TenantPayments.payment_create,
    TenantPayments.user_set_stripeCustomerId,
    Stripe.getOrCreateStripeCustomer, Stripe.createPaymentIntent,
    TenantPayments.optional_date, TenantPayments.is_none.
  run_handler.
  destruct (createPaymentSchema body) as [input|[|i errs]];
    try (repeat split; left; reflexivity).
  destruct (lease_findUnique (cp_leaseId input) db) as [lease|] eqn:Hl;
    [|repeat split; left; reflexivity].
  destruct (lease_tenantId lease =? session_id user) eqn:Ht; cbn [negb];
    [|repeat split; left; reflexivity].
  destruct (user_findUnique (session_id user) db) as [row|] eqn:Hu;
    [|repeat split; left; reflexivity].
  pose proof (find_some _ _ Hu) as [_ Hid]. apply String.eqb_eq in Hid.
  rewrite Hid.
  repeat match goal with
  | |- context [match ?x with _ => _ end] =>
      match x with
      | context [match _ with _ => _ end] => fail 1
      | _ => destruct x eqn:?
      end; cbv beta iota zeta
  end.
  all: cbn [snd users properties units leases maintenanceRequests maintenanceUpdates
            auditLogs set_users set_payments bump_nextId].
  all: repeat (split; [reflexivity|]).
  all: first [ left; reflexivity
             | right; eexists row, _; split; [reflexivity|]; split; [|reflexivity] ].
  all: cbv [if_truthy] in *;
    repeat match goal with
           | H : truthy ?s = _, H' : context [truthy ?s] |- _ =>
               lazymatch H' with H => fail | _ => rewrite H in H' end
           | H : Some _ = Some _ |- _ => injection H as <-
           | H : Some _ = None |- _ => discriminate H
           | H : None = Some _ |- _ => discriminate H
           end;
    repeat match goal with
           | H : ?x = _ |- context [?x] => rewrite H
           end; try reflexivity; try eassumption.
Qed.

(** X17.  A tenant cannot pay on a lease that is not theirs: for a body
    that names a lease of another tenant the answer is 403, for one that
    names no lease 404, and in both cases nothing is written. *)
Theorem tenant_payment_refused user body now db input :
  createPaymentSchema body = Zod.ParseOk input ->
  match lease_findUnique (cp_leaseId input) db with
  | None =>
      TenantPayments.POST (Some user) body now db = (json_error 404 "Lease not found", db)
  | Some lease =>
      lease_tenantId lease <> session_id user ->
      TenantPayments.POST (Some user) body now db = (json_error 403 "Forbidden", db)
  end.
Proof.
  intros Hparse. unfold TenantPayments.POST. run_handler. rewrite Hparse.
  destruct (lease_findUnique (cp_leaseId input) db) as [lease|]; [|reflexivity].
  intros Hne. apply String.eqb_neq in Hne. now rewrite Hne.
Qed.

(** X18.  Besides the payment row, POST /api/tenant/payments writes at
    most the gateway customer id of the caller: every other table is as
    before, every user row keeps its profile, rows of other users are
    untouched, and a customer id that the caller already has is never
    replaced. *)
Theorem tenant_payment_side_effects user body now db :
  let result := TenantPayments.POST (Some user) body now db in
  properties (snd result) = properties db /\ units (snd result) = units db
  /\ leases (snd result) = leases db
  /\ maintenanceRequests (snd result) = maintenanceRequests db
  /\ maintenanceUpdates (snd result) = maintenanceUpdates db
  /\ auditLogs (snd result) = auditLogs db
  /\ Forall2 (fun u u' => keeps_profile u u' /\ (user_id u <> session_id user -> u' = u))
             (users db) (users (snd result))
  /\ (forall row, user_findUnique (session_id user) db = Some row ->
                  if_truthy (user_stripeCustomerId row) <> None ->
                  users (snd result) = users db).
Proof.
  cbv zeta.
  destruct (payments_POST_tables user body now db)
    as (Hp & Hu & Hl & Hr & Hm & Ha & Husers).
  cbv zeta in *. repeat (split; [assumption|]).
  destruct Husers as [->|(row & customerId & Hrow & Hnone & ->)].
  - split; [|reflexivity].
    induction (users db); constructor; [|assumption].
    split; [now left|reflexivity].
  - split.
    + apply Forall2_map_self. intros x.
      destruct (user_id x =? session_id user) eqn:Hx.
      * split; [right; now exists customerId|].
        apply String.eqb_eq in Hx. contradiction.
      * split; [now left|reflexivity].
    + intros row' Hrow' Hsome. congruence.
Qed.

End PaymentEffects.

(* ===================================================================== *)
(** * The amount in cents, on Number values *)
(* ===================================================================== *)

Section Cents.

Local Open Scope Q_scope.

Lemma round_half_even_near (x : Q) :
  x - (1 # 2) <= inject_Z (round_half_even x) <= x + (1 # 2).
Proof.
  unfold round_half_even.
  pose proof (Qfloor_le x) as Hle. pose proof (Qlt_floor x) as Hlt.
  rewrite inject_Z_plus in Hlt. change (inject_Z 1) with 1 in Hlt.
  destruct (Qcompare_spec (x - inject_Z (Qfloor x)) (1 # 2)) as [He|Hc|Hc].
  - destruct (Z.even (Qfloor x)); rewrite ?inject_Z_plus;
      change (inject_Z 1) with 1; lra.
  - lra.
  - rewrite inject_Z_plus. change (inject_Z 1) with 1. lra.
Qed.

Lemma pow2_pos (e : Z) : 0 < (2 # 1) ^ e.
Proof. apply Qpower_0_lt. reflexivity. Qed.

Lemma pow2_Z (e : Z) : (0 <= e)%Z -> (2 # 1) ^ e == inject_Z (2 ^ e).
Proof. intros He. rewrite Zpower_Qpower by exact He. reflexivity. Qed.

Lemma Qdiv_le_cross (a b c d : Q) :
  0 < b -> 0 < d -> a * d <= c * b -> a / b <= c / d.
Proof.
  intros Hb Hd H. apply Qle_shift_div_r; [exact Hb|].
  assert (He : c / d * b == c * b / d) by (field; lra). rewrite He.
  apply Qle_shift_div_l; [exact Hd|exact H].
Qed.

Lemma Qdiv_lt_cross (a b c d : Q) :
  0 < b -> 0 < d -> a * d < c * b -> a / b < c / d.
Proof.
  intros Hb Hd H. apply Qlt_shift_div_r; [exact Hb|].
  assert (He : c / d * b == c * b / d) by (field; lra). rewrite He.
  apply Qlt_shift_div_l; [exact Hd|exact H].
Qed.

Lemma ilog2_spec (a : Q) :
  0 < a -> (2 # 1) ^ ilog2 a <= a /\ a < (2 # 1) ^ (ilog2 a + 1).
Proof.
  intros Ha. destruct a as [n d]. unfold ilog2. cbn [Qnum Qden].
  assert (Hn : (0 < n)%Z) by (unfold Qlt in Ha; cbn in Ha; lia).
  pose proof (Z.log2_spec n Hn) as [Hn1 Hn2].
  pose proof (Z.log2_spec (Z.pos d) eq_refl) as [Hd1 Hd2].
  pose proof (Z.log2_nonneg n) as Hln. pose proof (Z.log2_nonneg (Z.pos d)) as Hld.
  set (ln := Z.log2 n) in *. set (ld := Z.log2 (Z.pos d)) in *.
  assert (Hq : forall k : Z, (2 # 1) ^ (ln - ld + k)
                             == inject_Z (2 ^ ln) * (2 # 1) ^ k / inject_Z (2 ^ ld)).
  { intros k. replace (ln - ld + k)%Z with (ln + k - ld)%Z by lia.
    rewrite Qpower_minus, Qpower_plus by discriminate.
    rewrite (pow2_Z ln), (pow2_Z ld) by assumption. reflexivity. }
  assert (Hdpos : 0 < inject_Z (2 ^ ld)).
  { rewrite <- pow2_Z by assumption. apply pow2_pos. }
  assert (Hnpos : 0 < inject_Z (2 ^ ln)).
  { rewrite <- pow2_Z by assumption. apply pow2_pos. }
  assert (Hnd : n # d == inject_Z n / inject_Z (Z.pos d)) by apply Qmake_Qdiv.
  assert (Hdq : 0 < inject_Z (Z.pos d)) by reflexivity.
  assert (H0 : 0 < inject_Z n) by (rewrite <- (Zlt_Qlt 0); exact Hn).
  assert (H1 : inject_Z (2 ^ ln) <= inject_Z n) by (rewrite <- Zle_Qle; exact Hn1).
  assert (H2 : inject_Z n < inject_Z (2 ^ ln) * (2 # 1)).
  { rewrite Z.pow_succ_r, Z.mul_comm, Zlt_Qlt, inject_Z_mult in Hn2 by assumption.
    exact Hn2. }
  assert (H3 : inject_Z (2 ^ ld) <= inject_Z (Z.pos d))
    by (rewrite <- Zle_Qle; exact Hd1).
  assert (H4 : inject_Z (Z.pos d) < inject_Z (2 ^ ld) * (2 # 1)).
  { rewrite Z.pow_succ_r, Z.mul_comm, Zlt_Qlt, inject_Z_mult in Hd2 by assumption.
    exact Hd2. }
  set (N := inject_Z n) in *. set (D := inject_Z (Z.pos d)) in *.
  set (A := inject_Z (2 ^ ln)) in *. set (B := inject_Z (2 ^ ld)) in *.
  assert (Hlow : (2 # 1) ^ (ln - ld - 1) <= n # d).
  { replace (ln - ld - 1)%Z with (ln - ld + -1)%Z by lia. rewrite Hq, Hnd.
    change ((2 # 1) ^ (-1)) with (1 # 2).
    apply Qdiv_le_cross; [exact Hdpos|exact Hdq|]. nra. }
  assert (Hup : n # d < (2 # 1) ^ (ln - ld + 1)).
  { rewrite Hq, Hnd. change ((2 # 1) ^ 1) with (2 # 1).
    apply Qdiv_lt_cross; [exact Hdq|exact Hdpos|]. nra. }
  destruct (Qle_bool ((2 # 1) ^ (ln - ld)) (n # d)) eqn:Hb.
  - apply Qle_bool_iff in Hb. split; [exact Hb|exact Hup].
  - split; [exact Hlow|].
    replace (ln - ld - 1 + 1)%Z with (ln - ld)%Z by lia.
    apply Qnot_le_lt. intros H. apply Qle_bool_iff in H. congruence.
Qed.

Lemma ulp_pos (a : Q) : 0 < ulp a.
Proof. apply pow2_pos. Qed.

Lemma ulp_small (a : Q) :
  (2 # 1) ^ (-1022) <= a -> ulp a <= a * (2 # 1) ^ (-52).
Proof.
  intros Ha.
  assert (Hpos : 0 < a) by (eapply Qlt_le_trans; [apply pow2_pos|exact Ha]).
  unfold ulp.
  assert (Hm : (2 # 1) ^ Z.max (ilog2 a) (-1022) <= a).
  { destruct (Z.max_spec (ilog2 a) (-1022)) as [[_ ->]|[_ ->]];
      [exact Ha|now apply ilog2_spec]. }
  replace (Z.max (ilog2 a) (-1022) - 52)%Z with (Z.max (ilog2 a) (-1022) + -52)%Z by lia.
  rewrite Qpower_plus by discriminate.
  apply Qmult_le_compat_r; [exact Hm|apply Qlt_le_weak, pow2_pos].
Qed.

(** The unit roundoff of binary64. *)
Lemma roundoff : (2 # 1) ^ (-53) == 1 # 9007199254740992.
Proof. reflexivity. Qed.

(** A number of the normal range is rounded with a relative error of at
    most [2^-53], and overflows only when the rounded value reaches
    [2^1024]. *)
Lemma binary64_normal (x : Q) :
  (2 # 1) ^ (-1022) <= x ->
  exists r, x * (1 - (2 # 1) ^ (-53)) <= r /\ r <= x * (1 + (2 # 1) ^ (-53))
            /\ binary64 x = if Qle_bool ((2 # 1) ^ 1024) r then None else Some (Qred r).
Proof.
  intros Hx. unfold binary64.
  assert (Hpos : 0 < x) by (eapply Qlt_le_trans; [apply pow2_pos|exact Hx]).
  pose proof (Qred_correct x) as Hq. set (q := Qred x) in *.
  assert (Hq0 : Qeq_bool q 0 = false).
  { destruct (Qeq_bool q 0) eqn:H0; [|reflexivity].
    apply Qeq_bool_iff in H0. lra. }
  assert (Hq1 : Qle_bool 0 q = true) by (apply Qle_bool_iff; lra).
  rewrite Hq0, Hq1.
  assert (Ha : Qabs q == x) by (rewrite Qabs_pos by lra; exact Hq).
  set (a := Qabs q) in *.
  exists (inject_Z (round_half_even (a / ulp a)) * ulp a).
  split; [|split; [|reflexivity]].
  - pose proof (round_half_even_near (a / ulp a)) as [Hlo _].
    pose proof (ulp_pos a) as Hu.
    assert (Hs : ulp a <= a * (2 # 1) ^ (-52)) by (apply ulp_small; now rewrite Ha).
    assert (Ht : a / ulp a * ulp a == a) by (field; lra).
    change ((2 # 1) ^ (-52)) with (1 # 4503599627370496) in Hs.
    rewrite roundoff. rewrite <- Ha.
    set (t := a / ulp a) in *. set (u := ulp a) in *.
    set (M := inject_Z (round_half_even t)) in *. nra.
  - pose proof (round_half_even_near (a / ulp a)) as [_ Hhi].
    pose proof (ulp_pos a) as Hu.
    assert (Hs : ulp a <= a * (2 # 1) ^ (-52)) by (apply ulp_small; now rewrite Ha).
    assert (Ht : a / ulp a * ulp a == a) by (field; lra).
    change ((2 # 1) ^ (-52)) with (1 # 4503599627370496) in Hs.
    rewrite roundoff. rewrite <- Ha.
    set (t := a / ulp a) in *. set (u := ulp a) in *.
    set (M := inject_Z (round_half_even t)) in *. nra.
Qed.

Lemma binary64_near (x z : Q) :
  (2 # 1) ^ (-1022) <= x -> binary64 x = Some z ->
  x * (1 - (2 # 1) ^ (-53)) <= z /\ z <= x * (1 + (2 # 1) ^ (-53)).
Proof.
  intros Hx Hz. destruct (binary64_normal x Hx) as (r & Hlo & Hhi & Hr).
  rewrite Hr in Hz. destruct (Qle_bool _ r); [discriminate|].
  injection Hz as <-. rewrite (Qred_correct r). split; assumption.
Qed.

Lemma binary64_finite (x : Q) :
  (2 # 1) ^ (-1022) <= x -> x < (2 # 1) ^ 1023 -> exists z, binary64 x = Some z.
Proof.
  intros Hx Hlt. destruct (binary64_normal x Hx) as (r & Hlo & Hhi & Hr).
  rewrite Hr. destruct (Qle_bool _ r) eqn:Hb; [|now eexists].
  exfalso. apply Qle_bool_iff in Hb. rewrite roundoff in Hhi.
  assert (Hc : (2 # 1) ^ 1024 == (2 # 1) * (2 # 1) ^ 1023) by reflexivity.
  pose proof (pow2_pos 1023) as Hp.
  set (T := (2 # 1) ^ 1023) in *. set (T' := (2 # 1) ^ 1024) in *. nra.
Qed.

Lemma binary64_Qeq (x y : Q) : x == y -> binary64 x = binary64 y.
Proof. intros H. unfold binary64. now rewrite (Qred_complete x y H). Qed.

Lemma Math_round_nearest (x : Q) (n : Z) :
  (inject_Z n <= x + (1 # 2))%Q -> (x + (1 # 2) < inject_Z (n + 1))%Q ->
  Stripe.Math_round x = n.
Proof.
  unfold Stripe.Math_round. intros Hle Hlt.
  pose proof (Qfloor_le (x + (1 # 2))) as Hfl.
  pose proof (Qlt_floor (x + (1 # 2))) as Hlf.
  assert (H1 : (Qfloor (x + (1 # 2)) < n + 1)%Z).
  { rewrite Zlt_Qlt. eapply Qle_lt_trans; eassumption. }
  assert (H2 : (n < Qfloor (x + (1 # 2)) + 1)%Z).
  { rewrite Zlt_Qlt. eapply Qle_lt_trans; eassumption. }
  lia.
Qed.

Lemma normal_range :
  (2 # 1) ^ (-1022) <= 1 # 200 /\ inject_Z (2 ^ 51) <= (2 # 1) ^ 1023.
Proof. split; apply Qle_bool_iff; vm_compute; reflexivity. Qed.

(** X19.  The gateway is asked for [Math.round(amount * 100)], computed on
    Number values.  For every body that passes the schema this is at least
    one cent, unless the product overflows, which an amount below [2^1016]
    does not.  For an amount that is the Number nearest to [n] hundredths,
    [0 < n < 2^50], it is exactly [n] cents, and rounding the exact product
    gives the same [n]. *)
Theorem payment_amount_in_cents body input :
  createPaymentSchema body = Zod.ParseOk input ->
  (forall c, cents_binary64 (cp_amount input) = Some c -> (1 <= c)%Z)
  /\ (cp_amount input < (2 # 1) ^ 1016 ->
      exists c, cents_binary64 (cp_amount input) = Some c)
  /\ (forall n, (0 < n < 2 ^ 50)%Z ->
        exists d, binary64 (n # 100) = Some d
                  /\ (cp_amount input == d ->
                      cents_binary64 (cp_amount input) = Some n
                      /\ Stripe.Math_round (cp_amount input * (100 # 1)) = n)).
Proof.
  intros Hparse.
  assert (Hmin : ((1 # 100) <= cp_amount input)%Q).
  { unfold createPaymentSchema, Zod.object in Hparse.
    destruct body as [| | | | |fields]; try discriminate Hparse.
    repeat (apply ap_ok in Hparse; destruct Hparse as (? & ? & Hparse & ? & ->)).
    injection Hparse as <-. cbn [cp_amount].
    match goal with
    | H : Zod.field "amount" _ _ = _ |- _ =>
        unfold Zod.field, Zod.number in H;
        destruct (get_field "amount" fields) as [[| |q| | |]|]; cbn in H;
        try discriminate H;
        unfold Zod.run_checks in H; cbn [flat_map Zod.test Zod.min_number] in H;
        destruct (Qle_bool (1 # 100) q) eqn:Hq; cbn in H; [|discriminate H];
        injection H as <-
    end.
    now apply Qle_bool_iff. }
  destruct normal_range as [Htiny Hhuge].
  set (amount := cp_amount input) in *.
  assert (Hy : (2 # 1) ^ (-1022) <= amount * (100 # 1)) by lra.
  assert (Hone : forall c, cents_binary64 amount = Some c -> (1 <= c)%Z).
  { intros c Hc. unfold cents_binary64 in Hc.
    destruct (binary64 (amount * (100 # 1))) as [z|] eqn:Hz; [|discriminate Hc].
    injection Hc as <-. destruct (binary64_near _ _ Hy Hz) as [Hlo _].
    rewrite roundoff in Hlo. unfold Stripe.Math_round.
    change (Qfloor 1 <= Qfloor (z + (1 # 2)))%Z. apply Qfloor_resp_le. lra. }
  split; [exact Hone|]. split.
  - intros Hlt. unfold cents_binary64.
    destruct (binary64_finite (amount * (100 # 1)) Hy) as [z Hz].
    + assert (Hc : (2 # 1) ^ 1023 == (128 # 1) * (2 # 1) ^ 1016) by reflexivity.
      rewrite Hc. lra.
    + rewrite Hz. now eexists.
  - intros n [Hn0 Hn1].
    assert (Hx : n # 100 == inject_Z n * (1 # 100))
      by (unfold Qeq; cbn; lia).
    assert (HN0 : 1 <= inject_Z n) by (change 1 with (inject_Z 1); rewrite <- Zle_Qle; lia).
    assert (HN1 : inject_Z n < 1125899906842624 # 1)
      by (change (1125899906842624 # 1) with (inject_Z (2 ^ 50)); now rewrite <- Zlt_Qlt).
    change (inject_Z (2 ^ 51)) with (2251799813685248 # 1) in Hhuge.
    set (N := inject_Z n) in *. set (T := (2 # 1) ^ 1023) in *.
    set (t := (2 # 1) ^ (-1022)) in *.
    assert (Hx0 : t <= n # 100) by (rewrite Hx; lra).
    assert (Hx1 : n # 100 < T) by (rewrite Hx; lra).
    destruct (binary64_finite (n # 100) Hx0 Hx1) as [d Hd].
    exists d. split; [exact Hd|]. intros Heq.
    destruct (binary64_near _ _ Hx0 Hd) as [Hd0 Hd1].
    rewrite roundoff, Hx in Hd0, Hd1.
    split; [|apply Math_round_nearest;
             [|rewrite inject_Z_plus; change (inject_Z 1) with 1]; fold N; lra].
    unfold cents_binary64.
    rewrite (binary64_Qeq (amount * (100 # 1)) (d * (100 # 1))) by (now rewrite Heq).
    assert (Hy0 : t <= d * (100 # 1)) by lra.
    assert (Hy1 : d * (100 # 1) < T) by lra.
    destruct (binary64_finite (d * (100 # 1)) Hy0 Hy1) as [z Hz].
    destruct (binary64_near _ _ Hy0 Hz) as [Hz0 Hz1].
    rewrite roundoff in Hz0, Hz1.
    rewrite Hz. cbn [option_map]. f_equal. apply Math_round_nearest.
    + fold N. lra.
    + rewrite inject_Z_plus. change (inject_Z 1) with 1. fold N. lra.
Qed.

End Cents.


(** Tom tries to pay on Tina's lease. *)
Lemma tenant_payment_refused_witness :
  TenantPayments.POST (E := Sample.externals) (Some Sample.tom)
    (Sample.payment_body "l1") 90 Sample.db
  = (json_error 403 "Forbidden", Sample.db).
Proof.
  refine (@tenant_payment_refused Sample.externals Sample.tom
            (Sample.payment_body "l1") 90%Z Sample.db
            {| cp_leaseId := "l1"; cp_type := RENT; cp_method := ACH;
               cp_amount := 1200 # 1; cp_periodStart := None; cp_periodEnd := None;
               cp_notes := None |} eq_refl _).
  discriminate.
Defined.

(** A rent of 1200 is charged as 120000 cents. *)
Lemma payment_amount_in_cents_witness :
  (cents_binary64 (1200 # 1) = Some 120000%Z
   /\ Stripe.Math_round ((1200 # 1) * (100 # 1))%Q = 120000%Z)
  /\ (forall c, cents_binary64 (1200 # 1) = Some c -> (1 <= c)%Z).
Proof.
  destruct (payment_amount_in_cents (Sample.payment_body "l1")
              {| cp_leaseId := "l1"; cp_type := RENT; cp_method := ACH;
                 cp_amount := 1200 # 1; cp_periodStart := None; cp_periodEnd := None;
                 cp_notes := None |} eq_refl) as (Hone & _ & Hn).
  destruct (Hn 120000%Z ltac:(lia)) as (d & Hd & Hcents).
  vm_compute in Hd. injection Hd as <-.
  split; [apply Hcents; reflexivity|exact Hone].
Defined.

(** The Number values of 0.1 and of 1.005, and the cents of the latter: 100,
    where the exact product 100.5 would be rounded to 101. *)
Lemma binary64_samples :
  binary64 (1 # 10) = Some (3602879701896397 # 36028797018963968)%Q
  /\ binary64 (201 # 200) = Some (1131529406376837 # 1125899906842624)%Q
  /\ cents_binary64 (1131529406376837 # 1125899906842624) = Some 100%Z
  /\ Stripe.Math_round ((201 # 200) * (100 # 1))%Q = 101%Z
  /\ binary64 (9007199254740993 # 1) = Some (9007199254740992 # 1)%Q.
Proof. repeat split; vm_compute; reflexivity. Qed.

(** Alice's acknowledgement of request r1 leaves the units and leases alone. *)
Lemma landlord_call_touches_one_request_witness :
  let db' := landlord_call (E := Sample.externals)
               (PutCall (Some Sample.alice) "r1" (JObj [("status", JStr "ACKNOWLEDGED")]) 50)
               Sample.db in
  units db' = units Sample.db /\ leases db' = leases Sample.db.
Proof.
  cbv zeta.
  destruct (@landlord_call_touches_one_request Sample.externals
              (PutCall (Some Sample.alice) "r1"
                       (JObj [("status", JStr "ACKNOWLEDGED")]) 50%Z) Sample.db)
    as (_ & _ & _ & Hunits & Hleases & _).
  split; assumption.
Defined.

(** Without the header the address is 'unknown'. *)
Lemma clientIp_clean_witness : OnboardingSubmit.clientIp None = "unknown".
Proof.
  destruct (clientIp_clean None) as (_ & _ & Hunknown).
  apply Hunknown. reflexivity.
Defined.

(** Once every user has a customer id, Tina's payment leaves the users
    table as it was. *)
Lemma tenant_payment_side_effects_witness :
  let db := set_users (map (with_stripeCustomerId "cus_1")) Sample.db in
  users (snd (TenantPayments.POST (E := Sample.externals) (Some Sample.tina)
                (Sample.payment_body "l1") 90 db)) = users db.
Proof.
  cbv zeta.
  destruct (@tenant_payment_side_effects Sample.externals Sample.tina
              (Sample.payment_body "l1") 90%Z
              (set_users (map (with_stripeCustomerId "cus_1")) Sample.db))
    as (_ & _ & _ & _ & _ & _ & _ & Hkept).
  apply (Hkept (with_stripeCustomerId "cus_1"
                  (Sample.user_row "tina" "tina@example.com" "Tina" "Turner")));
    [reflexivity|discriminate].
Defined.

(* ===================================================================== *)
(** * The middleware: who reaches which pages *)
(* ===================================================================== *)

(** X20.  A request passes the middleware for a path under /tenant only
    with the token of a tenant or an administrator, under /landlord only
    with that of a landlord or an administrator, under /admin only with
    that of an administrator, and under /onboarding only with a token;
    without a token only the public paths pass. *)
Theorem middleware_gates (token : option Role) (path : string) :
  Middleware.passes token path ->
  (Middleware.startsWith path "/tenant" = true -> token = Some TENANT \/ token = Some ADMIN)
  /\ (Middleware.startsWith path "/landlord" = true ->
      token = Some LANDLORD \/ token = Some ADMIN)
  /\ (Middleware.startsWith path "/admin" = true -> token = Some ADMIN)
  /\ (Middleware.startsWith path "/onboarding" = true -> token <> None)
  /\ (token = None -> Middleware.public path).
Proof.
  unfold Middleware.passes, Middleware.authorized, Middleware.middleware, Middleware.public.
  intros [Ha Hm].
  destruct (path =? "/")%string eqn:H0;
  destruct (path =? "/login")%string eqn:H1;
  destruct (path =? "/register")%string eqn:H2;
  destruct (Middleware.startsWith path "/api/auth") eqn:H3;
  destruct (Middleware.startsWith path "/tenant") eqn:Ht;
  destruct (Middleware.startsWith path "/landlord") eqn:Hl;
  destruct (Middleware.startsWith path "/onboarding") eqn:Ho;
  destruct (Middleware.startsWith path "/admin") eqn:Had;
  destruct token as [[| |]|]; cbn in Ha, Hm; try discriminate.
  all: repeat match goal with
              | H : (_ =? _)%string = true |- _ => apply String.eqb_eq in H
              end.
  all: repeat split; intros; try discriminate; auto.
Qed.

(** A tenant opens the tenant dashboard. *)
Lemma middleware_gates_witness :
  Middleware.passes (Some TENANT) "/tenant/dashboard"
  /\ (Some TENANT = Some TENANT \/ Some TENANT = Some ADMIN)
  /\ (Some TENANT : option Role) <> None.
Proof.
  assert (Hpasses : Middleware.passes (Some TENANT) "/tenant/dashboard")
    by (split; reflexivity).
  destruct (middleware_gates (Some TENANT) "/tenant/dashboard" Hpasses)
    as (Htenant & _).
  split; [exact Hpasses|]. split; [apply Htenant; reflexivity|discriminate].
Defined.

(** X21.  The redirects of the middleware do not loop: whatever the token
    and the path, following them reaches a path that the function lets
    through after at most two redirects. *)
Theorem middleware_redirects_end (token : option Role) (path : string) :
  exists target, Middleware.follow 2 token path = Some target
                 /\ Middleware.middleware token target = Middleware.next.
Proof.
  unfold Middleware.follow.
  destruct (Middleware.middleware token path) as [|url] eqn:Hm;
    [exists path; split; [reflexivity|exact Hm]|].
  unfold Middleware.middleware in Hm.
  destruct (path =? "/login")%string;
  destruct (path =? "/register")%string;
  destruct (Middleware.startsWith path "/tenant");
  destruct (Middleware.startsWith path "/landlord");
  destruct (Middleware.startsWith path "/onboarding");
  destruct (Middleware.startsWith path "/admin");
  destruct token as [[| |]|]; cbn in Hm; try discriminate;
  injection Hm as <-; eexists; split; reflexivity.
Qed.

(* ===================================================================== *)
(** * Masks *)
(* ===================================================================== *)

Lemma length_append_string (a b : string) :
  String.length (a ++ b)%string = String.length a + String.length b.
Proof. induction a as [|c a IH]; cbn; [reflexivity|now rewrite IH]. Qed.

Lemma substring_all (s : string) : String.substring 0 (String.length s) s = s.
Proof. induction s as [|c s IH]; cbn; [reflexivity|now rewrite IH]. Qed.

Lemma substring_skip (a b : string) (n : nat) :
  String.substring (String.length a) n (a ++ b)%string = String.substring 0 n b.
Proof. induction a as [|c a IH]; cbn; [reflexivity|exact IH]. Qed.

Lemma slice_last_append (hidden shown : string) :
  slice_last (String.length shown) (hidden ++ shown)%string = shown.
Proof.
  unfold slice_last. rewrite length_append_string.
  replace (String.length hidden + String.length shown - String.length shown)
    with (String.length hidden) by lia.
  rewrite substring_skip. apply substring_all.
Qed.

Lemma length_substring_le (s : string) (m n : nat) :
  m + n <= String.length s -> String.length (String.substring m n s) = n.
Proof.
  revert m n. induction s as [|c s IH]; intros m n H; cbn in H.
  - assert (m = 0) by lia. assert (n = 0) by lia. subst. reflexivity.
  - destruct m as [|m]; cbn.
    + destruct n as [|n]; [reflexivity|]. cbn. f_equal.
      apply (IH 0 n). cbn. lia.
    + apply IH. lia.
Qed.

Lemma truthy_long (s : string) : 4 <= String.length s -> truthy s = true.
Proof. destruct s; cbn; [lia|reflexivity]. Qed.

(** X22.  The masks show the last four characters and nothing else: a
    masked SSN has 11 characters whatever the input, both masks are the
    fixed stars followed by the last four characters of the input, so that
    inputs with the same last four characters have the same mask, and an
    input of fewer than four characters is not shown at all. *)
Theorem masks_show_last_four :
  (forall s, String.length (maskSSN s) = 11)
  /\ (forall hidden shown, String.length shown = 4 ->
        maskSSN (hidden ++ shown) = ("***-**-" ++ shown)%string
        /\ maskAccountNumber (hidden ++ shown) = ("****" ++ shown)%string)
  /\ (forall s, String.length s < 4 ->
        maskSSN s = "***-**-****" /\ maskAccountNumber s = "****").
Proof.
  split; [|split].
  - intros s. unfold maskSSN.
    destruct (Nat.ltb (String.length s) 4) eqn:Hl.
    + now rewrite orb_true_r.
    + apply Nat.ltb_ge in Hl. rewrite truthy_long by exact Hl. cbn [negb orb].
      rewrite length_append_string. unfold slice_last.
      rewrite length_substring_le by lia. reflexivity.
  - intros hidden shown H4.
    assert (Hlong : 4 <= String.length (hidden ++ shown)%string)
      by (rewrite length_append_string; lia).
    unfold maskSSN, maskAccountNumber. rewrite truthy_long by exact Hlong.
    apply Nat.ltb_ge in Hlong. rewrite Hlong. cbn [negb orb].
    rewrite <- H4, slice_last_append. split; reflexivity.
  - intros s Hs. apply Nat.ltb_lt in Hs. unfold maskSSN, maskAccountNumber.
    rewrite Hs, orb_true_r. split; reflexivity.
Qed.

(** The mask of a social security number shows its last four digits. *)
Lemma masks_show_last_four_witness :
  maskSSN "123-45-6789" = "***-**-6789" /\ maskSSN "12" = "***-**-****".
Proof.
  destruct masks_show_last_four as (_ & Hshown & Hshort).
  split.
  - apply (Hshown "123-45-" "6789"). reflexivity.
  - apply (Hshort "12"). cbn. lia.
Defined.

(* ===================================================================== *)
(** * Escaping for Markdown *)
(* ===================================================================== *)

Lemma escapeMarkdown_head (text : string) :
  match escapeMarkdown text with
  | String d _ => markdown_special d = false
  | EmptyString => True
  end.
Proof.
  destruct text as [|c rest]; cbn [escapeMarkdown]; [exact I|].
  destruct (markdown_special c) eqn:Hc; [reflexivity|exact Hc].
Qed.

Lemma unescape_plain c (text : string) :
  match text with String d _ => markdown_special d = false | EmptyString => True end ->
  unescapeMarkdown (String c text) = String c (unescapeMarkdown text).
Proof.
  destruct text as [|d rest]; cbn [unescapeMarkdown]; [reflexivity|].
  intros ->. now rewrite andb_false_r.
Qed.

Lemma escaped_plain c (text : string) :
  markdown_special c = false ->
  match text with String d _ => markdown_special d = false | EmptyString => True end ->
  escaped (String c text) = escaped text.
Proof.
  intros Hc. destruct text as [|d rest]; cbn [escaped]; rewrite Hc; [reflexivity|].
  intros Hd. now rewrite Hd, andb_false_r.
Qed.

(** X23.  Escaping a text for Markdown loses nothing and leaves no special
    character bare: dropping the backslashes that stand before special
    characters gives the text back, in the escaped text every special
    character stands behind a backslash, and a text without special
    characters is left as it is. *)
Theorem escapeMarkdown_round_trip :
  (forall text, unescapeMarkdown (escapeMarkdown text) = text)
  /\ (forall text, escaped (escapeMarkdown text) = true)
  /\ (forall text,
         (forall c, In c (list_ascii_of_string text) -> markdown_special c = false) ->
         escapeMarkdown text = text).
Proof.
  split; [|split].
  - induction text as [|c rest IH]; [reflexivity|]. cbn [escapeMarkdown].
    destruct (markdown_special c) eqn:Hc.
    + cbn [unescapeMarkdown]. rewrite Hc. cbn. now rewrite IH.
    + rewrite unescape_plain by apply escapeMarkdown_head. now rewrite IH.
  - induction text as [|c rest IH]; [reflexivity|]. cbn [escapeMarkdown].
    destruct (markdown_special c) eqn:Hc.
    + cbn [escaped]. rewrite Hc. cbn. exact IH.
    + rewrite escaped_plain; [exact IH|exact Hc|apply escapeMarkdown_head].
  - induction text as [|c rest IH]; intros Hplain; [reflexivity|].
    cbn [escapeMarkdown]. rewrite (Hplain c) by now left.
    rewrite IH; [reflexivity|]. intros d Hd. apply Hplain. now right.
Qed.

(** A unit number with a dash and a dot. *)
Lemma escapeMarkdown_round_trip_witness :
  escapeMarkdown "Unit 1A" = "Unit 1A"
  /\ unescapeMarkdown (escapeMarkdown "No. 4-B") = "No. 4-B".
Proof.
  destruct escapeMarkdown_round_trip as (Hback & _ & Hplain).
  split; [|apply Hback].
  apply Hplain. intros c Hin. cbn in Hin.
  repeat (destruct Hin as [<-|Hin]; [reflexivity|]). contradiction.
Defined.

(* ===================================================================== *)
(** * Bodies: refusals and unknown keys *)
(* ===================================================================== *)

Ltac schema_reports :=
  apply reports_object; intros;
  repeat apply reports_ap; try exact I; apply reports_field; intros;
  repeat first [ apply reports_string | apply reports_number | apply reports_boolean
               | apply reports_enum | apply reports_array
               | apply reports_optional; intros
               | apply reports_optional_default; intros ].

Section Bodies.

Context {E : Externals}.

Lemma updateMaintenanceRequestSchema_reports body :
  reports (updateMaintenanceRequestSchema body).
Proof. unfold updateMaintenanceRequestSchema. schema_reports. Qed.

Lemma addMaintenanceUpdateSchema_reports body :
  reports (addMaintenanceUpdateSchema body).
Proof. unfold addMaintenanceUpdateSchema. schema_reports. Qed.

Lemma completeOnboardingSchema_reports body :
  reports (completeOnboardingSchema body).
Proof. unfold completeOnboardingSchema. schema_reports. Qed.

Lemma createPaymentSchema_reports body : reports (createPaymentSchema body).
Proof. unfold createPaymentSchema. schema_reports. Qed.

Lemma reports_first {A} (r : Zod.SafeParseReturnType A) errors :
  reports r -> r = Zod.ParseError errors -> exists issue rest, errors = issue :: rest.
Proof.
  intros Hr ->. destruct errors as [|issue rest]; [contradiction|]. now exists issue, rest.
Qed.

(** X24.  A body that the schema of a handler refuses is answered 400 with
    the message of the first issue, and nothing is written; it is never
    answered 500.  The three handlers of the tenant's side refuse it before
    they look anything up, the landlord's PUT and POST once the caller has
    access to the request. *)
Theorem invalid_body_is_400 user body now db errors :
  (createMaintenanceRequestSchema body = Zod.ParseError errors ->
   refused_with errors db (TenantMaintenance.POST (Some user) body now db))
  /\ (completeOnboardingSchema body = Zod.ParseError errors ->
      forall forwardedFor,
        refused_with errors db (OnboardingSubmit.POST (Some user) body forwardedFor now db))
  /\ (createPaymentSchema body = Zod.ParseError errors ->
      refused_with errors db (TenantPayments.POST (Some user) body now db))
  /\ (forall id existing,
         access user id db = Granted existing ->
         (updateMaintenanceRequestSchema body = Zod.ParseError errors ->
          refused_with errors db (LandlordMaintenanceId.PUT (Some user) id body now db))
         /\ (addMaintenanceUpdateSchema body = Zod.ParseError errors ->
             refused_with errors db
                          (LandlordMaintenanceId.POST (Some user) id body now db))).
Proof.
  unfold refused_with. split; [|split; [|split]].
  - intros H.
    destruct (reports_first _ errors (createMaintenanceRequestSchema_reports body) H)
      as (issue & rest & ->).
    exists issue, rest. split; [reflexivity|]. now rewrite tenant_POST_run, H.
  - intros H forwardedFor.
    destruct (reports_first _ errors (completeOnboardingSchema_reports body) H)
      as (issue & rest & ->).
    exists issue, rest. split; [reflexivity|]. now rewrite onboarding_POST_run, H.
  - intros H.
    destruct (reports_first _ errors (createPaymentSchema_reports body) H)
      as (issue & rest & ->).
    exists issue, rest. split; [reflexivity|].
    unfold TenantPayments.POST. run_handler. now rewrite H.
  - intros id existing Ha. split; intros H.
    + destruct (reports_first _ errors (updateMaintenanceRequestSchema_reports body) H)
        as (issue & rest & ->).
      exists issue, rest. split; [reflexivity|]. now rewrite PUT_run, Ha, H.
    + destruct (reports_first _ errors (addMaintenanceUpdateSchema_reports body) H)
        as (issue & rest & ->).
      exists issue, rest. split; [reflexivity|]. now rewrite POST_run, Ha, H.
Qed.

(** X25.  The handlers read of a body only the keys of their schema: two
    objects that agree on those keys get the same answer and cause the
    same writes, whatever other keys they hold. *)
Theorem unknown_keys_ignored session fields fields' now db :
  (agree_on createMaintenanceRequest_keys fields fields' ->
   TenantMaintenance.POST session (JObj fields) now db
   = TenantMaintenance.POST session (JObj fields') now db)
  /\ (agree_on completeOnboarding_keys fields fields' ->
      forall forwardedFor,
        OnboardingSubmit.POST session (JObj fields) forwardedFor now db
        = OnboardingSubmit.POST session (JObj fields') forwardedFor now db)
  /\ (agree_on createPayment_keys fields fields' ->
      TenantPayments.POST session (JObj fields) now db
      = TenantPayments.POST session (JObj fields') now db)
  /\ (agree_on updateMaintenanceRequest_keys fields fields' ->
      forall id, LandlordMaintenanceId.PUT session id (JObj fields) now db
                 = LandlordMaintenanceId.PUT session id (JObj fields') now db)
  /\ (agree_on addMaintenanceUpdate_keys fields fields' ->
      forall id, LandlordMaintenanceId.POST session id (JObj fields) now db
                 = LandlordMaintenanceId.POST session id (JObj fields') now db).
Proof.
  unfold agree_on. split; [|split; [|split; [|split]]]; intros H.
  - assert (Hs : createMaintenanceRequestSchema (JObj fields)
                 = createMaintenanceRequestSchema (JObj fields')).
    { unfold createMaintenanceRequestSchema, Zod.object, Zod.field.
      rewrite !H by (cbn; tauto). reflexivity. }
    unfold TenantMaintenance.POST. now rewrite Hs.
  - intros forwardedFor.
    assert (Hs : completeOnboardingSchema (JObj fields)
                 = completeOnboardingSchema (JObj fields')).
    { unfold completeOnboardingSchema, Zod.object, Zod.field.
      rewrite !H by (cbn; tauto). reflexivity. }
    unfold OnboardingSubmit.POST. now rewrite Hs.
  - assert (Hs : createPaymentSchema (JObj fields) = createPaymentSchema (JObj fields')).
    { unfold createPaymentSchema, Zod.object, Zod.field.
      rewrite !H by (cbn; tauto). reflexivity. }
    unfold TenantPayments.POST. now rewrite Hs.
  - intros id.
    assert (Hs : updateMaintenanceRequestSchema (JObj fields)
                 = updateMaintenanceRequestSchema (JObj fields')).
    { unfold updateMaintenanceRequestSchema, Zod.object, Zod.field.
      rewrite !H by (cbn; tauto). reflexivity. }
    unfold LandlordMaintenanceId.PUT. now rewrite Hs.
  - intros id.
    assert (Hs : addMaintenanceUpdateSchema (JObj fields)
                 = addMaintenanceUpdateSchema (JObj fields')).
    { unfold addMaintenanceUpdateSchema, Zod.object, Zod.field.
      rewrite !H by (cbn; tauto). reflexivity. }
    unfold LandlordMaintenanceId.POST. now rewrite Hs.
Qed.

End Bodies.

(** A submission whose body is not an object. *)
Lemma invalid_body_is_400_witness :
  OnboardingSubmit.POST (E := Sample.externals) (Some Sample.tom) JNull None 70 Sample.db
  = (json_error 400 "Expected object, received null", Sample.db).
Proof.
  destruct (@invalid_body_is_400 Sample.externals Sample.tom JNull 70%Z Sample.db
              [Zod.invalid_type "object" (Some JNull)]) as (_ & Honboarding & _).
  destruct (Honboarding eq_refl None) as (issue & rest & Hissue & Hresult).
  injection Hissue as <- <-. exact Hresult.
Defined.

(** Tina cannot mark her new request completed, or file it in Tom's name,
    by adding keys to the body. *)
Lemma unknown_keys_ignored_witness :
  TenantMaintenance.POST (E := Sample.externals) (Some Sample.tina)
    (JObj [("status", JStr "COMPLETED"); ("title", JStr "Radiator");
           ("description", JStr "The radiator in the hall leaks");
           ("category", JStr "PLUMBING"); ("tenantId", JStr "tom")]) 60 Sample.db
  = TenantMaintenance.POST (E := Sample.externals) (Some Sample.tina)
      (Sample.request_body "Radiator" "The radiator in the hall leaks") 60 Sample.db.
Proof.
  destruct (@unknown_keys_ignored Sample.externals (Some Sample.tina)
              [("status", JStr "COMPLETED"); ("title", JStr "Radiator");
               ("description", JStr "The radiator in the hall leaks");
               ("category", JStr "PLUMBING"); ("tenantId", JStr "tom")]
              [("title", JStr "Radiator");
               ("description", JStr "The radiator in the hall leaks");
               ("category", JStr "PLUMBING")] 60%Z Sample.db) as (Hcreate & _).
  apply Hcreate. intros key Hin. cbn in Hin.
  repeat (destruct Hin as [<-|Hin]; [reflexivity|]). contradiction.
Defined.

(* ===================================================================== *)
(** * Reads and anonymous calls *)
(* ===================================================================== *)

Section NoWrites.

Context {E : Externals}.

(** X26.  The four GET handlers never write to the database, whoever
    calls them and whatever they answer; and every handler answers a
    caller without a session with 401, before it reads the body or the
    database, and writes nothing. *)
Theorem reads_and_anonymous_calls_write_nothing db :
  (forall session id, snd (LandlordMaintenanceId.GET session id db) = db)
  /\ (forall session status priority propertyId,
         snd (LandlordMaintenance.GET session status priority propertyId db) = db)
  /\ (forall session id, snd (TenantMaintenanceId.GET session id db) = db)
  /\ (forall session status, snd (TenantMaintenance.GET session status db) = db)
  /\ (forall id status priority propertyId body forwardedFor now unitId,
         let unauthorized := (json_error 401 "Unauthorized", db) in
         LandlordMaintenanceId.GET None id db = unauthorized
         /\ LandlordMaintenanceId.PUT None id body now db = unauthorized
         /\ LandlordMaintenanceId.POST None id body now db = unauthorized
         /\ LandlordMaintenance.GET None status priority propertyId db = unauthorized
         /\ TenantMaintenanceId.GET None id db = unauthorized
         /\ TenantMaintenance.GET None status db = unauthorized
         /\ TenantMaintenance.POST None body now db = unauthorized
         /\ LandlordUnit.DELETE None id unitId db = unauthorized
         /\ LandlordProperty.DELETE None id db = unauthorized
         /\ OnboardingSubmit.POST None body forwardedFor now db = unauthorized
         /\ TenantPayments.POST None body now db = unauthorized).
Proof.
  split; [|split; [|split; [|split]]].
  - intros [user|] id; [|reflexivity]. rewrite GET_run.
    now destruct (access user id db).
  - intros [user|] status priority propertyId; [|reflexivity].
    destruct (landlord_list_run user status priority propertyId db)
      as [(whereStatus & wherePriority & ->)|[_ Hsame]]; [reflexivity|exact Hsame].
  - intros [user|] id; [|reflexivity]. rewrite tenant_GET_run.
    destruct (maintenanceRequest_findUnique id db) as [r|]; [|reflexivity].
    now destruct (mr_tenantId r =? session_id user)%string.
  - intros [user|] status; [|reflexivity].
    destruct (tenant_list_run user status db) as [(whereStatus & ->)| ->]; reflexivity.
  - intros. cbv zeta. repeat split.
Qed.

End NoWrites.

(* ===================================================================== *)
(** * Creating and updating units *)
(* ===================================================================== *)

Lemma createUnitSchema_reports body : reports (createUnitSchema body).
Proof.
  unfold createUnitSchema, unitNumber_schema, unit_status_schema, bedrooms_schema,
    bathrooms_schema, squareFeet_schema, floor_schema, monthlyRent_schema,
    depositAmount_schema, features_schema, petPolicy_schema.
  schema_reports.
Qed.


Lemma number_free_spec propertyId unitNumber db :
  LandlordUnits.unit_findUnique_propertyId_unitNumber propertyId unitNumber db = None
  <-> number_free propertyId unitNumber db.
Proof.
  unfold LandlordUnits.unit_findUnique_propertyId_unitNumber, number_free.
  rewrite find_none_iff. split.
  - intros H u Hin Hp Hn. specialize (H u Hin).
    apply andb_false_iff in H. destruct H as [H|H]; apply String.eqb_neq in H; auto.
  - intros H u Hin. apply andb_false_iff.
    destruct (unit_propertyId u =? propertyId)%string eqn:Hp; [|now left].
    right. apply String.eqb_neq. apply String.eqb_eq in Hp. now apply H.
Qed.

Section Units.

Context {E : Externals}.

Lemma unit_POST_run user propertyId body db :
  LandlordUnits.POST (Some user) propertyId body db =
  match property_findUnique propertyId db with
  | None => (inl (json_error 404 "Property not found"), db)
  | Some property =>
      if not_owner_nor_admin (property_ownerId property) user
      then (inl (json_error 403 "Forbidden"), db)
      else
        match createUnitSchema body with
        | Zod.ParseError [] => (inl (json_error 500 "Failed to create unit"), db)
        | Zod.ParseError (issue :: _) => (inl (json_error 400 (Zod.message issue)), db)
        | Zod.ParseOk input =>
            match LandlordUnits.unit_findUnique_propertyId_unitNumber
                    propertyId (cu_unitNumber input) db with
            | Some _ => (inl (json_error 409 "A unit with this number already exists"), db)
            | None =>
                let row := LandlordUnits.new_unit (cuid (nextId db)) propertyId input in
                (inr {| ok_status := 201; ok_data := row;
                        ok_message := Some "Unit created successfully" |},
                 with_unit row db)
            end
        end
  end.
Proof.
  unfold LandlordUnits.POST, try_catch_data, LandlordUnits.unit_create,
    LandlordUnits.property_increment_totalUnits.
  run_handler.
  destruct (property_findUnique propertyId db) as [property|] eqn:Hp; [|reflexivity].
  destruct (not_owner_nor_admin (property_ownerId property) user); [reflexivity|].
  destruct (createUnitSchema body) as [input|[|i errs]]; try reflexivity.
  destruct (LandlordUnits.unit_findUnique_propertyId_unitNumber _ _ db);
    [reflexivity|].
  unfold property_findUnique in *. cbn. rewrite Hp. reflexivity.
Qed.

Lemma unit_PUT_run user propertyId unitId body db :
  LandlordUnits.PUT (Some user) propertyId unitId body db =
  match property_findUnique propertyId db with
  | None => (inl (json_error 404 "Property not found"), db)
  | Some property =>
      if not_owner_nor_admin (property_ownerId property) user
      then (inl (json_error 403 "Forbidden"), db)
      else
        match unit_findUnique unitId db with
        | None => (inl (json_error 404 "Unit not found"), db)
        | Some existing =>
            if negb (unit_propertyId existing =? propertyId)%string
            then (inl (json_error 400 "Unit does not belong to this property"), db)
            else
              match updateUnitSchema body with
              | Zod.ParseError [] => (inl (json_error 500 "Failed to update unit"), db)
              | Zod.ParseError (issue :: _) =>
                  (inl (json_error 400 (Zod.message issue)), db)
              | Zod.ParseOk input =>
                  if number_taken propertyId input existing db
                  then (inl (json_error 409 "A unit with this number already exists"), db)
                  else (inr {| ok_status := 200;
                               ok_data := LandlordUnits.patch_unit input existing;
                               ok_message := Some "Unit updated successfully" |},
                        patch_units unitId input db)
              end
        end
  end.
Proof.
  unfold LandlordUnits.PUT, try_catch_data, LandlordUnit.verifyOwnership,
    LandlordUnits.check_duplicate, LandlordUnits.unit_update, number_taken,
    patch_units, not_owner_nor_admin.
  run_handler.
  destruct (property_findUnique propertyId db) as [property|]; [|reflexivity].
  destruct (negb (property_ownerId property =? session_id user)%string
            && negb (Role_beq (session_role user) ADMIN)); [reflexivity|].
  destruct (unit_findUnique unitId db) as [existing|] eqn:Hu; [|reflexivity].
  destruct (negb (unit_propertyId existing =? propertyId)%string); [reflexivity|].
  destruct (updateUnitSchema body) as [input|[|i errs]]; try reflexivity.
  destruct (uu_unitNumber input) as [n|]; [|now rewrite Hu].
  destruct (truthy n && negb (n =? unit_unitNumber existing)%string);
    cbn [andb]; [|now rewrite Hu].
  destruct (LandlordUnits.unit_findUnique_propertyId_unitNumber propertyId n db);
    [reflexivity|now rewrite Hu].
Qed.

Lemma with_unit_tables row db :
  properties (with_unit row db) = map (one_more (unit_propertyId row)) (properties db)
  /\ units (with_unit row db) = units db ++ [row]
  /\ leases (with_unit row db) = leases db
  /\ users (with_unit row db) = users db.
Proof. repeat split. Qed.

Lemma find_one_more id id' db :
  find (fun p => (property_id p =? id)%string) (map (one_more id') (properties db))
  = option_map (one_more id') (property_findUnique id db).
Proof.
  unfold property_findUnique. apply find_map_preserving.
  intros x. unfold one_more. destruct (property_id x =? id')%string; reflexivity.
Qed.

(** X27.  POST of a unit creates it only for the owner of the property (or
    an administrator), from a body that the schema accepts, and when no
    unit of the property has the number yet: then the answer is 201, the
    new unit is appended under that property with the number and status
    of the body, and the property counts one unit more, every other
    property being as before.  A request that is refused gets a status in
    the 400 class and writes nothing; it is refused with 409 when the
    number is taken. *)
Theorem unit_POST_creates session propertyId body db :
  let result := LandlordUnits.POST session propertyId body db in
  (forall created, fst result = inr created ->
     exists user property input,
       session = Some user
       /\ property_findUnique propertyId db = Some property
       /\ owner_or_admin property user
       /\ createUnitSchema body = Zod.ParseOk input
       /\ number_free propertyId (cu_unitNumber input) db
       /\ ok_status created = 201%Z
       /\ ok_data created = LandlordUnits.new_unit (cuid (nextId db)) propertyId input
       /\ units (snd result) = units db ++ [ok_data created]
       /\ (exists property',
              property_findUnique propertyId (snd result) = Some property'
              /\ property_totalUnits property' = (property_totalUnits property + 1)%Z
              /\ property_ownerId property' = property_ownerId property)
       /\ (forall id, id <> propertyId ->
                      property_findUnique id (snd result) = property_findUnique id db))
  /\ (forall refusal, fst result = inl refusal -> rejected db (refusal, snd result))
  /\ (forall user property input,
         session = Some user ->
         property_findUnique propertyId db = Some property ->
         owner_or_admin property user ->
         createUnitSchema body = Zod.ParseOk input ->
         ~ number_free propertyId (cu_unitNumber input) db ->
         result = (inl (json_error 409 "A unit with this number already exists"), db)).
Proof.
  cbv zeta. destruct session as [user|].
  2:{ split; [intros created H; discriminate H|]. split.
      - intros refusal [= <-]. apply rejected_error. lia.
      - intros user property input H. discriminate H. }
  rewrite unit_POST_run.
  destruct (property_findUnique propertyId db) as [property|] eqn:Hp.
  2:{ split; [intros created H; discriminate H|]. split.
      - intros refusal [= <-]. apply rejected_error. lia.
      - intros user' property input _ H. discriminate H. }
  destruct (not_owner_nor_admin (property_ownerId property) user) eqn:Ho.
  { split; [intros created H; discriminate H|]. split.
    - intros refusal [= <-]. apply rejected_error. lia.
    - intros user' property' input [= <-] [= <-] Hown.
      apply not_owner_nor_admin_false in Hown. congruence. }
  apply not_owner_nor_admin_false in Ho.
  pose proof (createUnitSchema_reports body) as Hreports.
  destruct (createUnitSchema body) as [input|[|issue rest]]; [|contradiction|].
  2:{ split; [intros created H; discriminate H|]. split.
      - intros refusal [= <-]. apply rejected_error. lia.
      - intros user' property' input _ _ _ H. discriminate H. }
  destruct (LandlordUnits.unit_findUnique_propertyId_unitNumber propertyId
              (cu_unitNumber input) db) as [taken|] eqn:Hn.
  { split; [intros created H; discriminate H|]. split.
    - intros refusal [= <-]. apply rejected_error. lia.
    - reflexivity. }
  apply number_free_spec in Hn. cbv zeta. split; [|split].
  - intros created [= <-]. exists user, property, input.
    repeat (split; [first [reflexivity|assumption]|]).
    cbn [ok_data snd with_unit]. split.
    + unfold property_findUnique at 1.
      rewrite (proj1 (with_unit_tables _ db)). cbn [LandlordUnits.new_unit unit_propertyId].
      rewrite find_one_more, Hp. cbn [option_map]. unfold one_more.
      destruct (find_some _ _ Hp) as [_ Hid]. rewrite Hid.
      eexists. split; [reflexivity|]. split; reflexivity.
    + intros id Hid. unfold property_findUnique at 1.
      rewrite (proj1 (with_unit_tables _ db)). cbn [LandlordUnits.new_unit unit_propertyId].
      apply (find_map_other (fun p => (property_id p =? id)%string)
               (fun p => (property_id p =? propertyId)%string)).
      * intros x. reflexivity.
      * intros x Hx. apply String.eqb_eq in Hx. apply String.eqb_neq. congruence.
  - intros refusal H. discriminate H.
  - intros user' property' input' _ _ _ [= <-] Hfree. contradiction.
Qed.

Lemma filter_keeps_keys_distinct {Row Key} (key : Row -> Key) (keep : Row -> bool)
      (rows : list Row) :
  NoDup (map key rows) -> NoDup (map key (filter keep rows)).
Proof.
  intros Hrows. induction rows as [|row rows IH]; cbn; [constructor|].
  inversion Hrows as [|k ks Hnew Hrest]; subst.
  destruct (keep row); cbn; [|now apply IH].
  constructor; [|now apply IH].
  intros Hin. apply Hnew. apply in_map_iff in Hin. destruct Hin as (z & Hz & Hin).
  apply filter_In in Hin. apply in_map_iff. exists z. tauto.
Qed.

Lemma NoDup_map_same {A B} (f : A -> B) (l : list A) (a b : A) :
  NoDup (map f l) -> In a l -> In b l -> f a = f b -> a = b.
Proof.
  induction l as [|x l IH]; cbn; intros H Ha Hb Hf; [contradiction|].
  inversion H as [|y ys Hnot Hrest]; subst.
  destruct Ha as [<-|Ha], Hb as [<-|Hb]; auto.
  - exfalso. apply Hnot. rewrite Hf. now apply in_map.
  - exfalso. apply Hnot. rewrite <- Hf. now apply in_map.
Qed.

Lemma NoDup_patch (l : list Unit) (id : string) (patch : Unit -> Unit) :
  NoDup (map unit_key l) ->
  (forall e, In e l -> unit_id e = id ->
             (forall x, In x l -> unit_id x = id -> x = e)
             /\ (unit_key (patch e) = unit_key e
                 \/ ~ In (unit_key (patch e)) (map unit_key l))) ->
  NoDup (map unit_key (map (fun x => if (unit_id x =? id)%string then patch x else x) l)).
Proof.
  induction l as [|x l IH]; intros Hk He; [constructor|].
  inversion Hk as [|y ys Hnot Hrest]; subst. cbn [map].
  assert (Hrest' : NoDup (map unit_key
                            (map (fun x => if (unit_id x =? id)%string
                                           then patch x else x) l))).
  { apply IH; [exact Hrest|]. intros e Hin Hid.
    destruct (He e (or_intror Hin) Hid) as [Hu Hkey]. split.
    - intros z Hz. apply Hu. now right.
    - destruct Hkey as [Hkey|Hkey]; [now left|right].
      intros H. apply Hkey. now right. }
  constructor; [|exact Hrest'].
  intros Hin. apply in_map_iff in Hin. destruct Hin as (z & Hz & Hin).
  apply in_map_iff in Hin. destruct Hin as (w & Hw & Hin). subst z.
  destruct (unit_id x =? id)%string eqn:Hx; destruct (unit_id w =? id)%string eqn:Hwid.
  - apply String.eqb_eq in Hx, Hwid.
    destruct (He x (or_introl eq_refl) Hx) as [Hu _].
    assert (w = x) by (apply Hu; [now right|exact Hwid]). subst w.
    apply Hnot. now apply in_map.
  - apply String.eqb_eq in Hx.
    destruct (He x (or_introl eq_refl) Hx) as [_ [Hkey|Hkey]].
    + apply Hnot. rewrite <- Hkey, <- Hz. now apply in_map.
    + apply Hkey. rewrite <- Hz. right. now apply in_map.
  - apply String.eqb_eq in Hwid.
    destruct (He w (or_intror Hin) Hwid) as [_ [Hkey|Hkey]].
    + apply Hnot. rewrite <- Hz, Hkey. now apply in_map.
    + apply Hkey. rewrite Hz. now left.
  - apply Hnot. rewrite <- Hz. now apply in_map.
Qed.

Lemma run_checks_ok {A} (checks : list (Zod.Check A)) (a b : A) :
  Zod.run_checks checks a = Zod.ParseOk b -> b = a.
Proof.
  unfold Zod.run_checks. destruct (flat_map _ checks); [|discriminate].
  now intros [= <-].
Qed.

(** A number that the update schema lets through is not empty. *)
Lemma updateUnitSchema_number body input n :
  updateUnitSchema body = Zod.ParseOk input -> uu_unitNumber input = Some n ->
  truthy n = true.
Proof.
  unfold updateUnitSchema, Zod.object. intros Hparse Hn.
  destruct body as [| | | | |fields]; try discriminate Hparse.
  repeat (apply ap_ok in Hparse; destruct Hparse as (? & ? & Hparse & ? & ->)).
  injection Hparse as <-. cbn [uu_unitNumber] in Hn. subst.
  match goal with
  | H : Zod.field "unitNumber" _ _ = _ |- _ =>
      unfold Zod.field, Zod.optional, unitNumber_schema, Zod.string_ in H;
      destruct (get_field "unitNumber" fields) as [[| | |s| |]|]; cbn in H;
      try discriminate H;
      destruct (Zod.run_checks _ s) as [a|e] eqn:Hr; cbn in H; [|discriminate H];
      injection H as <-
  end.
  apply run_checks_ok in Hr as Ha. subst a.
  destruct s; [vm_compute in Hr; discriminate Hr|reflexivity].
Qed.

(** X28.  Unit numbers stay unique within a property: if no two units of
    a property share a number, then no call of a handler that writes to
    the units (creation, update and deletion of a unit, deletion of a
    property, an onboarding submission) can make two units share one.
    For the update this holds when unit ids are unique, and they stay so. *)
Theorem unit_numbers_stay_unique db :
  unique_numbers db ->
  (forall session propertyId body,
      unique_numbers (snd (LandlordUnits.POST session propertyId body db)))
  /\ (forall session propertyId unitId body,
         unique_unit_ids db ->
         unique_numbers (snd (LandlordUnits.PUT session propertyId unitId body db))
         /\ unique_unit_ids (snd (LandlordUnits.PUT session propertyId unitId body db)))
  /\ (forall session propertyId unitId,
         unique_numbers (snd (LandlordUnit.DELETE session propertyId unitId db)))
  /\ (forall session propertyId,
         unique_numbers (snd (LandlordProperty.DELETE session propertyId db)))
  /\ (forall session body forwardedFor now,
         unique_numbers (snd (OnboardingSubmit.POST session body forwardedFor now db))).
Proof.
  unfold unique_numbers, unique_unit_ids. fold unit_key. intros Hunique.
  split; [|split; [|split; [|split]]].
  - intros [user|] propertyId body; [|exact Hunique]. rewrite unit_POST_run.
    destruct (property_findUnique propertyId db) as [property|]; [|exact Hunique].
    destruct (not_owner_nor_admin _ user); [exact Hunique|].
    destruct (createUnitSchema body) as [input|[|i errs]]; try exact Hunique.
    destruct (LandlordUnits.unit_findUnique_propertyId_unitNumber _ _ db) eqn:Hn;
      [exact Hunique|].
    apply number_free_spec in Hn. cbv zeta. cbn [snd].
    rewrite (proj1 (proj2 (with_unit_tables _ db))), map_app. cbn [map].
    apply NoDup_app; [exact Hunique|repeat constructor; intros []|].
    intros k Hin [<-|[]]. apply in_map_iff in Hin. destruct Hin as (u & Hk & Hin).
    injection Hk as Hp Hnum. exact (Hn u Hin Hp Hnum).
  - intros [user|] propertyId unitId body Hids; [|split; assumption].
    rewrite unit_PUT_run.
    destruct (property_findUnique propertyId db) as [property|]; [|split; assumption].
    destruct (not_owner_nor_admin _ user); [split; assumption|].
    destruct (unit_findUnique unitId db) as [existing|] eqn:Hu; [|split; assumption].
    destruct (unit_propertyId existing =? propertyId)%string eqn:Hb; cbn [negb];
      [|split; assumption].
    apply String.eqb_eq in Hb.
    destruct (updateUnitSchema body) as [input|[|i errs]] eqn:Hparse;
      try (split; assumption).
    destruct (number_taken propertyId input existing db) eqn:Htaken;
      [split; assumption|].
    cbn [snd]. unfold patch_units. cbn [units set_units]. split.
    + apply NoDup_patch; [exact Hunique|]. intros e He Hid. split.
      * intros x Hx Hxid. apply (NoDup_map_same unit_id (units db)); congruence.
      * assert (e = existing).
        { destruct (find_some _ _ Hu) as [Hin Hid']. apply String.eqb_eq in Hid'.
          apply (NoDup_map_same unit_id (units db)); congruence. }
        subst e. unfold number_taken in Htaken. unfold unit_key.
        cbn [LandlordUnits.patch_unit unit_propertyId unit_unitNumber].
        destruct (uu_unitNumber input) as [n|] eqn:Hnum; [|now left].
        rewrite (updateUnitSchema_number body input n Hparse Hnum) in Htaken.
        cbn [or_keep andb] in *.
        destruct (n =? unit_unitNumber existing)%string eqn:Hsame.
        { apply String.eqb_eq in Hsame. left. now rewrite Hsame. }
        cbn [negb andb] in Htaken. right.
        destruct (LandlordUnits.unit_findUnique_propertyId_unitNumber propertyId n db)
          eqn:Hn; [discriminate Htaken|].
        apply number_free_spec in Hn. intros Hin.
        apply in_map_iff in Hin. destruct Hin as (u & Hk & Hin).
        injection Hk as Hp Hnumber. apply (Hn u Hin); congruence.
    + rewrite map_map.
      replace (map (fun x => unit_id (if (unit_id x =? unitId)%string
                                      then LandlordUnits.patch_unit input x else x))
                   (units db))
        with (map unit_id (units db)); [exact Hids|].
      apply map_ext. intros x. now destruct (unit_id x =? unitId)%string.
  - intros [user|] propertyId unitId; [|exact Hunique].
    destruct (unit_DELETE_outcome user propertyId unitId db)
      as [(_ & _ & ->)|(p & u & _ & _ & _ & _ & _ & _ & ->)]; [exact Hunique|].
    cbn [units set_units set_properties]. now apply filter_keeps_keys_distinct.
  - intros [user|] propertyId; [|exact Hunique].
    destruct (property_DELETE_outcome user propertyId db)
      as [(_ & _ & ->)|(p & _ & _ & _ & _ & ->)]; [exact Hunique|].
    cbn [units set_units set_properties]. now apply filter_keeps_keys_distinct.
  - intros [user|] body forwardedFor now; [|exact Hunique].
    rewrite onboarding_POST_run.
    destruct (completeOnboardingSchema body) as [input|[|i errs]]; try exact Hunique.
    destruct (unit_findUnique (ob_unitId input) db) as [unit|]; [|exact Hunique].
    destruct (negb (UnitStatus_beq (unit_status unit) VACANT)); [exact Hunique|].
    destruct (newDate (ob_dateOfBirth input)); [|exact Hunique].
    destruct (user_findUnique (session_id user) db); [|exact Hunique].
    destruct (newDate (ob_moveInDate input)); [|exact Hunique].
    cbn [snd units onboarded]. rewrite map_map.
    replace (map (fun x => unit_key (if (unit_id x =? ob_unitId input)%string
                                     then OnboardingSubmit.reserved x else x))
                 (units db))
      with (map unit_key (units db)); [exact Hunique|].
    apply map_ext. intros x. now destruct (unit_id x =? ob_unitId input)%string.
Qed.

Lemma one_less_one_more id (l : list Property) :
  map (fun p => if (property_id p =? id)%string
                then {| property_id := property_id p;
                        property_name := property_name p;
                        property_ownerId := property_ownerId p;
                        property_totalUnits := (property_totalUnits p - 1)%Z |}
                else p)
      (map (one_more id) l) = l.
Proof.
  induction l as [|p l IH]; cbn [map]; [reflexivity|]. rewrite IH. f_equal.
  unfold one_more. destruct (property_id p =? id)%string eqn:Hp; cbn; rewrite Hp.
  - destruct p as [pid name owner total]. cbn. f_equal. lia.
  - reflexivity.
Qed.

Lemma filter_other_ids id (l : list Unit) :
  find (fun u => (unit_id u =? id)%string) l = None ->
  filter (fun u => negb (unit_id u =? id)%string) l = l.
Proof.
  induction l as [|x l IH]; cbn; [reflexivity|].
  destruct (unit_id x =? id)%string; [discriminate|]. cbn. intros H. now rewrite IH.
Qed.

(** X29.  Creating a unit and deleting it again restores the database: the
    DELETE of a unit that POST has just created, under an id that no unit
    had and no lease refers to, answers 200 and leaves the units and the
    properties, with their unit counts, exactly as they were before the
    POST; only the id counter has moved. *)
Theorem unit_created_then_deleted user propertyId body db created :
  fst (LandlordUnits.POST (Some user) propertyId body db) = inr created ->
  unit_findUnique (unit_id (ok_data created)) db = None ->
  free_of_leases (unit_id (ok_data created)) db ->
  LandlordUnit.DELETE (Some user) propertyId (unit_id (ok_data created))
                      (snd (LandlordUnits.POST (Some user) propertyId body db))
  = (json_ok 200 None (Some "Unit deleted successfully"), bump_nextId db).
Proof.
  rewrite unit_POST_run.
  destruct (property_findUnique propertyId db) as [property|] eqn:Hp; [|discriminate].
  destruct (not_owner_nor_admin (property_ownerId property) user) eqn:Ho;
    [discriminate|].
  destruct (createUnitSchema body) as [input|[|i errs]]; try discriminate.
  destruct (LandlordUnits.unit_findUnique_propertyId_unitNumber _ _ db);
    [discriminate|].
  cbv zeta. cbn [fst snd]. intros [= <-]. cbn [ok_data]. intros Hfresh Hfree.
  set (row := LandlordUnits.new_unit (cuid (nextId db)) propertyId input) in *.
  destruct (find_some _ _ Hp) as [_ Hid].
  rewrite (unit_DELETE_success user propertyId (unit_id row) (with_unit row db)
             (one_more propertyId property) row).
  - f_equal. unfold with_unit, set_properties, set_units, bump_nextId.
    cbn [users properties units leases payments maintenanceRequests maintenanceUpdates
         auditLogs nextId unit_propertyId row LandlordUnits.new_unit].
    rewrite one_less_one_more, filter_app, filter_other_ids by exact Hfresh.
    cbn [filter unit_id row LandlordUnits.new_unit]. rewrite String.eqb_refl.
    cbn [negb]. now rewrite app_nil_r.
  - unfold property_findUnique. rewrite (proj1 (with_unit_tables row db)).
    cbn [unit_propertyId row LandlordUnits.new_unit].
    now rewrite find_one_more, Hp.
  - apply not_owner_nor_admin_false in Ho. unfold owner_or_admin, one_more.
    rewrite Hid. exact Ho.
  - unfold unit_findUnique in *. rewrite (proj1 (proj2 (with_unit_tables row db))).
    rewrite find_app_none by exact Hfresh. cbn. now rewrite String.eqb_refl.
  - reflexivity.
  - exact Hfree.
Qed.


End Units.

(** Alice adds unit 3A to Elm Court; a second unit 1A is refused. *)
Lemma unit_POST_creates_witness :
  (exists created,
      fst (LandlordUnits.POST (E := Sample.externals) (Some Sample.alice) "p1"
             (unit_body "3A") Sample.db) = inr created
      /\ units (snd (LandlordUnits.POST (E := Sample.externals) (Some Sample.alice) "p1"
                       (unit_body "3A") Sample.db))
         = units Sample.db ++ [ok_data created])
  /\ LandlordUnits.POST (E := Sample.externals) (Some Sample.alice) "p1"
       (unit_body "1A") Sample.db
     = (inl (json_error 409 "A unit with this number already exists"), Sample.db).
Proof.
  split.
  - destruct (@unit_POST_creates Sample.externals (Some Sample.alice) "p1"
                (unit_body "3A") Sample.db) as (Hcreated & _).
    cbv zeta in Hcreated.
    destruct (Hcreated {| ok_status := 201;
                          ok_data := LandlordUnits.new_unit "c100" "p1" (unit_input "3A");
                          ok_message := Some "Unit created successfully" |} eq_refl)
      as (user & property & input & _ & _ & _ & _ & _ & _ & _ & Hunits & _).
    eexists. split; [reflexivity|exact Hunits].
  - destruct (@unit_POST_creates Sample.externals (Some Sample.alice) "p1"
                (unit_body "1A") Sample.db) as (_ & _ & Htaken).
    apply (Htaken Sample.alice Sample.elm_court (unit_input "1A"));
      [reflexivity|reflexivity|left; reflexivity|reflexivity|].
    intros Hfree.
    apply (Hfree (Sample.unit_row "u1" "1A" OCCUPIED));
      [left; reflexivity|reflexivity|reflexivity].
Defined.

(** The numbers of Elm Court are still unique after Alice has added 3A. *)
Lemma unit_numbers_stay_unique_witness :
  unique_numbers (snd (LandlordUnits.POST (E := Sample.externals) (Some Sample.alice)
                         "p1" (unit_body "3A") Sample.db)).
Proof.
  destruct (@unit_numbers_stay_unique Sample.externals Sample.db) as (Hpost & _).
  - unfold unique_numbers. cbn. repeat constructor; cbn; intuition discriminate.
  - apply Hpost.
Defined.

(** Alice adds unit 3A and deletes it again. *)
Lemma unit_created_then_deleted_witness :
  LandlordUnit.DELETE (Some Sample.alice) "p1" "c100"
    (snd (LandlordUnits.POST (E := Sample.externals) (Some Sample.alice) "p1"
            (unit_body "3A") Sample.db))
  = (json_ok 200 None (Some "Unit deleted successfully"), bump_nextId Sample.db).
Proof.
  apply (@unit_created_then_deleted Sample.externals Sample.alice "p1" (unit_body "3A")
           Sample.db
           {| ok_status := 201;
              ok_data := LandlordUnits.new_unit "c100" "p1" (unit_input "3A");
              ok_message := Some "Unit created successfully" |}).
  - reflexivity.
  - reflexivity.
  - apply free_of_leases_spec. reflexivity.
Defined.

